(** * mockdeu: the interview session controller and its scoring engine

    A shallow embedding of [src/logic/analysis.py], [src/logic/interview.py]
    and [src/logic/session.py], and the properties of the specification
    checked against it.

    Conventions of the embedding.
    - Python [str] values are Rocq [string]s.  The text functions below give
      the behaviour of the Python built-ins on 7-bit ASCII text; characters
      above 127 are carried along unchanged and count neither as letters nor
      as white space.  A property that is true of ASCII text only says so
      with the hypothesis [Py.isascii].
    - Python [int] values are [Z].  Python [float] values are binary64
      numbers.  [VisaScorer64] has them as such and gives the number that
      [score()] returns.  [VisaScorer] has them as exact rationals ([Q]),
      for the properties of the scorer that do not depend on how an
      operation is rounded; the two part where a sum or a quotient is not
      exact (Example [score_in_binary64]).
    - A [dict] is a [gmap], a [set] is a [gset].
    - A method that mutates [self] is a function from the object to the
      mutated object, paired with how the call ended (returned or raised). *)

From Stdlib Require Import ZArith QArith Qround Qminmax String Ascii DecimalString List Bool Lia Lqa.
From Stdlib Require Floats.
From stdpp Require Import gmap strings list.
Import ListNotations.

Set Warnings "-clear-no-such-hyp,-inexact-float".

#[local] Open Scope string_scope.
#[local] Open Scope Z_scope.

(** * Python built-ins on text *)

Module Py.

Definition code (c : ascii) : N := N_of_ascii c.

Definition between (lo hi : N) (c : ascii) : bool :=
  ((lo <=? code c) && (code c <=? hi))%N.

(** [c.isspace()]: tab, line feed, vertical tab, form feed, carriage
    return, the four separators 0x1c-0x1f and the blank. *)
Definition isspace (c : ascii) : bool :=
  between 9 13 c || between 28 31 c || (code c =? 32)%N.

Definition isdigit (c : ascii) : bool := between 48 57 c.
Definition isupper (c : ascii) : bool := between 65 90 c.
Definition islower (c : ascii) : bool := between 97 122 c.

(** A letter or a digit. *)
Definition isalnum (c : ascii) : bool := isupper c || islower c || isdigit c.

(** The character class [[a-z0-9]] of the regular expressions. *)
Definition is_lower_alnum (c : ascii) : bool := islower c || isdigit c.

Definition lower_char (c : ascii) : ascii :=
  if isupper c then ascii_of_N (code c + 32) else c.

Definition upper_char (c : ascii) : ascii :=
  if islower c then ascii_of_N (code c - 32) else c.

Fixpoint map_chars (f : ascii -> ascii) (s : string) : string :=
  match s with
  | EmptyString => EmptyString
  | String c r => String (f c) (map_chars f r)
  end.

(** [s.lower()] and [s.upper()] *)
Definition lower : string -> string := map_chars lower_char.
Definition upper : string -> string := map_chars upper_char.

(** [s.startswith(p)] *)
Fixpoint startswith (p s : string) : bool :=
  match p, s with
  | EmptyString, _ => true
  | String a p', String b s' => Ascii.eqb a b && startswith p' s'
  | String _ _, EmptyString => false
  end.

(** [sub in s] *)
Fixpoint contains (sub s : string) : bool :=
  startswith sub s ||
  match s with
  | EmptyString => false
  | String _ r => contains sub r
  end.

(** [any(c.isdigit() for c in s)] *)
Fixpoint any_char (p : ascii -> bool) (s : string) : bool :=
  match s with
  | EmptyString => false
  | String c r => p c || any_char p r
  end.

(** [s.isascii()] *)
Definition isascii (s : string) : bool := negb (any_char (fun c => (127 <? code c)%N) s).

(** [s.count(sub)], the number of non-overlapping occurrences; [skip]
    characters of an occurrence just counted are passed over. *)
Fixpoint count_from (sub s : string) (skip : nat) : nat :=
  match s with
  | EmptyString => 0%nat
  | String _ r =>
      match skip with
      | S k => count_from sub r k
      | O => if startswith sub s
             then S (count_from sub r (String.length sub - 1))
             else count_from sub r 0
      end
  end.

Definition count (sub s : string) : nat :=
  match sub with
  | EmptyString => S (String.length s)
  | _ => count_from sub s 0
  end.

(** The maximal runs of characters that are not separators: [cur] is the
    run being read. *)
Fixpoint runs (sep : ascii -> bool) (cur s : string) : list string :=
  match s with
  | EmptyString => match cur with EmptyString => [] | _ => [cur] end
  | String c r =>
      if sep c
      then match cur with
           | EmptyString => runs sep EmptyString r
           | _ => cur :: runs sep EmptyString r
           end
      else runs sep (cur ++ String c EmptyString) r
  end.

(** [s.split()] *)
Definition split (s : string) : list string := runs isspace EmptyString s.

(** [re.findall(r"[a-z0-9]+", s)] *)
Definition findall_lower_alnum (s : string) : list string :=
  runs (fun c => negb (is_lower_alnum c)) EmptyString s.

(** [sep.join(l)] *)
Fixpoint join (sep : string) (l : list string) : string :=
  match l with
  | [] => EmptyString
  | [w] => w
  | w :: r => w ++ sep ++ join sep r
  end.

Fixpoint lstrip (s : string) : string :=
  match s with
  | EmptyString => EmptyString
  | String c r => if isspace c then lstrip r else s
  end.

Fixpoint rstrip (s : string) : string :=
  match s with
  | EmptyString => EmptyString
  | String c r =>
      match rstrip r with
      | EmptyString => if isspace c then EmptyString else String c EmptyString
      | r' => String c r'
      end
  end.

(** [s.strip()] *)
Definition strip (s : string) : string := rstrip (lstrip s).

(** [s[n:]] *)
Fixpoint drop (n : nat) (s : string) : string :=
  match n, s with
  | O, _ => s
  | S k, String _ r => drop k r
  | S _, EmptyString => EmptyString
  end.

(** [s[:n]] *)
Fixpoint take (n : nat) (s : string) : string :=
  match n, s with
  | S k, String c r => String c (take k r)
  | _, _ => EmptyString
  end.

(** Line boundaries of [s.splitlines()]. *)
Definition is_linebreak (c : ascii) : bool :=
  between 10 13 c || between 28 30 c.

Fixpoint lines_from (cur s : string) : list string :=
  match s with
  | EmptyString => match cur with EmptyString => [] | _ => [cur] end
  | String c r =>
      if is_linebreak c
      then match r with
           | String d r' =>
               if (code c =? 13)%N && (code d =? 10)%N
               then cur :: lines_from EmptyString r'
               else cur :: lines_from EmptyString r
           | EmptyString => [cur]
           end
      else lines_from (cur ++ String c EmptyString) r
  end.

(** [s.splitlines()] *)
Definition splitlines (s : string) : list string := lines_from EmptyString s.

(** [s.split(":", 1)]: one element when [s] has no colon, else the text
    before the first colon and the text after it. *)
Fixpoint split_colon_from (cur s : string) : list string :=
  match s with
  | EmptyString => [cur]
  | String c r =>
      if Ascii.eqb c ":" then [cur; r]
      else split_colon_from (cur ++ String c EmptyString) r
  end.

Definition split_colon1 (s : string) : list string :=
  split_colon_from EmptyString s.

(** [int(s)]: white space around the literal is dropped, one sign is
    allowed, and single underscores may separate digits.  [None] stands
    for [ValueError]. *)
Fixpoint digits_from (acc : Z) (after_digit : bool) (s : string) : option Z :=
  match s with
  | EmptyString => if after_digit then Some acc else None
  | String c r =>
      if isdigit c
      then digits_from (10 * acc + Z.of_N (code c - 48)) true r
      else if Ascii.eqb c "_" && after_digit
           then digits_from acc false r
           else None
  end.

Definition int (s : string) : option Z :=
  match strip s with
  | String "-" r => Z.opp <$> digits_from 0 false r
  | String "+" r => digits_from 0 false r
  | r => digits_from 0 false r
  end.

(** [str(n)] for a natural number *)
Definition str_nat (n : nat) : string :=
  NilEmpty.string_of_uint (Nat.to_uint n).

(** Truth value of a text: [if s] *)
Definition truthy (s : string) : bool :=
  match s with EmptyString => false | _ => true end.

(** [sum(l)] of a list of numbers *)
Definition sum (l : list Q) : Q := fold_left Qplus l 0%Q.

(** [round(x)]: the nearest integer, a tie going to the even
    neighbour. *)
Definition round (x : Q) : Z :=
  let f := Qfloor x in
  match (x - inject_Z f ?= 1 # 2)%Q with
  | Lt => f
  | Gt => f + 1
  | Eq => if Z.even f then f else f + 1
  end.

End Py.

(** * Exceptions and call results *)

Inductive exn : Type :=
| KeyError (key : string)
| TypeError (what : string)
| AttributeError (class attribute : string)
| OverflowError (what : string)
| ValueError (what : string).

Inductive outcome (A : Type) : Type :=
| Returned (a : A)
| Raised (e : exn).
Arguments Returned {A} a.
Arguments Raised {A} e.

(** Comparisons of rationals as booleans. *)
Definition Qleb (x y : Q) : bool := Qle_bool x y.
Definition Qltb (x y : Q) : bool := negb (Qle_bool y x).

(** [any(p in text for p in phrases)] *)
Definition any_in (phrases : list string) (text : string) : bool :=
  existsb (fun p => Py.contains p text) phrases.

(** * analysis.py: AdministrativeProcessingTracker *)

Module AdministrativeProcessingTracker.

Record t : Type := mk {
  financial_triggers : Z;
  academic_triggers : Z;
  consistency_triggers : Z;
  credibility_triggers : Z;
  ap_threshold : Z
}.

(** The [analysis] dictionary handed in by the caller; a key that is
    absent is [None]. *)
Record analysis_dict : Type := mk_analysis {
  specificity_score : option Q;
  stress_level : option Q;
  consistency_flags : option (list string)
}.

(** The dictionary returned by [analyze_response]. *)
Record report : Type := mk_report {
  triggers : list string;
  total_triggers : Z;
  should_escalate_ap : bool;
  ap_reason : option string
}.

Definition __init__ : t :=
  {| financial_triggers := 0; academic_triggers := 0;
     consistency_triggers := 0; credibility_triggers := 0;
     ap_threshold := 2 |}.

Definition uncertainty_phrases : list string :=
  ["not sure"; "don't know"; "maybe"; "probably"; "i think";
   "my father will arrange"; "we have enough"; "sufficient funds"].

Definition financial_terms : list string :=
  ["salary"; "savings"; "bank"; "amount"; "figure"].

Definition _financial_uncertainty (text : string) : bool :=
  let vague_financial := any_in uncertainty_phrases (Py.lower text) in
  let no_specifics := negb (any_in financial_terms (Py.lower text)) in
  vague_financial || no_specifics.

Definition _academic_issues (text : string) (analysis : analysis_dict) : bool :=
  let weak_preparation := Qltb (default 0%Q (specificity_score analysis)) (3 # 10) in
  let vague_motivation := (length (Py.split text) <? 8)%nat in
  weak_preparation || vague_motivation.

Definition _credibility_concerns (text : string) (analysis : analysis_dict) : bool :=
  let high_stress := Qltb (7 # 10) (default 0%Q (stress_level analysis)) in
  let multiple_fillers :=
    (3 <? Py.count "um" (Py.lower text) + Py.count "uh" (Py.lower text))%nat in
  high_stress || multiple_fillers.

Definition total (self : t) : Z :=
  financial_triggers self + academic_triggers self +
  consistency_triggers self + credibility_triggers self.

Definition _should_escalate_to_ap (self : t) : bool :=
  ap_threshold self <=? total self.

Definition bump_financial (self : t) : t :=
  mk (financial_triggers self + 1) (academic_triggers self)
     (consistency_triggers self) (credibility_triggers self) (ap_threshold self).
Definition bump_academic (self : t) : t :=
  mk (financial_triggers self) (academic_triggers self + 1)
     (consistency_triggers self) (credibility_triggers self) (ap_threshold self).
Definition bump_consistency (self : t) : t :=
  mk (financial_triggers self) (academic_triggers self)
     (consistency_triggers self + 1) (credibility_triggers self) (ap_threshold self).
Definition bump_credibility (self : t) : t :=
  mk (financial_triggers self) (academic_triggers self)
     (consistency_triggers self) (credibility_triggers self + 1) (ap_threshold self).

(** One guarded step of [analyze_response]: when the test holds, the
    counter is raised and the reason is appended. *)
Definition fire (test : bool) (bump : t -> t) (reason : string)
    (st : t * list string) : t * list string :=
  if test then (bump (fst st), (snd st ++ [reason])%list) else st.

Definition analyze_response (user_text : string) (analysis : analysis_dict)
    (turn : Z) (self : t) : t * report :=
  let st := (self, []) in
  let st := fire (_financial_uncertainty user_text) bump_financial
                 "financial verification needed" st in
  let st := fire (_academic_issues user_text analysis) bump_academic
                 "academic background verification" st in
  let st := fire (match consistency_flags analysis with
                  | Some (_ :: _) => true
                  | _ => false
                  end) bump_consistency "inconsistent information" st in
  let st := fire (_credibility_concerns user_text analysis) bump_credibility
                 "credibility concerns" st in
  let self' := fst st in
  (self',
   {| triggers := snd st;
      total_triggers := total self';
      should_escalate_ap := _should_escalate_to_ap self';
      ap_reason := match snd st with
                   | [] => None
                   | l => Some (Py.join " & " l)
                   end |}).

Definition get_ap_reason (self : t) : string :=
  let reasons :=
    ((if 2 <=? financial_triggers self then ["financial verification"] else []) ++
     (if 2 <=? academic_triggers self then ["academic background review"] else []) ++
     (if 2 <=? consistency_triggers self then ["information consistency check"] else []) ++
     (if 2 <=? credibility_triggers self then ["applicant credibility assessment"] else []))%list in
  match reasons with
  | [] => "standard administrative review"
  | l => Py.join " & " l
  end.

(** The names an instance of the class answers to: the attributes set by
    [__init__] and the functions of the class body. *)
Definition attributes : list string :=
  ["financial_triggers"; "academic_triggers"; "consistency_triggers";
   "credibility_triggers"; "ap_threshold";
   "__init__"; "analyze_response"; "_financial_uncertainty"; "_academic_issues";
   "_credibility_concerns"; "_should_escalate_to_ap"; "get_ap_reason"].

(** [self.<name>()], a call without arguments whose value is used as a
    truth value.  Of the names of the class only [_should_escalate_to_ap]
    can be called so and answers a truth value; [get_ap_reason] answers a
    text; the other names are numbers or need arguments ([TypeError]).  A
    name the class does not have raises [AttributeError]. *)
Definition call_bool_method (name : string) (self : t) : outcome bool :=
  if String.eqb name "_should_escalate_to_ap"
  then Returned (_should_escalate_to_ap self)
  else if String.eqb name "get_ap_reason"
  then Returned (Py.truthy (get_ap_reason self))
  else if existsb (String.eqb name) attributes
  then Raised (TypeError name)
  else Raised (AttributeError "AdministrativeProcessingTracker" name).

End AdministrativeProcessingTracker.

(** * analysis.py: AnswerAnalysis *)

Module AnswerAnalysis.

Definition PROFAN : gset string :=
  list_to_set ["fuck"; "fucked"; "shit"; "damn"; "bitch"].

(** [HINTS], in declaration order (the order in which the dictionary is
    iterated). *)
Definition HINTS : list (string * list string) :=
  [("academics", ["gpa"; "project"; "course"; "professor"; "lab"; "semester"; "research"; "thesis"]);
   ("funds", ["bank"; "loan"; "sponsor"; "father"; "mother"; "tuition"; "living"; "scholarship"; "rs"; "usd"]);
   ("ties", ["family"; "parents"; "home"; "property"; "house"; "land"; "return"; "community"]);
   ("intent", ["after graduation"; "plan"; "career"; "job"; "company"; "return"; "goal"; "role"])].

Definition UNCERTAINTY : list string :=
  ["maybe"; "not sure"; "i think"; "probably"; "perhaps"; "i guess"; "don't know"].
Definition CONFIDENCE : list string :=
  ["definitely"; "certainly"; "absolutely"; "for sure"; "i know"].
Definition STRESS : list string :=
  ["um"; "uh"; "er"; "well"; "actually"; "like"; "you know"].

(** The attributes set by [__init__]; [numbers] and [specificity_score],
    which come from regular-expression searches with word boundaries and
    which nothing below reads, are left out. *)
Record t : Type := mk {
  raw : string;
  lower : string;
  tokens : list string;
  token_set : gset string;
  length : nat;
  profanity : bool;
  primary : option string;
  vague : bool;
  bio_hint : bool;
  cs_hint : bool;
  uni_hint : bool;
  uncertainty_detected : bool;
  confidence_detected : bool;
  stress_indicators : nat
}.

(** [any(w in token_set for w in words)] *)
Definition any_token (words : list string) (token_set : gset string) : bool :=
  existsb (fun w => bool_decide (w ∈ token_set)) words.

(** [sum(1 for h in hints if h in token_set)] *)
Definition hint_count (hints : list string) (token_set : gset string) : nat :=
  List.length (List.filter (fun h => bool_decide (h ∈ token_set)) hints).

(** [max(counts, key=...)]: the first key, in iteration order, whose
    count is the largest. *)
Fixpoint max_key (counts : list (string * nat)) : option (string * nat) :=
  match counts with
  | [] => None
  | (k, n) :: r =>
      match max_key r with
      | Some (k', n') => if (n <? n')%nat then Some (k', n') else Some (k, n)
      | None => Some (k, n)
      end
  end.

Definition _primary_cat (token_set : gset string) : option string :=
  let counts := List.map (fun kh => (fst kh, hint_count (snd kh) token_set)) HINTS in
  match max_key counts with
  | Some (cat, n) => if (0 <? n)%nat then Some cat else None
  | None => None
  end.

Definition __init__ (text : string) : t :=
  let lower := Py.lower text in
  let tokens := Py.findall_lower_alnum lower in
  let token_set : gset string := list_to_set tokens in
  let length := List.length tokens in
  {| raw := text;
     lower := lower;
     tokens := tokens;
     token_set := token_set;
     length := length;
     profanity := bool_decide (token_set ∩ PROFAN ≠ ∅);
     primary := _primary_cat token_set;
     vague := (length <? 4)%nat || any_token UNCERTAINTY token_set;
     bio_hint := any_token ["biology"; "biological"; "life"; "zoology"] token_set;
     cs_hint := any_token ["computer"; "cs"; "programming"; "software"] token_set;
     uni_hint := any_token ["wisconsin"; "uwgb"; "green"; "bay"; "university"] token_set;
     uncertainty_detected := any_in UNCERTAINTY lower;
     confidence_detected := any_in CONFIDENCE lower;
     stress_indicators :=
       List.length (List.filter (fun w => Py.contains w lower) STRESS) |}.

End AnswerAnalysis.

(** * analysis.py: VisaScorer *)

Module VisaScorer.

Record t : Type := mk {
  points : Q;
  max_possible : Q;
  evidence : gmap string (list string);
  categories_scored : gset string;
  response_quality : list Q;
  evasiveness : Z;
  contradictions : list (string * string * string);
  claims : gmap string string;
  fraud_flags : list string;
  weights : gmap string Q
}.

Definition reset : t :=
  {| points := 0;
     max_possible := 0;
     evidence := list_to_map [("ties", []); ("funds", []); ("academics", []); ("intent", [])];
     categories_scored := ∅;
     response_quality := [];
     evasiveness := 0;
     contradictions := [];
     claims := ∅;
     fraud_flags := [];
     weights := list_to_map [("ties", 15 # 10); ("funds", 12 # 10); ("academics", 1);
                             ("intent", 13 # 10); ("purpose", 14 # 10)]%Q |}.

Definition __init__ : t := reset.

(** The keyword table [kw] of [update]. *)
Definition kw : gmap string (list string) :=
  list_to_map
    [("ties", ["family"; "parents"; "spouse"; "children"; "property"; "house"; "land"; "job"; "return"; "home"]);
     ("funds", ["sponsor"; "father"; "mother"; "bank"; "loan"; "savings"; "salary"; "tuition"; "fees"; "rs"; "usd"]);
     ("academics", ["gpa"; "grade"; "research"; "project"; "course"; "professor"; "university"; "computer science"; "biology"]);
     ("intent", ["return"; "temporary"; "after graduation"; "career"; "plan"; "goal"; "role"]);
     ("purpose", ["tourism"; "visit"; "conference"; "meeting"; "business"; "medical"; "sightseeing"; "grand canyon"; "disney"])].

(** [matched], as [update] computes it from the category and the
    lower-cased answer. *)
Definition matched (cat t : string) : bool :=
  let m := any_in (default [] (kw !! cat)) t in
  if String.eqb cat "funds" && Py.any_char Py.isdigit t then true else m.

(** The inner function [set_claim] of [_track_claims]. *)
Definition set_claim (key val : string) (self : t) : t :=
  let prev := claims self !! key in
  let contradictions' :=
    match prev with
    | Some p => if Py.truthy p && negb (String.eqb p val)
                then (contradictions self ++ [(key, p, val)])%list
                else contradictions self
    | None => contradictions self
    end in
  mk (points self) (max_possible self) (evidence self) (categories_scored self)
     (response_quality self) (evasiveness self) contradictions'
     (<[key := val]> (claims self)) (fraud_flags self) (weights self).

Definition _track_claims (t : string) (self : VisaScorer.t) : VisaScorer.t :=
  let self :=
    if any_in ["father"; "mother"; "parents"; "self"; "scholarship"; "loan"] t
    then set_claim "sponsor" "mentioned" self else self in
  let self :=
    if any_in ["wisconsin"; "green bay"; "uwgb"; "university"; "college"] t
    then set_claim "university" "mentioned" self else self in
  if any_in ["computer science"; "cs"; "biology"; "engineering"; "business"; "it"] t
  then set_claim "major" "mentioned" self else self.

Definition add_max_possible (x : Q) (self : t) : t :=
  mk (points self) (max_possible self + x) (evidence self) (categories_scored self)
     (response_quality self) (evasiveness self) (contradictions self)
     (claims self) (fraud_flags self) (weights self).

Definition add_points (x : Q) (self : t) : t :=
  mk (points self + x) (max_possible self) (evidence self) (categories_scored self)
     (response_quality self) (evasiveness self) (contradictions self)
     (claims self) (fraud_flags self) (weights self).

(** [self.evidence[cat].append(text); self.categories_scored.add(cat)];
    [old] is the list found under [cat]. *)
Definition add_evidence (cat text : string) (old : list string) (self : t) : t :=
  mk (points self) (max_possible self)
     (<[cat := (old ++ [text])%list]> (evidence self))
     ({[cat]} ∪ categories_scored self)
     (response_quality self) (evasiveness self) (contradictions self)
     (claims self) (fraud_flags self) (weights self).

Definition add_quality (x : Q) (self : t) : t :=
  mk (points self) (max_possible self) (evidence self) (categories_scored self)
     (response_quality self ++ [x])%list (evasiveness self) (contradictions self)
     (claims self) (fraud_flags self) (weights self).

Definition add_evasiveness (self : t) : t :=
  mk (points self) (max_possible self) (evidence self) (categories_scored self)
     (response_quality self) (evasiveness self + 1) (contradictions self)
     (claims self) (fraud_flags self) (weights self).

Definition add_fraud_flag (flag : string) (self : t) : t :=
  mk (points self) (max_possible self) (evidence self) (categories_scored self)
     (response_quality self) (evasiveness self) (contradictions self)
     (claims self) (fraud_flags self ++ [flag])%list (weights self).

(** The statements of [update] after the [if matched] block. *)
Definition update_tail (t : string) (self : VisaScorer.t) : VisaScorer.t :=
  let self :=
    if any_in ["don't know"; "not sure"; "maybe"; "can't say"] t
    then add_evasiveness self else self in
  let self := _track_claims t self in
  if Py.contains "fake" t || Py.contains "arranged" t
  then add_fraud_flag "Possible misrepresentation language" self
  else self.

(** [update] gives the scorer as the call leaves it and how the call
    ended.  [self.evidence[cat]] raises [KeyError] for a category without
    an evidence list, after [max_possible] and [points] were raised. *)
Definition update (cat : string) (base_points : Z) (text : string)
    (self : VisaScorer.t) : VisaScorer.t * outcome unit :=
  if negb (Py.truthy text) then (self, Returned tt) else
  let w := default 1%Q (weights self !! cat) in
  let pts := (inject_Z (Z.max 0 (Z.min 3 base_points)) * w)%Q in
  let self := add_max_possible (3 * w)%Q self in
  let t := Py.lower text in
  if matched cat t then
    let self := add_points pts self in
    match evidence self !! cat with
    | None => (self, Raised (KeyError cat))
    | Some old =>
        let self := add_evidence cat text old self in
        let self :=
          add_quality (Qmin 10 (inject_Z (Z.of_nat (List.length (Py.split t))) / 4))%Q self in
        (update_tail t self, Returned tt)
    end
  else
    let self := add_quality 4%Q self in
    (update_tail t self, Returned tt).

(** [len(set(self.evidence.keys()) - self.categories_scored)] *)
Definition uncovered (self : t) : Z :=
  Z.of_nat (size (dom (evidence self) ∖ categories_scored self)).

Definition score (self : t) : Z :=
  if Qeq_bool (max_possible self) 0 then 0 else
  let base := (100 * (points self / max_possible self))%Q in
  let penalty :=
    evasiveness self * 3 + Z.of_nat (List.length (contradictions self)) * 8 +
    uncovered self * 8 in
  let quality :=
    (Py.sum (response_quality self) /
     inject_Z (Z.max 1 (Z.of_nat (List.length (response_quality self)))) - 5)%Q in
  let final := (base - inject_Z penalty + quality * 2)%Q in
  Z.max 0 (Z.min 100 (Py.round final)).

End VisaScorer.

(** * interview.py: InterviewState *)

Module InterviewState.

Record t : Type := mk {
  turn : Z;
  asked_categories : list string;
  category_set : gset string;
  questions_history : list string;
  darwin_check_used : bool
}.

(** [deque(maxlen=25)] *)
Definition maxlen : nat := 25.

Definition __init__ : t :=
  {| turn := 0; asked_categories := []; category_set := ∅;
     questions_history := []; darwin_check_used := false |}.

(** [deque.append]: a full deque drops its oldest element. *)
Definition deque_append (x : string) (d : list string) : list string :=
  let d' := (d ++ [x])%list in
  if (maxlen <? List.length d')%nat then List.tl d' else d'.

Definition _norm (s : string) : string :=
  let s := Py.lower s in
  let s := Py.map_chars
             (fun c => if Py.is_lower_alnum c || Py.isspace c then c else " "%char) s in
  Py.join " " (Py.split s).

Definition _jaccard (a b : string) : Q :=
  let sa : gset string := list_to_set (Py.split a) in
  let sb : gset string := list_to_set (Py.split b) in
  if bool_decide (sa = ∅) || bool_decide (sb = ∅) then 0%Q
  else (inject_Z (Z.of_nat (size (sa ∩ sb))) / inject_Z (Z.of_nat (size (sa ∪ sb))))%Q.

Definition record (q : string) (cat_hint : option string) (self : t) : t :=
  let history :=
    if Py.truthy q then deque_append (_norm q) (questions_history self)
    else questions_history self in
  match cat_hint with
  | Some (String c r) =>
      mk (turn self) (asked_categories self ++ [String c r])%list
         ({[String c r]} ∪ category_set self) history (darwin_check_used self)
  | _ =>
      mk (turn self) (asked_categories self) (category_set self) history
         (darwin_check_used self)
  end.

Definition order : list string := ["funds"; "intent"; "ties"; "academics"].

(** [l.count(c)] *)
Definition count_of (c : string) (l : list string) : nat :=
  List.length (List.filter (String.eqb c) l).

(** [min(counts, key=counts.get)]: the first key whose count is the
    smallest. *)
Fixpoint min_key (counts : list (string * nat)) : option (string * nat) :=
  match counts with
  | [] => None
  | (k, n) :: r =>
      match min_key r with
      | Some (k', n') => if (n' <? n)%nat then Some (k', n') else Some (k, n)
      | None => Some (k, n)
      end
  end.

Definition least_asked (self : t) : string :=
  let counts := List.map (fun c => (c, count_of c (asked_categories self))) order in
  match min_key counts with
  | Some (c, _) => c
  | None => ""
  end.

Definition next_target_category (self : t) : string :=
  if (turn self <? 5) && (size (category_set self) <? 3)%nat then
    match List.find (fun c => negb (bool_decide (c ∈ category_set self))) order with
    | Some c => c
    | None => least_asked self
    end
  else least_asked self.

Definition too_similar (new_q : string) (threshold : Q) (self : t) : bool :=
  let n := _norm new_q in
  existsb (fun prev => Qleb threshold (_jaccard prev n)) (questions_history self).

Definition set_turn (n : Z) (self : t) : t :=
  mk n (asked_categories self) (category_set self) (questions_history self)
     (darwin_check_used self).

Definition set_darwin_check_used (b : bool) (self : t) : t :=
  mk (turn self) (asked_categories self) (category_set self)
     (questions_history self) b.

End InterviewState.

(** * interview.py: parse_ai_with_ap *)

Module Parser.

(** The local variables of the loop over the lines of the reply. *)
Record locals : Type := mk_locals {
  q : option string;
  decision : option (string * string);
  cat : string;
  pts : Z;
  score_line : option string;
  dec_line : option string
}.

(** The tuple that [parse_ai_with_ap] returns. *)
Record parsed : Type := mk_parsed {
  p_q : option string;
  p_decision : option (string * string);
  p_done : bool;
  p_score_line : option string;
  p_dec_line : option string
}.

Definition start : locals :=
  {| q := None; decision := None; cat := "intent"; pts := 1;
     score_line := None; dec_line := None |}.

(** The dictionary [m] of category synonyms. *)
Definition m : gmap string string :=
  list_to_map [("education", "academics"); ("financial", "funds");
               ("finance", "funds"); ("family", "ties"); ("purpose", "intent")].

(** The body of the [try] under [SCORE:]: the assignments made before an
    exception stay. *)
Definition score_body (t : string) (cat0 : string) (pts0 : Z) : string * Z :=
  let body := Py.strip (Py.drop 6 t) in
  match Py.split_colon1 body with
  | [c; p] =>
      let c := Py.lower (Py.strip c) in
      let cat := default c (m !! c) in
      match Py.int (Py.strip p) with
      | Some n => (cat, n)
      | None => (cat, pts0)
      end
  | _ => (cat0, pts0)
  end.

(** The body of the [try] under [DECISION:]. *)
Definition decision_body (t : string) : string * string :=
  let body := Py.strip (Py.drop 9 t) in
  if Py.contains ":" body then
    match Py.split_colon1 body with
    | [typ; reason] => (Py.strip typ, Py.strip reason)
    | _ => (Py.strip body, "Based on interview responses")
    end
  else (Py.strip body, "Based on interview responses").

Definition step (v : locals) (line : string) : locals :=
  let t := Py.strip line in
  if negb (Py.truthy t) then v else
  let u := Py.upper t in
  if Py.startswith "QUESTION:" u then
    mk_locals (Some (Py.strip (Py.drop 9 t))) (decision v) (cat v) (pts v)
              (score_line v) (dec_line v)
  else if Py.startswith "SCORE:" u then
    let cp := score_body t (cat v) (pts v) in
    mk_locals (q v) (decision v) (fst cp) (snd cp) (Some t) (dec_line v)
  else if Py.startswith "DECISION:" u then
    mk_locals (q v) (Some (decision_body t)) (cat v) (pts v) (score_line v) (Some t)
  else v.

Definition scan (ai_text : string) : locals :=
  fold_left step (Py.splitlines ai_text) start.

Definition scored_categories : list string :=
  ["academics"; "funds"; "ties"; "intent"; "purpose"].

(** The "basic sanitization" of the question. *)
Definition sanitize (q : option string) : option string :=
  match q with
  | Some (String c r) =>
      let ql := Py.lower (String c r) in
      if Py.contains "ds-160" ql then q
      else if any_in ["show me"; "provide document"] ql
           then Some "Can you explain that in more detail?"
           else q
  | _ => q
  end.

Definition parse_ai_with_ap (ai_text user_text : string) (scorer : VisaScorer.t)
    : VisaScorer.t * outcome parsed :=
  if negb (Py.truthy ai_text)
  then (scorer, Returned (mk_parsed None None false None None))
  else
    let v := scan ai_text in
    let fed :=
      if existsb (String.eqb (cat v)) scored_categories
      then VisaScorer.update (cat v) (pts v) user_text scorer
      else (scorer, Returned tt) in
    match fed with
    | (scorer', Raised e) => (scorer', Raised e)
    | (scorer', Returned _) =>
        (scorer',
         Returned (mk_parsed (sanitize (q v)) (decision v)
                             (match decision v with Some _ => true | None => false end)
                             (score_line v) (dec_line v)))
    end.

End Parser.

(** * session.py: InterviewSession *)

Module InterviewSession.

(** Calls made to the presentation and speech collaborators. *)
Inductive event : Type :=
| display_officer (text : string)
| speak_async (text : string)
| display_applicant (text : string)
| update_status (text : string).

(** The controller: its trackers, the message history (role, content),
    the transcript, and the calls it has made to its collaborators. *)
Record t : Type := mk {
  ap_tracker : AdministrativeProcessingTracker.t;
  scorer : VisaScorer.t;
  istate : InterviewState.t;
  history : list (string * string);
  transcript : list string;
  emitted : list event
}.

(** What the collaborators answer during one run: the configuration, the
    applicant's data, and per loop index what the transcriber heard and
    what the language model replied ([None] or an empty text: nothing). *)
Record world : Type := mk_world {
  max_turns : nat;
  major : string;
  interface_ok : bool;
  stt_ok : bool;
  opening_choice : nat;
  listen_async : nat -> option string;
  reply_async : nat -> option string
}.

Definition __init__ : t :=
  {| ap_tracker := AdministrativeProcessingTracker.__init__;
     scorer := VisaScorer.__init__;
     istate := InterviewState.__init__;
     history := []; transcript := []; emitted := [] |}.

Definition nl : string := String (ascii_of_nat 10) EmptyString.

Definition emit (e : list event) (self : t) : t :=
  mk (ap_tracker self) (scorer self) (istate self) (history self)
     (transcript self) (emitted self ++ e)%list.

Definition log (line : string) (self : t) : t :=
  mk (ap_tracker self) (scorer self) (istate self) (history self)
     (transcript self ++ [line])%list (emitted self).

Definition remember (role content : string) (self : t) : t :=
  mk (ap_tracker self) (scorer self) (istate self)
     (history self ++ [(role, content)])%list (transcript self) (emitted self).

Definition set_history (h : list (string * string)) (self : t) : t :=
  mk (ap_tracker self) (scorer self) (istate self) h (transcript self) (emitted self).

Definition set_scorer (s : VisaScorer.t) (self : t) : t :=
  mk (ap_tracker self) s (istate self) (history self) (transcript self) (emitted self).

Definition set_istate (i : InterviewState.t) (self : t) : t :=
  mk (ap_tracker self) (scorer self) i (history self) (transcript self) (emitted self).

Definition _speak_and_log (text : string) (self : t) : t :=
  log ("OFFICER: " ++ text) (emit [display_officer text; speak_async text] self).

Definition _handle_decision (decision : string * string) (self : t) : t :=
  _speak_and_log ("Decision: " ++ fst decision ++ ". " ++ snd decision) self.

Definition _parse_ai (ai_text user_text : string) (self : t)
    : t * outcome Parser.parsed :=
  let r := Parser.parse_ai_with_ap ai_text user_text (scorer self) in
  (set_scorer (fst r) self, snd r).

Definition _make_final_decision (self : t) : outcome (string * string) :=
  let final_score := VisaScorer.score (scorer self) in
  match AdministrativeProcessingTracker.call_bool_method
          "should_escalate_to_ap" (ap_tracker self) with
  | Raised e => Raised e
  | Returned true =>
      Returned ("ADMINISTRATIVE PROCESSING",
                "Case requires verification: " ++
                AdministrativeProcessingTracker.get_ap_reason (ap_tracker self))
  | Returned false =>
      let no_fraud := match VisaScorer.fraud_flags (scorer self) with [] => true | _ => false end in
      let no_contra := match VisaScorer.contradictions (scorer self) with [] => true | _ => false end in
      if (70 <=? final_score) && no_fraud && no_contra
      then Returned ("APPROVED", "Credible non-immigrant intent demonstrated.")
      else
        let reasons :=
          ((if no_contra then [] else ["inconsistent information"]) ++
           (if no_fraud then [] else ["credibility concerns"]) ++
           (if final_score <? 70 then ["insufficient ties demonstration"] else []))%list in
        let reason_text :=
          match Py.join "; " reasons with
          | EmptyString => "insufficient evidence of non-immigrant intent"
          | r => r
          end in
        Returned ("DENIED", reason_text ++ " under INA 214(b).")
  end.

Definition openings : list string :=
  ["Good morning. What's the purpose of your trip to the United States?";
   "Hello, pass me your documents.";
   "Morning. What is the purpose of your trip to the United States?"].

Definition clarification : string := "I need you to answer the question clearly.".

Definition fallback : string :=
  "Let me ask you another question. What confirms you'll return home after studies?".

Definition analysis_injection (turn : nat) (user_text : string)
    (primary : option string) (target_cat : string) : string :=
  "ANALYSIS (INTERNAL - DO NOT OUTPUT):" ++ nl ++
  "- Turn: " ++ Py.str_nat (turn + 1) ++ nl ++
  "- Answer: " ++ Py.take 200 user_text ++ nl ++
  "- Primary Category: " ++
    match primary with Some (String c r) => String c r | _ => "unclear" end ++ nl ++
  "- Suggested Next Category: " ++ target_cat ++ nl ++
  "REMINDER: Ask natural follow-up questions.".

(** How one pass through the body of the [for] loop ends. *)
Inductive flow : Type :=
| next_turn                          (* the end of the body, or [continue] *)
| break (decision : string * string). (* [break], with [decision] set *)

(** A text that is [None] or empty is false. *)
Definition heard (o : option string) : option string :=
  match o with
  | Some (String c r) => Some (String c r)
  | _ => None
  end.

(** The start of a pass: the two status updates around the call of the
    transcriber. *)
Definition hear (self : t) : t :=
  emit [update_status "Processing..."] (emit [update_status "Listening..."] self).

(** From an answer to the reply of the language model: the answer is
    shown and logged, the target category is chosen (with the one-shot
    knowledge check), the analysis note is put into the history for the
    call and taken out of it again. *)
Definition take_answer (w : world) (turn : nat) (user_text : string) (self : t) : t :=
  let self := emit [display_applicant user_text] self in
  let self := log ("APPLICANT: " ++ user_text) self in
  let self := remember "user" user_text self in
  let analysis := AnswerAnalysis.__init__ user_text in
  let target_cat := InterviewState.next_target_category (istate self) in
  let darwin :=
    negb (InterviewState.darwin_check_used (istate self)) &&
    (AnswerAnalysis.bio_hint analysis || Py.contains "biology" (Py.lower (major w))) in
  let target_cat := if darwin then "academics" else target_cat in
  let self :=
    if darwin
    then set_istate (InterviewState.set_darwin_check_used true (istate self)) self
    else self in
  let self :=
    remember "assistant"
      (analysis_injection turn user_text (AnswerAnalysis.primary analysis) target_cat)
      self in
  set_history
    (List.filter (fun m => negb (Py.startswith "ANALYSIS (INTERNAL" (snd m)))
                 (history self)) self.

(** No usable reply: the fallback question. *)
Definition ask_fallback (self : t) : t :=
  let self := _speak_and_log fallback self in
  remember "assistant" ("QUESTION: " ++ fallback ++ nl ++ "SCORE: intent:0") self.

(** A reply without a decision: the question, if there is one, is asked,
    and the turn counter advances. *)
Definition ask_next (q : option string) (ai_text : string) (self : t) : t :=
  let self :=
    match q with
    | Some (String c r) => remember "assistant" ai_text (_speak_and_log (String c r) self)
    | _ => self
    end in
  let self :=
    set_istate
      (InterviewState.set_turn (InterviewState.turn (istate self) + 1) (istate self))
      self in
  set_istate (InterviewState.record (default "" q) None (istate self)) self.

(** The body of [for turn in range(self.cfg.max_turns)].  [done] is
    [decision is not None], so the test of [done] is the case analysis
    on the decision. *)
Definition turn_body (w : world) (turn : nat) (self : t) : t * outcome flow :=
  let self := hear self in
  match heard (listen_async w turn) with
  | None =>
      if (turn <? 2)%nat
      then (_speak_and_log clarification self, Returned next_turn)
      else (self, Returned
              (break ("DENIED", "Unable to provide clear responses during interview.")))
  | Some user_text =>
      let self := take_answer w turn user_text self in
      match heard (reply_async w turn) with
      | None => (ask_fallback self, Returned next_turn)
      | Some ai_text =>
          match _parse_ai ai_text user_text self with
          | (self, Raised e) => (self, Raised e)
          | (self, Returned p) =>
              match Parser.p_decision p with
              | Some decision =>
                  (_handle_decision decision self, Returned (break decision))
              | None => (ask_next (Parser.p_q p) ai_text self, Returned next_turn)
              end
          end
      end
  end.

(** The [for] loop over the remaining turn indices.  The result is the
    value of [decision] when the loop is left: [None] when the range is
    used up, since every pass that sets [decision] also breaks. *)
Fixpoint turn_loop (w : world) (turns : list nat) (self : t)
    : t * outcome (option (string * string)) :=
  match turns with
  | [] => (self, Returned None)
  | turn :: rest =>
      match turn_body w turn self with
      | (self, Raised e) => (self, Raised e)
      | (self, Returned (break d)) => (self, Returned (Some d))
      | (self, Returned next_turn) => turn_loop w rest self
      end
  end.

(** [run] up to the point where the decision is known; saving the results
    and producing the feedback happen after it in the collaborators.  The
    style and the embassy that are asked for only go into the prompt given
    to the language model, whose replies are those of the [world].  The
    value is the decision, or [None] when an initialisation failed.
    Every call of a collaborator is taken to return: the runs described
    are those in which loading the DS-160 data, the interface, the
    transcriber and the language model do not raise. *)
Definition run (w : world) (self : t) : t * outcome (option (string * string)) :=
  if negb (interface_ok w) then (self, Returned None) else
  if negb (stt_ok w) then (self, Returned None) else
  let opening_question :=
    nth (opening_choice w mod 3) openings "" in
  let self := _speak_and_log opening_question self in
  let self :=
    remember "assistant" ("QUESTION: " ++ opening_question ++ nl ++ "SCORE: intent:0") self in
  match turn_loop w (seq 0 (max_turns w)) self with
  | (self, Raised e) => (self, Raised e)
  | (self, Returned (Some decision)) => (self, Returned (Some decision))
  | (self, Returned None) =>
      match _make_final_decision self with
      | Raised e => (self, Raised e)
      | Returned decision =>
          (_handle_decision decision self, Returned (Some decision))
      end
  end.

End InterviewSession.

(** * Sequences of calls *)

(** A call of [analyze_response]: the answer, the feature dictionary and
    the turn number. *)
Definition ap_call : Type := string * AdministrativeProcessingTracker.analysis_dict * Z.

Definition analyze_all (calls : list ap_call) (self : AdministrativeProcessingTracker.t)
    : AdministrativeProcessingTracker.t :=
  fold_left
    (fun tr (c : ap_call) =>
       fst (AdministrativeProcessingTracker.analyze_response (fst (fst c)) (snd (fst c)) (snd c) tr))
    calls self.

(** A call of [update]: the category, the points and the answer.  The
    scorer is the object as each call leaves it, whether the call returned
    or raised. *)
Definition update_call : Type := string * Z * string.

Definition update_all (calls : list update_call) (self : VisaScorer.t) : VisaScorer.t :=
  fold_left
    (fun sc (c : update_call) => fst (VisaScorer.update (fst (fst c)) (snd (fst c)) (snd c) sc))
    calls self.

(** * The parts of the score as the specification words them *)

Module Spec.

(** The categories that have an evidence list in [reset], and those that
    have a keyword list in [update]. *)
Definition evidence_categories : list string :=
  ["ties"; "funds"; "academics"; "intent"].
Definition keyword_categories : list string :=
  ["ties"; "funds"; "academics"; "intent"; "purpose"].

(** How many of the categories [cats] were never covered. *)
Definition never_covered (cats : list string) (s : VisaScorer.t) : Z :=
  Z.of_nat (List.length
    (List.filter (fun c => negb (bool_decide (c ∈ VisaScorer.categories_scored s))) cats)).

(** The mean of a list of numbers (of the empty list: 0). *)
Definition mean (l : list Q) : Q :=
  (Py.sum l / inject_Z (Z.of_nat (List.length l)))%Q.

Definition clamp (lo hi x : Q) : Q := Qmax lo (Qmin hi x).


End Spec.

(** Every category with an evidence list has one: the shape the evidence
    dictionary has after [reset]. *)
Definition evidence_shape (s : VisaScorer.t) : Prop :=
  dom (VisaScorer.evidence s) = list_to_set Spec.evidence_categories.

(** Every recorded claim is the marker, and no contradiction is logged. *)
Definition only_markers (s : VisaScorer.t) : Prop :=
  VisaScorer.contradictions s = [] /\
  forall k v, VisaScorer.claims s !! k = Some v -> v = "mentioned".


(** A question with at least one letter or digit: its normal form has a
    word. *)
Definition has_word (q : string) : bool := Py.any_char Py.isalnum q.


(** * Replies with a terminal decision *)

(** A terminal decision line: a line that reads [DECISION:] after the
    surrounding white space, in any letter case. *)
Definition is_decision_line (line : string) : bool :=
  Py.startswith "DECISION:" (Py.upper (Py.strip line)).

(** The decision a reply announces: type and reason of its last decision
    line. *)
Definition announced (ai_text : string) : option (string * string) :=
  match last (List.filter is_decision_line (Py.splitlines ai_text)) with
  | Some line => Some (Parser.decision_body (Py.strip line))
  | None => None
  end.

(** The scorer after the category and points parsed from a reply were fed
    to it with the applicant's answer. *)
Definition fed_scorer (ai_text user_text : string) (scorer : VisaScorer.t) : VisaScorer.t :=
  let v := Parser.scan ai_text in
  if existsb (String.eqb (Parser.cat v)) Parser.scored_categories
  then fst (VisaScorer.update (Parser.cat v) (Parser.pts v) user_text scorer)
  else scorer.

(** * Sample sessions *)

Definition denied_unclear : string * string :=
  ("DENIED", "Unable to provide clear responses during interview.").

(** The applicant answers in the first two turns and is not heard in the
    third; the language model never replies. *)
Definition silent_in_third_turn : InterviewSession.world :=
  InterviewSession.mk_world 9 "" true true 0
    (fun turn => if (turn <? 2)%nat then Some "I will study physics" else None)
    (fun _ => None).

(** The applicant is never heard. *)
Definition always_silent : InterviewSession.world :=
  InterviewSession.mk_world 9 "" true true 0 (fun _ => None) (fun _ => None).

(** Every answer hedges about money and every reply is a plain question. *)
Definition hedging_applicant : InterviewSession.world :=
  InterviewSession.mk_world 9 "" true true 0
    (fun _ => Some "I don't know, maybe my father will help")
    (fun _ => Some "QUESTION: Who is paying for your studies?").

(** The applicant answers and the reply is a denial. *)
Definition denied_at_once : InterviewSession.world :=
  InterviewSession.mk_world 9 "" true true 0
    (fun _ => Some "I plan to return home")
    (fun _ => Some "DECISION: DENIED:weak ties").

(** * analysis.py: VisaScorer.summary *)

Module Summary.

(** The dictionary that [summary] returns; [categories_covered], the list
    of a set in no particular order, is kept as the set. *)
Record t : Type := mk {
  score : Z;
  evidence_count : gmap string nat;
  categories_covered : gset string;
  evasiveness : Z;
  contradictions : list (string * string * string);
  fraud_flags : list string
}.

Definition summary (self : VisaScorer.t) : t :=
  {| score := VisaScorer.score self;
     evidence_count := List.length <$> VisaScorer.evidence self;
     categories_covered := VisaScorer.categories_scored self;
     evasiveness := VisaScorer.evasiveness self;
     contradictions := VisaScorer.contradictions self;
     fraud_flags := VisaScorer.fraud_flags self |}.

End Summary.

(** The covered categories are those with a text in their evidence list. *)
Definition covered_has_evidence (s : VisaScorer.t) : Prop :=
  forall c, c ∈ VisaScorer.categories_scored s <->
            exists x l, VisaScorer.evidence s !! c = Some (x :: l).

(** [s'] holds all that [s] holds: numbers not smaller, lists and sets
    extended. *)
Definition grows (s s' : VisaScorer.t) : Prop :=
  (VisaScorer.points s <= VisaScorer.points s')%Q /\
  (VisaScorer.max_possible s <= VisaScorer.max_possible s')%Q /\
  VisaScorer.evasiveness s <= VisaScorer.evasiveness s' /\
  VisaScorer.categories_scored s ⊆ VisaScorer.categories_scored s' /\
  VisaScorer.response_quality s `prefix_of` VisaScorer.response_quality s' /\
  VisaScorer.fraud_flags s `prefix_of` VisaScorer.fraud_flags s' /\
  forall c l, VisaScorer.evidence s !! c = Some l ->
              exists k, VisaScorer.evidence s' !! c = Some (l ++ k)%list.

(** The quality values lie on the scale from 0 to 10. *)
Definition quality_on_scale (s : VisaScorer.t) : Prop :=
  Forall (fun x => (0 <= x <= 10)%Q) (VisaScorer.response_quality s).

(** * Sequences of recorded questions *)

(** A call of [record]: the question and the category hint. *)
Definition record_call : Type := string * option string.

Definition record_all (calls : list record_call) (self : InterviewState.t)
    : InterviewState.t :=
  fold_left (fun st (c : record_call) => InterviewState.record (fst c) (snd c) st)
            calls self.

(** The normal forms of the questions of the calls that are not empty, in
    the order of the calls. *)
Definition recorded_questions (calls : list record_call) : list string :=
  List.map InterviewState._norm (List.filter Py.truthy (List.map fst calls)).

(** The set of words of a text. *)
Definition word_set (s : string) : gset string := list_to_set (Py.split s).

(** How often each category of [order] was asked. *)
Definition times_asked (c : string) (self : InterviewState.t) : nat :=
  InterviewState.count_of c (InterviewState.asked_categories self).

(** * Lines of a reply *)

(** A line that [parse_ai_with_ap] acts on: after the surrounding white
    space it begins with one of the three prefixes, in any letter case. *)
Definition recognised (line : string) : bool :=
  let u := Py.upper (Py.strip line) in
  Py.startswith "QUESTION:" u || Py.startswith "SCORE:" u || Py.startswith "DECISION:" u.

(** * The transcript and the history *)

(** A line of the transcript begins with who spoke. *)
Definition transcript_line (line : string) : bool :=
  Py.startswith "OFFICER: " line || Py.startswith "APPLICANT: " line.

(** A message that begins like the internal analysis note. *)
Definition is_analysis_note (m : string * string) : bool :=
  Py.startswith "ANALYSIS (INTERNAL" (snd m).

(** The texts shown as the officer's, and the texts spoken, in order. *)
Definition shown (events : list InterviewSession.event) : list string :=
  List.flat_map (fun e => match e with
                          | InterviewSession.display_officer t => [t]
                          | _ => []
                          end) events.

Definition spoken (events : list InterviewSession.event) : list string :=
  List.flat_map (fun e => match e with
                          | InterviewSession.speak_async t => [t]
                          | _ => []
                          end) events.

(** The officer's lines of a transcript, without the prefix. *)
Definition officer_lines (transcript : list string) : list string :=
  List.map (Py.drop 9) (List.filter (Py.startswith "OFFICER: ") transcript).

(** The session state at the start of the loop of [run]: the opening
    question was asked. *)
Definition opened (w : InterviewSession.world) (self : InterviewSession.t)
    : InterviewSession.t :=
  let opening_question :=
    nth (InterviewSession.opening_choice w mod 3) InterviewSession.openings "" in
  InterviewSession.remember "assistant"
    ("QUESTION: " ++ opening_question ++ InterviewSession.nl ++ "SCORE: intent:0")
    (InterviewSession._speak_and_log opening_question self).

(** What [n] passes of the loop may do to the interview state: the record
    of asked categories is kept, the turn counter rises by at most [n],
    and a knowledge check that was used stays used. *)
Definition istate_keeps (n : Z) (i i' : InterviewState.t) : Prop :=
  InterviewState.asked_categories i' = InterviewState.asked_categories i /\
  InterviewState.category_set i' = InterviewState.category_set i /\
  InterviewState.turn i <= InterviewState.turn i' <= InterviewState.turn i + n /\
  (InterviewState.darwin_check_used i = true ->
   InterviewState.darwin_check_used i' = true).

(** Lines added to the transcript and calls made to the presentation and
    the speech collaborators that agree: every line names its speaker, and
    the officer's lines are what was shown and what was spoken. *)
Definition said_consistently (lines : list string)
    (events : list InterviewSession.event) : Prop :=
  forallb transcript_line lines = true /\
  officer_lines lines = shown events /\
  shown events = spoken events.

(** A part of a pass that only adds to the transcript and to the calls
    made, and does so consistently. *)
Definition says_consistently (self self' : InterviewSession.t) : Prop :=
  exists lines events,
    InterviewSession.transcript self' = (InterviewSession.transcript self ++ lines)%list /\
    InterviewSession.emitted self' = (InterviewSession.emitted self ++ events)%list /\
    said_consistently lines events.

(** * cli.py and stt.py: the status line *)

(** The text that [CLIInterface.update_status] and
    [OptimizedSTTClient._print_status] write after the escape sequence: a
    text of more than 90 characters is cut to its last 87, behind three
    dots. *)
Definition status_line (text : string) : string :=
  let max_len := 90%nat in
  if (max_len <? String.length text)%nat
  then "..." ++ Py.drop (String.length text - (max_len - 3)) text
  else text.

(** * ds160.py: the case id *)

Module DS160Manager.

(** The character class [\w] on ASCII text: for a [str] the class also
    holds the letters and digits beyond ASCII, which this model does not
    tell apart; what is proved of a name is proved of an ASCII name. *)
Definition is_word_char (c : ascii) : bool := Py.isalnum c || Ascii.eqb c "_".

Fixpoint keep_chars (p : ascii -> bool) (s : string) : string :=
  match s with
  | EmptyString => EmptyString
  | String c r => if p c then String c (keep_chars p r) else keep_chars p r
  end.

(** [re.sub(r"\W+", "", s)] for an ASCII [s] *)
Definition remove_non_word (s : string) : string := keep_chars is_word_char s.

(** [s.replace(a, b)] for single characters *)
Definition replace_char (a b : ascii) (s : string) : string :=
  Py.map_chars (fun c => if Ascii.eqb c a then b else c) s.

(** The case id made by [load] and [_collect] from the name, the visa
    type and the time stamp. *)
Definition case_id (name visa_type ts : string) : string :=
  let name := Py.lower (remove_non_word name) in
  let safe_visa_type := replace_char "\" "_" (replace_char "/" "_" visa_type) in
  name ++ "_" ++ safe_visa_type ++ "_" ++ ts.

(** A path separator. *)
Definition is_separator (c : ascii) : bool := Ascii.eqb c "/" || Ascii.eqb c "\".

End DS160Manager.

(** * session.py and interview.py: the officer's style and the embassy *)

Module Style.

(** [style_map] and [emb_map] of [run]. *)
Definition style_map : gmap string string :=
  list_to_map [("1", "strict"); ("2", "skeptical"); ("3", "thorough");
               ("4", "friendly_strict")].
Definition emb_map : gmap string string :=
  list_to_map [("1", "kathmandu"); ("2", "mumbai"); ("3", "beijing"); ("4", "generic")].

Definition strict : string :=
  "Strict, concise, pressing for specifics; brief acknowledgments; pivot if vague.".
Definition skeptical : string :=
  "Probing, doubtful, hunting for inconsistencies; challenges answers.".

(** [styles] of [build_realistic_officer_prompt]. *)
Definition styles : gmap string string :=
  list_to_map
    [("strict", strict);
     ("medium", "Professional, neutral; steady pacing; thorough but fair.");
     ("easy", "Patient, clear, but still formal; helpful but maintains standards.");
     ("friendly", "Warm yet professional; conversational but serious about criteria.");
     ("skeptical", skeptical)].

Definition generic : string := "Standard F-1 adjudication.".

(** [emb] of [_build_f1_prompt]. *)
Definition emb : gmap string string :=
  list_to_map
    [("generic", generic);
     ("kathmandu", "Emphasize verifiable funding sources and home-family ties.");
     ("mumbai", "Emphasize academic fit and English proficiency.")].

(** [style_map.get(style, self.cfg.default_style)], then
    [styles.get(style, styles["strict"])]: the style text of the prompt
    for the choice entered. *)
Definition style_text (default_style choice : string) : string :=
  let style := default default_style (style_map !! choice) in
  default strict (styles !! style).

(** [emb_map.get(embassy, self.cfg.default_embassy)], then
    [emb.get(embassy, emb["generic"])]: the embassy context of the F-1
    prompt for the choice entered. *)
Definition embassy_context (default_embassy choice : string) : string :=
  let embassy := default default_embassy (emb_map !! choice) in
  default generic (emb !! embassy).

End Style.


(** * Replies parsed in turn *)

(** The scorer after the calls of [parse_ai_with_ap] for a list of replies,
    each with the answer it follows. *)
Definition parse_all (calls : list (string * string)) (scorer : VisaScorer.t) : VisaScorer.t :=
  fold_left (fun sc c => fst (Parser.parse_ai_with_ap (fst c) (snd c) sc)) calls scorer.

(** * Binary64 numbers *)

(** Python's [float] is the IEEE 754 binary64 format, every operation
    rounded to the nearest value with ties to even: the primitive floats.
    A decimal literal stands for the nearest binary64 value, as it does in
    Python. *)

Module Float.
Import PrimFloat SpecFloat FloatOps.

(** The value of a finite float; [None] for an infinity and for
    not-a-number. *)
Definition to_Q (x : float) : option Q :=
  match Prim2SF x with
  | S754_zero _ => Some 0%Q
  | S754_finite s m e => Some (inject_Z (if s then Z.neg m else Z.pos m) * 2 ^ e)%Q
  | S754_infinity _ => None
  | S754_nan => None
  end.

(** The float nearest to an integer. *)
Definition of_Z (n : Z) : float := SF2Prim (binary_normalize prec emax n 0 false).

(** An [int] operand of float arithmetic is converted to a float;
    [OverflowError] when it lies beyond the range. *)
Definition of_int (n : Z) : outcome float :=
  match binary_normalize prec emax n 0 false with
  | S754_infinity _ => Raised (OverflowError "int too large to convert to float")
  | x => Returned (SF2Prim x)
  end.

(** [x == n] for a float [x] and an int [n]: the values are compared
    exactly. *)
Definition eq_int (x : float) (n : Z) : bool :=
  match to_Q x with
  | Some q => Qeq_bool q (inject_Z n)
  | None => false
  end.

(** What [round(x)] raises for a float without an integer value. *)
Definition round_error (x : float) : exn :=
  if is_nan x then ValueError "cannot convert float NaN to integer"
  else OverflowError "cannot convert float infinity to integer".

(** [round(x)]: the integer nearest to the value of [x], ties to even. *)
Definition round (x : float) : outcome Z :=
  match to_Q x with
  | Some q => Returned (Py.round q)
  | None => Raised (round_error x)
  end.

(** [sum(l)]: the elements are added from the left, starting from 0.
    (From Python 3.12 on [sum] carries a correction term along; the
    result is the same whenever every partial sum is exact, as it is for
    the quality values, multiples of 0.25 up to 10.) *)
Definition sum (l : list float) : float := fold_left add l 0%float.

End Float.

(** * analysis.py: VisaScorer in binary64 *)

(** The class [VisaScorer] once more, with [points], [max_possible], the
    weights and the quality values in binary64 as the code has them; this
    is the model that gives the number [score()] returns.  The int values
    4 and 10 that [update] appends to the quality list are kept as the
    floats of the same value, which [sum] and [/] treat alike.  The tables
    and the matching of [VisaScorer] are used as they are. *)

Module VisaScorer64.
Import PrimFloat.

Record t : Type := mk {
  points : float;
  max_possible : float;
  evidence : gmap string (list string);
  categories_scored : gset string;
  response_quality : list float;
  evasiveness : Z;
  contradictions : list (string * string * string);
  claims : gmap string string;
  fraud_flags : list string;
  weights : gmap string float
}.

Definition reset : t :=
  {| points := 0;
     max_possible := 0;
     evidence := list_to_map [("ties", []); ("funds", []); ("academics", []); ("intent", [])];
     categories_scored := ∅;
     response_quality := [];
     evasiveness := 0;
     contradictions := [];
     claims := ∅;
     fraud_flags := [];
     weights := list_to_map [("ties", 1.5); ("funds", 1.2); ("academics", 1.0);
                             ("intent", 1.3); ("purpose", 1.4)]%float |}.

Definition __init__ : t := reset.

(** The inner function [set_claim] of [_track_claims]. *)
Definition set_claim (key val : string) (self : t) : t :=
  let prev := claims self !! key in
  let contradictions' :=
    match prev with
    | Some p => if Py.truthy p && negb (String.eqb p val)
                then (contradictions self ++ [(key, p, val)])%list
                else contradictions self
    | None => contradictions self
    end in
  mk (points self) (max_possible self) (evidence self) (categories_scored self)
     (response_quality self) (evasiveness self) contradictions'
     (<[key := val]> (claims self)) (fraud_flags self) (weights self).

Definition _track_claims (t : string) (self : VisaScorer64.t) : VisaScorer64.t :=
  let self :=
    if any_in ["father"; "mother"; "parents"; "self"; "scholarship"; "loan"] t
    then set_claim "sponsor" "mentioned" self else self in
  let self :=
    if any_in ["wisconsin"; "green bay"; "uwgb"; "university"; "college"] t
    then set_claim "university" "mentioned" self else self in
  if any_in ["computer science"; "cs"; "biology"; "engineering"; "business"; "it"] t
  then set_claim "major" "mentioned" self else self.

Definition add_max_possible (x : float) (self : t) : t :=
  mk (points self) (max_possible self + x)%float (evidence self) (categories_scored self)
     (response_quality self) (evasiveness self) (contradictions self)
     (claims self) (fraud_flags self) (weights self).

Definition add_points (x : float) (self : t) : t :=
  mk (points self + x)%float (max_possible self) (evidence self) (categories_scored self)
     (response_quality self) (evasiveness self) (contradictions self)
     (claims self) (fraud_flags self) (weights self).

Definition add_evidence (cat text : string) (old : list string) (self : t) : t :=
  mk (points self) (max_possible self)
     (<[cat := (old ++ [text])%list]> (evidence self))
     ({[cat]} ∪ categories_scored self)
     (response_quality self) (evasiveness self) (contradictions self)
     (claims self) (fraud_flags self) (weights self).

Definition add_quality (x : float) (self : t) : t :=
  mk (points self) (max_possible self) (evidence self) (categories_scored self)
     (response_quality self ++ [x])%list (evasiveness self) (contradictions self)
     (claims self) (fraud_flags self) (weights self).

Definition add_evasiveness (self : t) : t :=
  mk (points self) (max_possible self) (evidence self) (categories_scored self)
     (response_quality self) (evasiveness self + 1) (contradictions self)
     (claims self) (fraud_flags self) (weights self).

Definition add_fraud_flag (flag : string) (self : t) : t :=
  mk (points self) (max_possible self) (evidence self) (categories_scored self)
     (response_quality self) (evasiveness self) (contradictions self)
     (claims self) (fraud_flags self ++ [flag])%list (weights self).

(** The statements of [update] after the [if matched] block. *)
Definition update_tail (t : string) (self : VisaScorer64.t) : VisaScorer64.t :=
  let self :=
    if any_in ["don't know"; "not sure"; "maybe"; "can't say"] t
    then add_evasiveness self else self in
  let self := _track_claims t self in
  if Py.contains "fake" t || Py.contains "arranged" t
  then add_fraud_flag "Possible misrepresentation language" self
  else self.

(** [min(10, len(t.split()) / 4)] *)
Definition quality_of (t : string) : float :=
  let x := (Float.of_Z (Z.of_nat (List.length (Py.split t))) / 4)%float in
  if (x <? 10)%float then x else 10%float.

Definition update (cat : string) (base_points : Z) (text : string)
    (self : VisaScorer64.t) : VisaScorer64.t * outcome unit :=
  if negb (Py.truthy text) then (self, Returned tt) else
  let w := default 1%float (weights self !! cat) in
  let pts := (Float.of_Z (Z.max 0 (Z.min 3 base_points)) * w)%float in
  let self := add_max_possible (3 * w)%float self in
  let t := Py.lower text in
  if VisaScorer.matched cat t then
    let self := add_points pts self in
    match evidence self !! cat with
    | None => (self, Raised (KeyError cat))
    | Some old =>
        let self := add_evidence cat text old self in
        let self := add_quality (quality_of t) self in
        (update_tail t self, Returned tt)
    end
  else
    let self := add_quality 4%float self in
    (update_tail t self, Returned tt).

(** [len(set(self.evidence.keys()) - self.categories_scored)] *)
Definition uncovered (self : t) : Z :=
  Z.of_nat (size (dom (evidence self) ∖ categories_scored self)).

(** [score()] returns an int, or raises where [round] does: when [final]
    is an infinity or not-a-number, and when the penalty is beyond the
    range of a float. *)
Definition score (self : t) : outcome Z :=
  if Float.eq_int (max_possible self) 0 then Returned 0 else
  let base := (100 * (points self / max_possible self))%float in
  let penalty :=
    evasiveness self * 3 + Z.of_nat (List.length (contradictions self)) * 8 +
    uncovered self * 8 in
  let quality :=
    (Float.sum (response_quality self) /
     Float.of_Z (Z.max 1 (Z.of_nat (List.length (response_quality self)))) - 5)%float in
  match Float.of_int penalty with
  | Raised e => Raised e
  | Returned p =>
      let final := (base - p + quality * 2)%float in
      match Float.round final with
      | Raised e => Raised e
      | Returned r => Returned (Z.max 0 (Z.min 100 r))
      end
  end.

End VisaScorer64.

Definition update64_all (calls : list update_call) (self : VisaScorer64.t) : VisaScorer64.t :=
  fold_left
    (fun sc (c : update_call) => fst (VisaScorer64.update (fst (fst c)) (snd (fst c)) (snd c) sc))
    calls self.

(** * The score as the specification words it, in binary64 *)

Module Spec64.
Import PrimFloat.

(** How many of the categories [cats] were never covered. *)
Definition never_covered (cats : list string) (s : VisaScorer64.t) : Z :=
  Z.of_nat (List.length
    (List.filter (fun c => negb (bool_decide (c ∈ VisaScorer64.categories_scored s))) cats)).

(** The mean of a list of numbers (of the empty list: 0). *)
Definition mean (l : list float) : float :=
  match l with
  | [] => 0%float
  | _ => (Float.sum l / Float.of_Z (Z.of_nat (List.length l)))%float
  end.

(** round(clamp(x, 0, 100)) for a float [x] with a value: clamping and
    rounding to an integer are exact.  For an infinity or not-a-number
    the result is what [round(x)] raises. *)
Definition round_clamp (x : float) : outcome Z :=
  match Float.to_Q x with
  | Some q => Returned (Py.round (Spec.clamp 0 100 q))
  | None => Raised (Float.round_error x)
  end.

(** round(clamp(base - penalty + qualityAdjustment, 0, 100)), each
    operation in binary64, the never-covered categories being counted
    among [cats]. *)
Definition score_formula (cats : list string) (s : VisaScorer64.t) : outcome Z :=
  let base := (100 * (VisaScorer64.points s / VisaScorer64.max_possible s))%float in
  let penalty :=
    3 * VisaScorer64.evasiveness s
    + 8 * Z.of_nat (List.length (VisaScorer64.contradictions s))
    + 8 * never_covered cats s in
  let qualityAdjustment := (2 * (mean (VisaScorer64.response_quality s) - 5))%float in
  match Float.of_int penalty with
  | Raised e => Raised e
  | Returned p => round_clamp (base - p + qualityAdjustment)%float
  end.

Definition score (cats : list string) (s : VisaScorer64.t) : outcome Z :=
  if Float.eq_int (VisaScorer64.max_possible s) 0 then Returned 0
  else score_formula cats s.

End Spec64.

(** The exact scorer and the binary64 scorer hold the same records: they
    agree on everything but the numbers (and have as many quality
    values). *)
Definition same_records (a : VisaScorer.t) (b : VisaScorer64.t) : Prop :=
  VisaScorer.evidence a = VisaScorer64.evidence b /\
  VisaScorer.categories_scored a = VisaScorer64.categories_scored b /\
  List.length (VisaScorer.response_quality a) = List.length (VisaScorer64.response_quality b) /\
  VisaScorer.evasiveness a = VisaScorer64.evasiveness b /\
  VisaScorer.contradictions a = VisaScorer64.contradictions b /\
  VisaScorer.claims a = VisaScorer64.claims b /\
  VisaScorer.fraud_flags a = VisaScorer64.fraud_flags b.

(** The evidence dictionary has the four lists of [reset]. *)
Definition evidence_shape64 (s : VisaScorer64.t) : Prop :=
  dom (VisaScorer64.evidence s) = list_to_set Spec.evidence_categories.

(** The binary64 scorer after one matched academics answer. *)
Definition one_academic_answer64 : VisaScorer64.t :=
  update64_all [("academics", 3, "my gpa is high")] VisaScorer64.reset.

(** After a funds answer and an intent answer the points are 2.4 + 3.9
    and the most possible is 3.6 + 3.9, neither sum exact in binary64. *)
Definition funds_then_intent : list update_call :=
  [("funds", 2, "bank"); ("intent", 3, "plan")].

(** * The escalation tracker *)

Section Escalation.
Import AdministrativeProcessingTracker.

Lemma fire_threshold test bump reason st :
  (forall x, ap_threshold (bump x) = ap_threshold x) ->
  ap_threshold (fst (fire test bump reason st)) = ap_threshold (fst st).
Proof.
  intros Hb. unfold fire. destruct test; simpl; [apply Hb | reflexivity].
Qed.

Lemma analyze_response_threshold text a turn self :
  ap_threshold (fst (analyze_response text a turn self)) = ap_threshold self.
Proof.
  unfold analyze_response. cbn [fst].
  rewrite !fire_threshold; auto.
Qed.

Lemma analyze_all_threshold calls self :
  ap_threshold (analyze_all calls self) = ap_threshold self.
Proof.
  revert self. induction calls as [|c calls IH]; intros self; [reflexivity|].
  unfold analyze_all in *. cbn [fold_left]. rewrite IH.
  apply analyze_response_threshold.
Qed.

Lemma escalate_iff self :
  ap_threshold self = 2 ->
  _should_escalate_to_ap self = true <->
  2 <= financial_triggers self + academic_triggers self +
       consistency_triggers self + credibility_triggers self.
Proof.
  intros H. unfold _should_escalate_to_ap, total. rewrite H.
  apply Z.leb_le.
Qed.

(** C3.  After any sequence of [analyze_response] calls on a fresh
    tracker, a further call reports [should_escalate_ap] exactly when the
    four counters of the tracker add up to at least 2, and the reported
    running total is that sum. *)
Theorem escalation_iff_two_triggers (calls : list ap_call) text a turn :
  let r := analyze_response text a turn (analyze_all calls __init__) in
  let sum := financial_triggers (fst r) + academic_triggers (fst r) +
             consistency_triggers (fst r) + credibility_triggers (fst r) in
  (should_escalate_ap (snd r) = true <-> 2 <= sum) /\
  total_triggers (snd r) = sum /\
  (_should_escalate_to_ap (fst r) = true <-> 2 <= sum).
Proof.
  intros r sum.
  assert (Hthr : ap_threshold (fst r) = 2).
  { subst r. rewrite analyze_response_threshold, analyze_all_threshold. reflexivity. }
  assert (Hrep : should_escalate_ap (snd r) = _should_escalate_to_ap (fst r)) by reflexivity.
  assert (Htot : total_triggers (snd r) = total (fst r)) by reflexivity.
  rewrite Hrep, Htot. split; [|split].
  - apply escalate_iff; assumption.
  - reflexivity.
  - apply escalate_iff; assumption.
Qed.

End Escalation.

(** * Rounding *)

Section Rounding.
#[local] Open Scope Q_scope.

Lemma round_bounds x : (Qfloor x <= Py.round x <= Qfloor x + 1)%Z.
Proof.
  unfold Py.round. destruct (x - inject_Z (Qfloor x) ?= 1 # 2); [|lia|lia].
  destruct (Z.even (Qfloor x)); lia.
Qed.

Lemma round_le_Z x (k : Z) : x <= inject_Z k -> (Py.round x <= k)%Z.
Proof.
  intros Hx.
  assert (Hf : (Qfloor x <= k)%Z).
  { rewrite <- (Qfloor_Z k). apply Qfloor_resp_le. exact Hx. }
  destruct (Z.eq_dec (Qfloor x) k) as [Heq|Hne].
  - unfold Py.round. rewrite Heq.
    assert (Hlt : x - inject_Z k < 1 # 2) by lra.
    rewrite (proj1 (Qlt_alt _ _) Hlt). lia.
  - pose proof (round_bounds x). lia.
Qed.

Lemma round_ge_Z x (k : Z) : inject_Z k <= x -> (k <= Py.round x)%Z.
Proof.
  intros Hx.
  assert (Hf : (k <= Qfloor x)%Z).
  { rewrite <- (Qfloor_Z k). apply Qfloor_resp_le. exact Hx. }
  pose proof (round_bounds x). lia.
Qed.

Lemma round_Z (k : Z) : Py.round (inject_Z k) = k.
Proof.
  apply Z.le_antisymm; [apply round_le_Z | apply round_ge_Z]; apply Qle_refl.
Qed.

Lemma round_Qeq x y : x == y -> Py.round x = Py.round y.
Proof.
  intros H. unfold Py.round. rewrite (Qfloor_comp _ _ H).
  assert (Hc : (x - inject_Z (Qfloor y) ?= 1 # 2) = (y - inject_Z (Qfloor y) ?= 1 # 2)).
  { apply Qcompare_comp; [rewrite H|]; reflexivity. }
  rewrite Hc. reflexivity.
Qed.

(** Clamping to [0, 100] before or after rounding gives the same
    integer. *)
Lemma clamp_round x :
  Z.max 0 (Z.min 100 (Py.round x)) = Py.round (Qmax 0 (Qmin 100 x)).
Proof.
  destruct (Qlt_le_dec x 0) as [Hneg|Hpos].
  - assert (H0 : (Py.round x <= 0)%Z) by (apply (round_le_Z x 0); unfold inject_Z; lra).
    rewrite (round_Qeq (Qmax 0 (Qmin 100 x)) (inject_Z 0)).
    + rewrite round_Z. lia.
    + rewrite Q.max_l; [reflexivity|].
      apply Q.min_le_iff. right. lra.
  - destruct (Qlt_le_dec 100 x) as [Hbig|Hsmall].
    + assert (H1 : (100 <= Py.round x)%Z) by (apply (round_ge_Z x 100); unfold inject_Z; lra).
      rewrite (round_Qeq (Qmax 0 (Qmin 100 x)) (inject_Z 100)).
      * rewrite round_Z. lia.
      * rewrite Q.min_l by lra. rewrite Q.max_r by lra. reflexivity.
    + assert (H0 : (0 <= Py.round x)%Z) by (apply (round_ge_Z x 0); unfold inject_Z; lra).
      assert (H1 : (Py.round x <= 100)%Z) by (apply (round_le_Z x 100); unfold inject_Z; lra).
      rewrite (round_Qeq (Qmax 0 (Qmin 100 x)) x).
      * lia.
      * rewrite Q.min_r by lra. rewrite Q.max_r by lra. reflexivity.
Qed.

End Rounding.

(** * The evidence scorer *)

Section Scorer.
Import VisaScorer.

(** ** Claims and contradictions *)

Lemma set_claim_markers key s :
  only_markers s -> only_markers (set_claim key "mentioned" s).
Proof.
  intros [Hc Hm]. unfold only_markers, set_claim. cbn [contradictions claims]. split.
  - destruct (claims s !! key) as [p|] eqn:Hp; [|exact Hc].
    rewrite (Hm _ _ Hp). cbn. exact Hc.
  - intros k v. rewrite lookup_insert. case_decide.
    + intros [= <-]. reflexivity.
    + apply Hm.
Qed.

Lemma track_claims_markers text s :
  only_markers s -> only_markers (_track_claims text s).
Proof.
  intros H. unfold _track_claims.
  repeat match goal with
         | |- context [if ?b then _ else _] => destruct b
         end; repeat apply set_claim_markers; exact H.
Qed.

Lemma update_tail_markers text s :
  only_markers s -> only_markers (update_tail text s).
Proof.
  intros H. unfold update_tail.
  assert (He : only_markers
                 (if any_in ["don't know"; "not sure"; "maybe"; "can't say"] text
                  then add_evasiveness s else s)).
  { destruct (any_in _ text); exact H. }
  apply (track_claims_markers text) in He.
  destruct (Py.contains "fake" text || Py.contains "arranged" text); exact He.
Qed.

Lemma update_markers cat pts text s :
  only_markers s -> only_markers (fst (update cat pts text s)).
Proof.
  intros H. unfold update.
  destruct (negb (Py.truthy text)); [exact H|].
  destruct (matched cat (Py.lower text)).
  - cbn [evidence add_points add_max_possible].
    destruct (evidence s !! cat); cbn [fst].
    + apply update_tail_markers. exact H.
    + exact H.
  - cbn [fst]. apply update_tail_markers. exact H.
Qed.

Lemma update_all_markers calls s :
  only_markers s -> only_markers (update_all calls s).
Proof.
  revert s. induction calls as [|c calls IH]; intros s H; [exact H|].
  unfold update_all in *. cbn [fold_left]. apply IH, update_markers, H.
Qed.

(** C8.  Whatever calls of [update] are made on a fresh scorer, with any
    categories, points and answers, the list of contradictions stays
    empty, and the only value ever stored for a claim key is the marker
    "mentioned". *)
Theorem contradictions_stay_empty (calls : list update_call) :
  contradictions (update_all calls reset) = [] /\
  forall key val, claims (update_all calls reset) !! key = Some val -> val = "mentioned".
Proof.
  apply update_all_markers. split; [reflexivity|].
  intros k v. cbn [claims reset]. rewrite lookup_empty. discriminate.
Qed.

End Scorer.

Section ScoreWithoutCredit.
Import VisaScorer.

Lemma track_claims_frame text s :
  let s' := _track_claims text s in
  points s' = points s /\ evidence s' = evidence s /\
  categories_scored s' = categories_scored s /\
  response_quality s' = response_quality s /\ evasiveness s' = evasiveness s /\
  max_possible s' = max_possible s.
Proof.
  unfold _track_claims.
  repeat match goal with
         | |- context [if ?b then _ else _] => destruct b
         end; cbn; repeat split; reflexivity.
Qed.

Lemma update_tail_frame text s :
  let s' := update_tail text s in
  points s' = points s /\ evidence s' = evidence s /\
  categories_scored s' = categories_scored s /\
  response_quality s' = response_quality s /\
  (evasiveness s <= evasiveness s' <= evasiveness s + 1) /\
  max_possible s' = max_possible s.
Proof.
  unfold update_tail.
  set (s1 := if any_in _ text then add_evasiveness s else s).
  assert (H1 : points s1 = points s /\ evidence s1 = evidence s /\
               categories_scored s1 = categories_scored s /\
               response_quality s1 = response_quality s /\
               (evasiveness s <= evasiveness s1 <= evasiveness s + 1) /\
               max_possible s1 = max_possible s).
  { subst s1. destruct (any_in _ text); cbn; repeat split; lia. }
  destruct (track_claims_frame text s1) as (P & E & C & R & V & M).
  destruct H1 as (P1 & E1 & C1 & R1 & V1 & M1).
  destruct (Py.contains "fake" text || Py.contains "arranged" text); cbn;
    rewrite ?P, ?E, ?C, ?R, ?V, ?M; repeat split; try assumption; lia.
Qed.




Lemma sum_app l x : Py.sum (l ++ [x]) = (Py.sum l + x)%Q.
Proof. unfold Py.sum. rewrite fold_left_app. reflexivity. Qed.






End ScoreWithoutCredit.

Section ScoreFormula.
Import VisaScorer.

Lemma size_difference_filter (l : list string) (X : gset string) :
  NoDup l ->
  size ((list_to_set l : gset string) ∖ X) =
  List.length (List.filter (fun c => negb (bool_decide (c ∈ X))) l).
Proof.
  induction 1 as [|a l Ha Hl IH].
  - cbn. rewrite difference_disjoint_L by set_solver. apply size_empty.
  - cbn [list_to_set List.filter]. destruct (decide (a ∈ X)) as [Hin|Hout].
    + rewrite (bool_decide_eq_true_2 _ Hin). cbn [negb]. rewrite <- IH.
      f_equal. set_solver.
    + rewrite (bool_decide_eq_false_2 _ Hout). cbn [negb List.length]. rewrite <- IH.
      replace (({[a]} ∪ list_to_set l) ∖ X) with ({[a]} ∪ (list_to_set l : gset string) ∖ X)
        by set_solver.
      rewrite size_union by set_solver. rewrite size_singleton. reflexivity.
Qed.

Lemma uncovered_shape s :
  evidence_shape s -> uncovered s = Spec.never_covered Spec.evidence_categories s.
Proof.
  intros H. unfold uncovered, Spec.never_covered. rewrite H. f_equal.
  apply size_difference_filter.
  unfold Spec.evidence_categories. repeat (constructor; [set_solver|]). constructor.
Qed.

Lemma quality_mean l :
  (Py.sum l / inject_Z (Z.max 1 (Z.of_nat (List.length l))) == Spec.mean l)%Q.
Proof.
  unfold Spec.mean. destruct l as [|x l].
  - vm_compute. reflexivity.
  - replace (Z.max 1 (Z.of_nat (List.length (x :: l)))) with (Z.of_nat (List.length (x :: l)))
      by (cbn [List.length]; lia).
    reflexivity.
Qed.

Lemma update_shape cat pts text s :
  evidence_shape s -> evidence_shape (fst (update cat pts text s)).
Proof.
  intros H. unfold update.
  destruct (negb (Py.truthy text)); [exact H|].
  destruct (matched cat (Py.lower text)); cbn [evidence add_points add_max_possible].
  - destruct (evidence s !! cat) as [old|] eqn:Hold; cbn [fst]; [|exact H].
    match goal with |- evidence_shape (update_tail ?x ?y) =>
      destruct (update_tail_frame x y) as (_ & E & _) end.
    unfold evidence_shape in *. rewrite E. cbn [evidence add_quality add_evidence].
    rewrite dom_insert_L, <- H.
    assert (cat ∈ dom (evidence s)) by (apply elem_of_dom; eauto).
    set_solver.
  - cbn [fst].
    match goal with |- evidence_shape (update_tail ?x ?y) =>
      destruct (update_tail_frame x y) as (_ & E & _) end.
    unfold evidence_shape in *. rewrite E. exact H.
Qed.

Lemma reset_shape : evidence_shape reset.
Proof.
  unfold evidence_shape. cbn [evidence reset]. rewrite dom_list_to_map_L. reflexivity.
Qed.

Lemma update_all_shape calls s :
  evidence_shape s -> evidence_shape (update_all calls s).
Proof.
  revert s. induction calls as [|c calls IH]; intros s H; [exact H|].
  unfold update_all in *. cbn [fold_left]. apply IH, update_shape, H.
Qed.

End ScoreFormula.

(** * The score in binary64 *)

Section ScoreFormula64.
Import PrimFloat SpecFloat FloatOps FloatAxioms VisaScorer64.

(** Binary64 multiplication is commutative. *)
Lemma float_mul_comm (x y : float) : (x * y = y * x)%float.
Proof.
  apply Prim2SF_inj. rewrite !mul_spec. unfold SF64mul, SFmul.
  destruct (Prim2SF x) as [sx|sx| |sx mx ex], (Prim2SF y) as [sy|sy| |sy my ey];
    try reflexivity; rewrite (xorb_comm sx sy); try reflexivity.
  rewrite (Pos.mul_comm mx my), (Z.add_comm ex ey). reflexivity.
Qed.

Lemma uncovered64_shape s :
  evidence_shape64 s -> uncovered s = Spec64.never_covered Spec.evidence_categories s.
Proof.
  intros H. unfold uncovered, Spec64.never_covered. rewrite H. f_equal.
  apply size_difference_filter.
  unfold Spec.evidence_categories. repeat (constructor; [set_solver|]). constructor.
Qed.

Lemma quality_mean64 l :
  (Float.sum l / Float.of_Z (Z.max 1 (Z.of_nat (List.length l))))%float = Spec64.mean l.
Proof.
  destruct l as [|x l]; [reflexivity|].
  unfold Spec64.mean.
  replace (Z.max 1 (Z.of_nat (List.length (x :: l)))) with (Z.of_nat (List.length (x :: l)))
    by (cbn [List.length]; lia).
  reflexivity.
Qed.

Lemma track_claims64_evidence text s : evidence (_track_claims text s) = evidence s.
Proof.
  unfold _track_claims.
  repeat match goal with
         | |- context [if ?b then _ else _] => destruct b
         end; reflexivity.
Qed.

Lemma update_tail64_evidence text s : evidence (update_tail text s) = evidence s.
Proof.
  unfold update_tail.
  destruct (Py.contains "fake" text || Py.contains "arranged" text);
    cbn [evidence add_fraud_flag]; rewrite track_claims64_evidence;
    destruct (any_in _ text); reflexivity.
Qed.

Lemma update64_shape cat pts text s :
  evidence_shape64 s -> evidence_shape64 (fst (update cat pts text s)).
Proof.
  intros H. unfold update.
  destruct (negb (Py.truthy text)); [exact H|].
  destruct (VisaScorer.matched cat (Py.lower text)); cbn [evidence add_points add_max_possible].
  - destruct (evidence s !! cat) as [old|] eqn:Hold; cbn [fst]; [|exact H].
    unfold evidence_shape64 in *. rewrite update_tail64_evidence.
    cbn [evidence add_quality add_evidence].
    rewrite dom_insert_L, <- H.
    assert (cat ∈ dom (evidence s)) by (apply elem_of_dom; eauto).
    set_solver.
  - cbn [fst]. unfold evidence_shape64 in *. rewrite update_tail64_evidence. exact H.
Qed.

Lemma reset64_shape : evidence_shape64 reset.
Proof.
  unfold evidence_shape64. cbn [evidence reset]. rewrite dom_list_to_map_L. reflexivity.
Qed.

(** Every scorer reached from [reset] by calls of [update] has the four
    evidence lists. *)
Lemma update64_all_shape calls s :
  evidence_shape64 s -> evidence_shape64 (update64_all calls s).
Proof.
  revert s. induction calls as [|c calls IH]; intros s H; [exact H|].
  unfold update64_all in *. cbn [fold_left]. apply IH, update64_shape, H.
Qed.

(** ** The two scorers side by side *)

Lemma set_claim_same key val a b :
  same_records a b ->
  same_records (VisaScorer.set_claim key val a) (set_claim key val b).
Proof.
  intros (E & C & R & V & K & L & F).
  unfold same_records, VisaScorer.set_claim, set_claim. cbn.
  rewrite L, K. repeat split; assumption.
Qed.

Lemma track_claims_same text a b :
  same_records a b ->
  same_records (VisaScorer._track_claims text a) (_track_claims text b).
Proof.
  intros H. unfold VisaScorer._track_claims, _track_claims.
  repeat match goal with
         | |- context [if ?c then _ else _] => destruct c
         end; repeat apply set_claim_same; exact H.
Qed.

Lemma update_tail_same text a b :
  same_records a b ->
  same_records (VisaScorer.update_tail text a) (update_tail text b).
Proof.
  intros H. unfold VisaScorer.update_tail, update_tail.
  assert (H1 : same_records
                 (if any_in ["don't know"; "not sure"; "maybe"; "can't say"] text
                  then VisaScorer.add_evasiveness a else a)
                 (if any_in ["don't know"; "not sure"; "maybe"; "can't say"] text
                  then add_evasiveness b else b)).
  { destruct (any_in _ text); [|exact H].
    destruct H as (E & C & R & V & K & L & F).
    unfold same_records. cbn. rewrite V. repeat split; assumption. }
  apply (track_claims_same text) in H1.
  destruct (Py.contains "fake" text || Py.contains "arranged" text); [|exact H1].
  revert H1. generalize (VisaScorer._track_claims text
               (if any_in ["don't know"; "not sure"; "maybe"; "can't say"] text
                then VisaScorer.add_evasiveness a else a)).
  generalize (_track_claims text
               (if any_in ["don't know"; "not sure"; "maybe"; "can't say"] text
                then add_evasiveness b else b)).
  intros b1 a1 (E & C & R & V & K & L & F).
  unfold same_records. cbn. rewrite F. repeat split; assumption.
Qed.

(** A call of [update] ends alike on the two scorers and leaves them
    with the same records. *)
Lemma update_same cat pts text a b :
  same_records a b ->
  same_records (fst (VisaScorer.update cat pts text a)) (fst (update cat pts text b)) /\
  snd (VisaScorer.update cat pts text a) = snd (update cat pts text b).
Proof.
  intros H. unfold VisaScorer.update, update.
  destruct (negb (Py.truthy text)); [split; [exact H | reflexivity]|].
  destruct (VisaScorer.matched cat (Py.lower text)).
  - cbn [VisaScorer.evidence VisaScorer.add_points VisaScorer.add_max_possible
         evidence add_points add_max_possible].
    pose proof H as (E & C & R & V & K & L & F). rewrite <- E.
    destruct (VisaScorer.evidence a !! cat) as [old|]; cbn [fst snd].
    + split; [|reflexivity]. apply update_tail_same.
      unfold same_records. cbn. rewrite !length_app, E, C, R.
      repeat split; assumption.
    + split; [|reflexivity]. unfold same_records. cbn. repeat split; assumption.
  - cbn [fst snd]. split; [|reflexivity]. apply update_tail_same.
    destruct H as (E & C & R & V & K & L & F).
    unfold same_records. cbn. rewrite !length_app, R. repeat split; assumption.
Qed.

(** What is proved of the records of the exact scorer holds of the
    binary64 scorer after the same calls. *)
Lemma update_all_same calls a b :
  same_records a b -> same_records (update_all calls a) (update64_all calls b).
Proof.
  revert a b. induction calls as [|c calls IH]; intros a b H; [exact H|].
  unfold update_all, update64_all in *. cbn [fold_left].
  apply IH, update_same, H.
Qed.

Lemma reset_same : same_records VisaScorer.reset reset.
Proof. repeat split. Qed.

(** C2 (as amended).  For a scorer whose evidence dictionary has the four
    lists that [reset] gives it (ties, funds, academics, intent),
    [score()] is 0 when max-possible is 0 and otherwise
    round(clamp(base - penalty + qualityAdjustment, 0, 100)) with every
    operation in binary64 as written, where the penalty counts the
    never-covered categories among those four; when the value before
    clamping is an infinity or not-a-number, or the penalty is beyond the
    range of a float, [score()] raises.  The four lists are there after
    [reset] and stay through every sequence of [update] calls. *)
Theorem score_matches_formula_on_evidence_categories (s : VisaScorer64.t) :
  evidence_shape64 s ->
  score s = Spec64.score Spec.evidence_categories s /\
  evidence_shape64 reset /\
  forall calls : list update_call, evidence_shape64 (update64_all calls s).
Proof.
  intros Hs. split; [|split; [apply reset64_shape|]].
  - unfold score, Spec64.score.
    destruct (Float.eq_int (max_possible s) 0); [reflexivity|].
    unfold Spec64.score_formula.
    rewrite (uncovered64_shape s Hs).
    set (n := Spec64.never_covered Spec.evidence_categories s).
    set (e := evasiveness s). set (k := Z.of_nat (List.length (contradictions s))).
    replace (e * 3 + k * 8 + n * 8) with (3 * e + 8 * k + 8 * n) by lia.
    destruct (Float.of_int (3 * e + 8 * k + 8 * n)) as [p|err]; [|reflexivity].
    rewrite (quality_mean64 (response_quality s)).
    rewrite (float_mul_comm _ 2).
    unfold Float.round, Spec64.round_clamp, Spec.clamp.
    destruct (Float.to_Q _) as [q|]; [|reflexivity].
    rewrite clamp_round. reflexivity.
  - intros calls. apply update64_all_shape, Hs.
Qed.

End ScoreFormula64.

(** * The topic tracker *)

Section TopicTracker.
Import InterviewState.



Lemma any_char_map p f s :
  Py.any_char p (Py.map_chars f s) = Py.any_char (fun c => p (f c)) s.
Proof.
  induction s as [|c s IH]; [reflexivity|]. cbn. rewrite IH. reflexivity.
Qed.






End TopicTracker.

(** * The session controller *)

Section Session.
Import InterviewSession.

Lemma make_final_decision_raises self :
  _make_final_decision self =
  Raised (AttributeError "AdministrativeProcessingTracker" "should_escalate_to_ap").
Proof. reflexivity. Qed.

(** What the pieces of a pass leave alone. *)
Lemma take_answer_frame w turn user_text self :
  ap_tracker (take_answer w turn user_text self) = ap_tracker self /\
  scorer (take_answer w turn user_text self) = scorer self.
Proof.
  unfold take_answer.
  match goal with |- context [if ?b then _ else _] => destruct b end;
    split; reflexivity.
Qed.

Lemma ask_next_frame q ai_text self :
  ap_tracker (ask_next q ai_text self) = ap_tracker self /\
  scorer (ask_next q ai_text self) = scorer self.
Proof. unfold ask_next. destruct q as [[|c r]|]; split; reflexivity. Qed.

Lemma turn_body_tracker w turn self :
  ap_tracker (fst (turn_body w turn self)) = ap_tracker self.
Proof.
  unfold turn_body, _parse_ai.
  destruct (heard (listen_async w turn)) as [user_text|].
  - pose proof (take_answer_frame w turn user_text (hear self)) as [Ha _].
    destruct (heard (reply_async w turn)) as [ai_text|]; [|exact Ha].
    destruct (Parser.parse_ai_with_ap ai_text user_text _) as [sc [p|e]];
      cbn [fst snd]; [|exact Ha].
    destruct (Parser.p_decision p); cbn [fst]; [exact Ha|].
    rewrite (proj1 (ask_next_frame _ _ _)). exact Ha.
  - destruct (turn <? 2)%nat; reflexivity.
Qed.

Lemma turn_loop_tracker w turns self :
  ap_tracker (fst (turn_loop w turns self)) = ap_tracker self.
Proof.
  revert self. induction turns as [|turn rest IH]; intros self; [reflexivity|].
  cbn [turn_loop]. pose proof (turn_body_tracker w turn self) as Hb.
  destruct (turn_body w turn self) as [s [[|d]|e]]; cbn [fst] in *;
    [rewrite IH|..]; exact Hb.
Qed.

Lemma run_tracker w self : ap_tracker (fst (run w self)) = ap_tracker self.
Proof.
  unfold run.
  destruct (negb (interface_ok w)); [reflexivity|].
  destruct (negb (stt_ok w)); [reflexivity|].
  match goal with |- context [turn_loop w ?l ?s] =>
    pose proof (turn_loop_tracker w l s) as Hl;
    destruct (turn_loop w l s) as [s' [[d|]|e]] end; cbn [fst] in *;
    exact Hl.
Qed.

End Session.

Section SessionClaims.
Import InterviewSession.

(** C1 (the code departs from it).  [_make_final_decision] never returns
    a decision: it calls [should_escalate_to_ap] on the tracker, a name
    the tracker's class does not define (its method is
    [_should_escalate_to_ap]), and the [AttributeError] escapes. *)
Theorem final_decision_raises_attribute_error (self : InterviewSession.t) :
  _make_final_decision self =
  Raised (AttributeError "AdministrativeProcessingTracker" "should_escalate_to_ap").
Proof.
  unfold _make_final_decision, AdministrativeProcessingTracker.call_bool_method.
  reflexivity.
Qed.

(** A session whose loop ends without a decision ends in that error. *)
Lemma run_without_decision_raises w self s' :
  interface_ok w = true -> stt_ok w = true ->
  turn_loop w (seq 0 (max_turns w))
    (remember "assistant"
       ("QUESTION: " ++ nth (opening_choice w mod 3) openings "" ++ nl ++ "SCORE: intent:0")
       (_speak_and_log (nth (opening_choice w mod 3) openings "") self))
  = (s', Returned None) ->
  run w self =
  (s', Raised (AttributeError "AdministrativeProcessingTracker" "should_escalate_to_ap")).
Proof.
  intros Hi Hs Hl. unfold run. rewrite Hi, Hs. cbn [negb].
  rewrite Hl, make_final_decision_raises. reflexivity.
Qed.

Example hedging_session_aborts :
  snd (run hedging_applicant __init__) =
  Raised (AttributeError "AdministrativeProcessingTracker" "should_escalate_to_ap").
Proof. vm_compute. reflexivity. Qed.

(** C5 (the code departs from it).  The controller never calls
    [analyze_response]: the loop and the whole run leave the tracker as
    they found it, so in a session all four counters are 0 throughout. *)
Theorem session_leaves_tracker_untouched (w : world) (turns : list nat)
    (self : InterviewSession.t) :
  ap_tracker (fst (turn_loop w turns self)) = ap_tracker self /\
  ap_tracker (fst (run w self)) = ap_tracker self /\
  let tracker := ap_tracker (fst (run w __init__)) in
  AdministrativeProcessingTracker.financial_triggers tracker = 0 /\
  AdministrativeProcessingTracker.academic_triggers tracker = 0 /\
  AdministrativeProcessingTracker.consistency_triggers tracker = 0 /\
  AdministrativeProcessingTracker.credibility_triggers tracker = 0.
Proof.
  split; [apply turn_loop_tracker|]. split; [apply run_tracker|].
  cbv zeta. rewrite run_tracker. repeat split; reflexivity.
Qed.

(** The answer of the hedging applicant fires the financial trigger when
    the tracker is given it, and the session that hears it nine times
    ends with all counters at 0. *)
Example hedging_session_counts_nothing :
  AdministrativeProcessingTracker.financial_triggers
    (fst (AdministrativeProcessingTracker.analyze_response
            "I don't know, maybe my father will help"
            (AdministrativeProcessingTracker.mk_analysis None None None) 1
            AdministrativeProcessingTracker.__init__)) = 1 /\
  ap_tracker (fst (run hedging_applicant __init__)) =
  AdministrativeProcessingTracker.__init__.
Proof. split; vm_compute; reflexivity. Qed.

(** C4 (as amended).  When nothing is heard in the pass with index
    [turn]: the interview state and the scorer are left as they were; if
    [turn < 2] the clarification prompt is shown, spoken and logged and
    the loop goes on with the next index; otherwise the loop is left with
    the decision DENIED, "Unable to provide clear responses during
    interview.", whatever was heard before. *)
Theorem no_answer_by_loop_index (w : world) (turn : nat) (rest : list nat)
    (self : InterviewSession.t) :
  heard (listen_async w turn) = None ->
  let r := turn_body w turn self in
  istate (fst r) = istate self /\
  scorer (fst r) = scorer self /\
  if (turn <? 2)%nat
  then snd r = Returned next_turn /\
       transcript (fst r) = (transcript self ++ [("OFFICER: " ++ clarification)%string])%list /\
       emitted (fst r) =
         (emitted (hear self) ++ [display_officer clarification; speak_async clarification])%list /\
       turn_loop w (turn :: rest) self = turn_loop w rest (fst r)
  else snd r = Returned (break denied_unclear) /\
       transcript (fst r) = transcript self /\
       turn_loop w (turn :: rest) self = (fst r, Returned (Some denied_unclear)).
Proof.
  intros Hh r. subst r. cbn [turn_loop]. unfold turn_body. rewrite Hh.
  destruct (turn <? 2)%nat; cbn; repeat split; reflexivity.
Qed.

(** Three passes without an answer from the start end the session with
    that decision. *)
Lemma three_silent_turns_denied w self :
  interface_ok w = true -> stt_ok w = true -> (3 <= max_turns w)%nat ->
  heard (listen_async w 0) = None ->
  heard (listen_async w 1) = None ->
  heard (listen_async w 2) = None ->
  snd (run w self) = Returned (Some denied_unclear).
Proof.
  intros Hi Hs Hm H0 H1 H2. unfold run. rewrite Hi, Hs. cbn [negb].
  destruct (max_turns w) as [|[|[|n]]]; try lia.
  cbn [seq turn_loop]. unfold turn_body. rewrite H0, H1, H2. reflexivity.
Qed.

End SessionClaims.

(** * The parser and terminal decisions *)

Section Decisions.
Import Parser.

Lemma startswith_clash a p b p' u :
  Ascii.eqb a b = false ->
  Py.startswith (String a p) u = true -> Py.startswith (String b p') u = false.
Proof.
  intros Hab. destruct u as [|c u]; cbn; [discriminate|].
  intros H. apply andb_true_iff in H. destruct H as [H _].
  apply Ascii.eqb_eq in H. subst c.
  rewrite Ascii.eqb_sym, Hab. reflexivity.
Qed.

Lemma step_decision v line :
  decision (step v line) =
  if is_decision_line line then Some (decision_body (Py.strip line)) else decision v.
Proof.
  unfold step, is_decision_line.
  destruct (Py.strip line) as [|c t] eqn:Ht; [reflexivity|].
  cbn [Py.truthy negb]. remember (Py.upper (String c t)) as u.
  destruct (Py.startswith "QUESTION:" u) eqn:Hq.
  - rewrite (startswith_clash "Q" _ "D" "ECISION:" u eq_refl Hq). reflexivity.
  - destruct (Py.startswith "SCORE:" u) eqn:Hs.
    + rewrite (startswith_clash "S" _ "D" "ECISION:" u eq_refl Hs). reflexivity.
    + destruct (Py.startswith "DECISION:" u); reflexivity.
Qed.

Lemma fold_step_decision ls v :
  decision (fold_left step ls v) =
  match last (List.filter is_decision_line ls) with
  | Some line => Some (decision_body (Py.strip line))
  | None => decision v
  end.
Proof.
  revert v. induction ls as [|l ls IH]; intros v; [reflexivity|].
  cbn [fold_left List.filter]. rewrite IH, step_decision.
  destruct (is_decision_line l); [|reflexivity].
  destruct (List.filter is_decision_line ls) as [|x xs]; [reflexivity|].
  rewrite last_cons_cons.
  destruct (last (x :: xs)) eqn:Hlast; [reflexivity|].
  apply last_None in Hlast. discriminate.
Qed.

Lemma scan_decision ai_text : decision (scan ai_text) = announced ai_text.
Proof.
  unfold scan, announced. rewrite fold_step_decision.
  destruct (last _); reflexivity.
Qed.

(** The synonym table never yields "purpose". *)
Lemma synonym_not_purpose c : default c (m !! c) <> "purpose".
Proof.
  destruct (m !! c) as [x|] eqn:H; cbn [default].
  - unfold m in H. apply elem_of_list_to_map_2 in H.
    repeat (apply elem_of_cons in H; destruct H as [[= -> ->]|H]; [discriminate|]).
    apply elem_of_nil in H. destruct H.
  - intros ->. vm_compute in H. discriminate.
Qed.

Lemma step_cat v line : cat v <> "purpose" -> cat (step v line) <> "purpose".
Proof.
  intros Hv. unfold step.
  destruct (negb (Py.truthy (Py.strip line))); [exact Hv|].
  destruct (Py.startswith "QUESTION:" _); [exact Hv|].
  destruct (Py.startswith "SCORE:" _).
  - cbn [cat]. unfold score_body.
    destruct (Py.split_colon1 _) as [|c [|p [|x xs]]]; try exact Hv.
    destruct (Py.int _); cbn [fst]; apply synonym_not_purpose.
  - destruct (Py.startswith "DECISION:" _); exact Hv.
Qed.

Lemma scan_cat ai_text : cat (scan ai_text) <> "purpose".
Proof.
  unfold scan.
  assert (H : forall ls v, cat v <> "purpose" -> cat (fold_left step ls v) <> "purpose").
  { induction ls as [|l ls IH]; intros v Hv; [exact Hv|].
    cbn [fold_left]. apply IH, step_cat, Hv. }
  apply H. discriminate.
Qed.

(** With the evidence lists of [reset], [update] raises for no category
    but "purpose". *)
Lemma update_returns c pts text s :
  evidence_shape s ->
  existsb (String.eqb c) scored_categories = true -> c <> "purpose" ->
  snd (VisaScorer.update c pts text s) = Returned tt.
Proof.
  intros Hs Hc Hp. unfold VisaScorer.update.
  destruct (negb (Py.truthy text)); [reflexivity|].
  destruct (VisaScorer.matched c (Py.lower text)); [|reflexivity].
  cbn [VisaScorer.evidence VisaScorer.add_points VisaScorer.add_max_possible].
  assert (Hin : c ∈ dom (VisaScorer.evidence s)).
  { rewrite Hs. apply existsb_exists in Hc. destruct Hc as (x & Hx & Heq).
    apply String.eqb_eq in Heq. subst x. unfold scored_categories in Hx.
    unfold Spec.evidence_categories. cbn in Hx. set_solver. }
  apply elem_of_dom in Hin. destruct Hin as [old Hold]. rewrite Hold. reflexivity.
Qed.

Lemma parse_announced ai_text user_text sc d :
  evidence_shape sc ->
  Py.truthy ai_text = true ->
  announced ai_text = Some d ->
  exists p,
    parse_ai_with_ap ai_text user_text sc =
      (fed_scorer ai_text user_text sc, Returned p) /\
    p_decision p = Some d /\ p_done p = true.
Proof.
  intros Hs Ht Hd. unfold parse_ai_with_ap, fed_scorer. rewrite Ht. cbn [negb].
  rewrite <- scan_decision in Hd.
  destruct (existsb (String.eqb (cat (scan ai_text))) scored_categories) eqn:Hc.
  - pose proof (update_returns (cat (scan ai_text)) (pts (scan ai_text)) user_text sc
                  Hs Hc (scan_cat ai_text)) as Hr.
    destruct (VisaScorer.update _ _ user_text sc) as [sc' o]. cbn [snd fst] in *.
    subst o. eexists. split; [reflexivity|]. cbn. rewrite Hd. split; reflexivity.
  - eexists. split; [reflexivity|]. cbn. rewrite Hd. split; reflexivity.
Qed.

End Decisions.

Section DecisionTurn.
Import InterviewSession.

Lemma heard_truthy o s : heard o = Some s -> Py.truthy s = true.
Proof. destruct o as [[|c r]|]; cbn; intros [= <-]; reflexivity. Qed.

(** C7 (as amended).  When a reply holds a terminal decision line, the
    parsed category and points are first fed to the scorer with the
    applicant's answer, as for any reply; the decision of the last
    decision line is then announced and the loop is left with exactly
    that type and reason, whatever the scorer holds.  (The scorer is one
    with the evidence lists of [reset].) *)
Theorem decision_line_ends_session (w : world) (turn : nat) (rest : list nat)
    (self : InterviewSession.t) (user_text ai_text : string) (d : string * string) :
  evidence_shape (scorer self) ->
  heard (listen_async w turn) = Some user_text ->
  heard (reply_async w turn) = Some ai_text ->
  announced ai_text = Some d ->
  exists self',
    turn_loop w (turn :: rest) self = (self', Returned (Some d)) /\
    scorer self' = fed_scorer ai_text user_text (scorer self) /\
    last (transcript self') =
      Some ("OFFICER: Decision: " ++ fst d ++ ". " ++ snd d).
Proof.
  intros Hs Hl Hr Hd. cbn [turn_loop]. unfold turn_body. rewrite Hl, Hr.
  unfold _parse_ai.
  pose proof (take_answer_frame w turn user_text (hear self)) as [_ Hsc].
  change (scorer (hear self)) with (scorer self) in Hsc.
  rewrite Hsc.
  destruct (parse_announced ai_text user_text (scorer self) d)
    as (p & Hp & Hdec & _);
    [exact Hs | exact (heard_truthy _ _ Hr) | exact Hd |].
  rewrite Hp. cbn [fst snd]. rewrite Hdec.
  eexists. split; [reflexivity|]. split.
  - reflexivity.
  - cbn [_handle_decision _speak_and_log log transcript]. apply last_snoc.
Qed.

End DecisionTurn.

(** * The analyzer's vagueness flag *)

Section Vagueness.
Import AnswerAnalysis.

Lemma any_char_app p a b :
  Py.any_char p (a ++ b) = Py.any_char p a || Py.any_char p b.
Proof.
  induction a as [|c a IH]; [reflexivity|].
  simpl. rewrite IH. apply orb_assoc.
Qed.

(** No run holds a separator. *)
Lemma runs_clean sep s cur :
  Py.any_char sep cur = false ->
  Forall (fun w => Py.any_char sep w = false) (Py.runs sep cur s).
Proof.
  revert cur. induction s as [|c s IH]; intros cur Hcur.
  - cbn. destruct cur; constructor; [exact Hcur | constructor].
  - cbn [Py.runs]. destruct (sep c) eqn:Hc.
    + destruct cur; [apply IH; reflexivity|].
      constructor; [exact Hcur | apply IH; reflexivity].
    + apply IH. rewrite any_char_app, Hcur. cbn. rewrite Hc. reflexivity.
Qed.

(** A text with a character outside [[a-z0-9]] is no token. *)
Lemma phrase_not_token text w :
  Py.any_char (fun c => negb (Py.is_lower_alnum c)) w = true ->
  bool_decide (w ∈ token_set (__init__ text)) = false.
Proof.
  intros Hw. apply bool_decide_eq_false_2. cbn [token_set __init__].
  rewrite elem_of_list_to_set. intros Hin.
  pose proof (runs_clean (fun c => negb (Py.is_lower_alnum c)) (Py.lower text)
                EmptyString eq_refl) as Hall.
  rewrite Forall_forall in Hall.
  unfold Py.findall_lower_alnum in Hin.
  rewrite (Hall w Hin) in Hw. discriminate.
Qed.

(** For every answer, [vague] is decided by the number of tokens and the
    three entries of [UNCERTAINTY] that are single words. *)
Lemma vague_single_words text :
  vague (__init__ text) =
  (length (__init__ text) <? 4)%nat
  || any_token ["maybe"; "probably"; "perhaps"] (token_set (__init__ text)).
Proof.
  cbn [vague length token_set __init__]. f_equal.
  unfold any_token, UNCERTAINTY. cbn [existsb].
  pose proof (phrase_not_token text) as H. cbn [token_set __init__] in H.
  rewrite (H "not sure" eq_refl), (H "i think" eq_refl),
          (H "i guess" eq_refl), (H "don't know" eq_refl).
  cbn [orb]. rewrite !orb_false_r. reflexivity.
Qed.

End Vagueness.

(** C9 (the code departs from it).  [vague] looks the uncertainty phrases
    up in the set of tokens, where a phrase of several words is never
    found: the answer below has six tokens and contains "i think", which
    [uncertainty_detected] (a substring test) sees, and is not flagged as
    vague. *)
Theorem vague_misses_phrase_in_text :
  let a := AnswerAnalysis.__init__ "I think it is fine overall" in
  AnswerAnalysis.length a = 6%nat /\
  Py.contains "i think" (AnswerAnalysis.lower a) = true /\
  AnswerAnalysis.uncertainty_detected a = true /\
  AnswerAnalysis.vague a = false.
Proof. vm_compute. repeat split; reflexivity. Qed.

(** * Instances *)

(** The text functions on sample inputs. *)
Example lower_mixed : Py.lower "Don't KNOW 42" = "don't know 42".
Proof. reflexivity. Qed.

Example split_blanks : Py.split "  my   gpa is  high " = ["my"; "gpa"; "is"; "high"].
Proof. reflexivity. Qed.

Example strip_both : Py.strip "  DENIED  " = "DENIED".
Proof. reflexivity. Qed.

Example count_um : Py.count "um" "um, umm... hum" = 3%nat.
Proof. reflexivity. Qed.

Example int_literals :
  Py.int " 3 " = Some 3 /\ Py.int "x" = None /\ Py.int "-2" = Some (-2) /\ Py.int "" = None.
Proof. repeat split; reflexivity. Qed.

Example norm_question :
  InterviewState._norm "Why  THIS university?" = "why this university".
Proof. reflexivity. Qed.

Example parse_reply :
  Parser.scan ("QUESTION: Who pays for this?" ++ InterviewSession.nl ++ "Score: Financial : 2")
  = Parser.mk_locals (Some "Who pays for this?") None "funds" 2
                     (Some "Score: Financial : 2") None.
Proof. reflexivity. Qed.

(** A tie is rounded to the even neighbour: 100 - 24 - 9.5 = 66.5. *)
Example score_tie_goes_to_even :
  VisaScorer.score (update_all [("academics", 3, "gpa")] VisaScorer.reset) = 66.
Proof. vm_compute. reflexivity. Qed.

Example update_purpose_raises :
  snd (VisaScorer.update "purpose" 2 "a business visit" VisaScorer.reset)
  = Raised (KeyError "purpose").
Proof. vm_compute. reflexivity. Qed.

Section Binary64Examples.
Import PrimFloat.

(** C2, the claim as worded fails: after one matched academics answer the
    code gives 68 (three of the four evidence categories were never
    covered: penalty 24), while counting "purpose" as a fifth category
    would give 60.  Every number involved is exact in binary64. *)
Lemma score_counts_four_categories :
  (0 <? VisaScorer64.max_possible one_academic_answer64)%float = true /\
  VisaScorer64.score one_academic_answer64 = Returned 68 /\
  Spec64.score Spec.keyword_categories one_academic_answer64 = Returned 60 /\
  VisaScorer64.score one_academic_answer64
    <> Spec64.score Spec.keyword_categories one_academic_answer64.
Proof. vm_compute. repeat split; discriminate. Qed.

Lemma score_matches_formula_witness :
  evidence_shape64 one_academic_answer64 /\
  VisaScorer64.score one_academic_answer64
    = Spec64.score Spec.evidence_categories one_academic_answer64.
Proof.
  assert (H : evidence_shape64 one_academic_answer64) by (vm_compute; reflexivity).
  split; [exact H|].
  exact (proj1 (score_matches_formula_on_evidence_categories one_academic_answer64 H)).
Defined.

(** Where binary64 and exact arithmetic part: after a funds answer worth
    2 x 1.2 and an intent answer worth 3 x 1.3 the value before rounding
    is 58.5 in exact arithmetic, a tie that goes to the even 58; in
    binary64 the points add up to 6.300000000000001, the value is
    58.500000000000014 and [score()] returns 59. *)
Example score_in_binary64 :
  VisaScorer64.score (update64_all funds_then_intent VisaScorer64.reset) = Returned 59 /\
  VisaScorer.score (update_all funds_then_intent VisaScorer.reset) = 58.
Proof. vm_compute. split; reflexivity. Qed.

(** An unmatched funds answer, then academics answers of 38 and 18 words:
    points 6.0 of 9.6 and the quality values 4, 9.5 and 4.5.  The float
    that 3.6 + 3.0 + 3.0 gives lies just below 9.6; the quotient of 6.0 by
    it is rounded to 0.625, the value before rounding is 40.5 and the tie
    goes to the even 40.  The unrounded quotient of the same two fields
    lies above 0.625 and would give 41. *)
Example score_rounds_each_operation :
  let words n := Py.join " " (List.repeat "gpa" n) in
  let s := update64_all [("funds", 1, "hello"); ("academics", 3, words 38%nat);
                         ("academics", 3, words 18%nat)] VisaScorer64.reset in
  VisaScorer64.response_quality s = [4; 9.5; 4.5]%float /\
  VisaScorer64.points s = 6%float /\
  VisaScorer64.max_possible s = 9.6%float /\
  VisaScorer64.score s = Returned 40.
Proof. vm_compute. repeat split; reflexivity. Qed.

End Binary64Examples.




(** The same question recorded twice is too similar to itself; a recorded
    question without a letter or digit is so at the threshold 0 only. *)
Example same_question_twice :
  InterviewState.too_similar "Why this university?" (8 # 10)
    (InterviewState.record "Why this university?" None
       (InterviewState.record "Why this university?" None InterviewState.__init__)) = true /\
  InterviewState.too_similar "?!" 0
    (InterviewState.record "?!" None InterviewState.__init__) = true /\
  InterviewState.too_similar "" 0
    (InterviewState.record "" None InterviewState.__init__) = false.
Proof. vm_compute. repeat split; reflexivity. Qed.

(** C4, the claim as worded fails: the applicant answered in the first two
    turns and a single turn without an answer, the third, ends the session
    with the denial. *)
Lemma single_late_silence_denied :
  InterviewSession.heard (InterviewSession.listen_async silent_in_third_turn 0)
    = Some "I will study physics" /\
  InterviewSession.heard (InterviewSession.listen_async silent_in_third_turn 1)
    = Some "I will study physics" /\
  InterviewSession.heard (InterviewSession.listen_async silent_in_third_turn 2) = None /\
  snd (InterviewSession.run silent_in_third_turn InterviewSession.__init__)
    = Returned (Some denied_unclear).
Proof. vm_compute. repeat split; reflexivity. Qed.

Lemma no_answer_witness :
  InterviewSession.heard (InterviewSession.listen_async always_silent 2) = None /\
  snd (InterviewSession.turn_body always_silent 2 InterviewSession.__init__)
    = Returned (InterviewSession.break denied_unclear).
Proof.
  assert (H : InterviewSession.heard (InterviewSession.listen_async always_silent 2) = None)
    by reflexivity.
  split; [exact H|].
  exact (proj1 (proj2 (proj2
    (no_answer_by_loop_index always_silent 2 [] InterviewSession.__init__ H)))).
Defined.

(** C7, the claim as worded fails: the reply is the denial alone, the
    session ends with it, and the scorer has been fed the default
    "intent:1" with the answer (points 1.3 of 3.9 possible). *)
Lemma decision_reply_is_scored :
  let r := InterviewSession.turn_body denied_at_once 0 InterviewSession.__init__ in
  announced "DECISION: DENIED:weak ties" = Some ("DENIED", "weak ties") /\
  snd r = Returned (InterviewSession.break ("DENIED", "weak ties")) /\
  (VisaScorer.points (InterviewSession.scorer (fst r)) == 13 # 10)%Q /\
  (VisaScorer.max_possible (InterviewSession.scorer (fst r)) == 39 # 10)%Q /\
  InterviewSession.scorer (fst r) <> InterviewSession.scorer InterviewSession.__init__.
Proof.
  cbv zeta. repeat split; try (vm_compute; reflexivity).
  intros H. apply (f_equal VisaScorer.response_quality) in H.
  vm_compute in H. discriminate H.
Qed.

Lemma decision_line_witness :
  evidence_shape (InterviewSession.scorer InterviewSession.__init__) /\
  announced "DECISION: DENIED:weak ties" = Some ("DENIED", "weak ties") /\
  exists self',
    InterviewSession.turn_loop denied_at_once [0; 1]%nat InterviewSession.__init__
      = (self', Returned (Some ("DENIED", "weak ties"))) /\
    InterviewSession.scorer self'
      = fed_scorer "DECISION: DENIED:weak ties" "I plan to return home"
          (InterviewSession.scorer InterviewSession.__init__) /\
    last (InterviewSession.transcript self')
      = Some "OFFICER: Decision: DENIED. weak ties".
Proof.
  assert (Hs : evidence_shape (InterviewSession.scorer InterviewSession.__init__))
    by (vm_compute; reflexivity).
  assert (Hd : announced "DECISION: DENIED:weak ties" = Some ("DENIED", "weak ties"))
    by reflexivity.
  split; [exact Hs|]. split; [exact Hd|].
  exact (decision_line_ends_session denied_at_once 0 [1%nat] InterviewSession.__init__
           "I plan to return home" "DECISION: DENIED:weak ties" ("DENIED", "weak ties")
           Hs eq_refl eq_refl Hd).
Defined.

(** * More on the evidence scorer *)

Section ScorerInvariants.
Import VisaScorer.

(** The score is a whole number of the scale, whatever the scorer
    holds. *)
Lemma score_within_scale (s : VisaScorer.t) : 0 <= score s <= 100.
Proof.
  unfold score. destruct (Qeq_bool (max_possible s) 0); lia.
Qed.

Lemma track_claims_weights text s :
  weights (_track_claims text s) = weights s /\
  fraud_flags (_track_claims text s) = fraud_flags s.
Proof.
  unfold _track_claims.
  repeat match goal with
         | |- context [if ?b then _ else _] => destruct b
         end; split; reflexivity.
Qed.

Lemma update_tail_weights text s :
  weights (update_tail text s) = weights s /\
  (fraud_flags (update_tail text s) = fraud_flags s \/
   fraud_flags (update_tail text s) =
     (fraud_flags s ++ ["Possible misrepresentation language"])%list).
Proof.
  unfold update_tail.
  set (s1 := if any_in _ text then add_evasiveness s else s).
  assert (H1 : weights s1 = weights s /\ fraud_flags s1 = fraud_flags s).
  { subst s1. destruct (any_in _ text); split; reflexivity. }
  destruct H1 as [W1 F1].
  destruct (track_claims_weights text s1) as [W2 F2].
  destruct (Py.contains "fake" text || Py.contains "arranged" text);
    cbn [weights fraud_flags add_fraud_flag]; rewrite W2, F2, W1, F1; auto.
Qed.

Lemma update_weights cat pts text s :
  weights (fst (update cat pts text s)) = weights s.
Proof.
  unfold update.
  destruct (negb (Py.truthy text)); [reflexivity|].
  destruct (matched cat (Py.lower text)).
  - cbn [evidence add_points add_max_possible].
    destruct (evidence s !! cat); cbn [fst]; [|reflexivity].
    rewrite (proj1 (update_tail_weights _ _)). reflexivity.
  - cbn [fst]. rewrite (proj1 (update_tail_weights _ _)). reflexivity.
Qed.

Lemma update_all_weights calls s :
  weights (update_all calls s) = weights s.
Proof.
  revert s. induction calls as [|c calls IH]; intros s; [reflexivity|].
  unfold update_all in *. cbn [fold_left]. rewrite IH. apply update_weights.
Qed.

(** Every weight of [reset], and the default weight, is positive. *)
Lemma reset_weight_positive cat :
  (0 < default 1%Q (weights reset !! cat))%Q.
Proof.
  destruct (weights reset !! cat) as [x|] eqn:H; cbn [default]; [|reflexivity].
  cbn [weights reset] in H. apply elem_of_list_to_map_2 in H.
  repeat (apply elem_of_cons in H; destruct H as [[= -> ->]|H]; [reflexivity|]).
  apply elem_of_nil in H. destruct H.
Qed.

Lemma clamped_points_bounds (base_points : Z) (w : Q) :
  (0 < w)%Q ->
  (0 <= inject_Z (Z.max 0 (Z.min 3 base_points)) * w <= 3 * w)%Q.
Proof.
  intros Hw.
  assert (H0 : (inject_Z 0 <= inject_Z (Z.max 0 (Z.min 3 base_points)))%Q)
    by (rewrite <- Zle_Qle; lia).
  assert (H3 : (inject_Z (Z.max 0 (Z.min 3 base_points)) <= inject_Z 3)%Q)
    by (rewrite <- Zle_Qle; lia).
  split.
  - apply Qmult_le_0_compat; [exact H0 | apply Qlt_le_weak, Hw].
  - apply Qmult_le_compat_r; [exact H3 | apply Qlt_le_weak, Hw].
Qed.

(** One call keeps the points between 0 and what was possible, and lets
    neither of the two shrink. *)
Lemma update_points_step cat pts text s :
  weights s = weights reset ->
  (0 <= points s <= max_possible s)%Q ->
  let s' := fst (update cat pts text s) in
  (0 <= points s' <= max_possible s')%Q /\
  (points s <= points s')%Q /\ (max_possible s <= max_possible s')%Q.
Proof.
  intros Hw [H0 H1]. cbv zeta. unfold update.
  destruct (negb (Py.truthy text)); cbn [fst]; [lra|].
  rewrite Hw.
  pose proof (reset_weight_positive cat) as Hpos.
  pose proof (clamped_points_bounds pts _ Hpos) as [Hp0 Hp3].
  set (w := default 1%Q (weights reset !! cat)) in *.
  set (p := (inject_Z (Z.max 0 (Z.min 3 pts)) * w)%Q) in *.
  destruct (matched cat (Py.lower text)).
  - cbn [evidence add_points add_max_possible].
    destruct (evidence s !! cat); cbn [fst].
    + match goal with |- context [update_tail ?x ?y] =>
        destruct (update_tail_frame x y) as (P & _ & _ & _ & _ & M) end.
      rewrite P, M. cbn. lra.
    + cbn. lra.
  - cbn [fst].
    match goal with |- context [update_tail ?x ?y] =>
      destruct (update_tail_frame x y) as (P & _ & _ & _ & _ & M) end.
    rewrite P, M. cbn. lra.
Qed.

(** X1.  The points never exceed what was possible: after any calls of
    [update] on a fresh scorer, 0 <= points <= max_possible, so that the
    base of the score lies between 0 and 100. *)
Theorem points_within_max_possible (calls : list update_call) :
  (0 <= points (update_all calls reset) <= max_possible (update_all calls reset))%Q.
Proof.
  assert (H : forall calls s, weights s = weights reset ->
              (0 <= points s <= max_possible s)%Q ->
              (0 <= points (update_all calls s) <= max_possible (update_all calls s))%Q).
  { clear calls. induction calls as [|c calls IH]; intros s Hw Hs; [exact Hs|].
    unfold update_all in *. cbn [fold_left]. apply IH.
    - rewrite update_weights. exact Hw.
    - apply (update_points_step _ _ _ s Hw Hs). }
  apply H; [reflexivity|]. cbn. lra.
Qed.

End ScorerInvariants.

Section ScorerGrowth.
Import VisaScorer.

Lemma matched_has_keywords cat t :
  matched cat t = true -> cat = "funds" \/ is_Some (kw !! cat).
Proof.
  unfold matched. intros H.
  destruct (String.eqb cat "funds") eqn:Hf.
  - left. apply String.eqb_eq. exact Hf.
  - right. cbn [andb] in H. destruct (kw !! cat); [eauto|]. discriminate.
Qed.

Lemma keyword_categories_dom : dom kw = list_to_set Spec.keyword_categories.
Proof. unfold kw. rewrite dom_list_to_map_L. reflexivity. Qed.

(** With the evidence lists of [reset], the one category that can be
    matched and has no evidence list is "purpose". *)
Lemma matched_lookup cat t s :
  evidence_shape s -> matched cat t = true ->
  (cat = "purpose" /\ evidence s !! cat = None) \/
  (cat <> "purpose" /\ is_Some (evidence s !! cat)).
Proof.
  intros Hs Hm. destruct (String.eqb_spec cat "purpose") as [->|Hne].
  - left. split; [reflexivity|]. apply not_elem_of_dom. rewrite Hs.
    unfold Spec.evidence_categories. set_solver.
  - right. split; [exact Hne|]. apply elem_of_dom. rewrite Hs.
    assert (Hin : cat ∈ dom kw \/ cat = "funds").
    { destruct (matched_has_keywords cat t Hm) as [->|H]; [right; reflexivity|].
      left. apply elem_of_dom. exact H. }
    destruct Hin as [Hin| ->]; [|unfold Spec.evidence_categories; set_solver].
    rewrite keyword_categories_dom in Hin.
    unfold Spec.keyword_categories, Spec.evidence_categories in *. set_solver.
Qed.

(** X2.  [update] raises for "purpose" answers that match, and only for those;
    the failed call has already added to the points and to what was
    possible, and nothing else of the scorer has changed.  (For a scorer
    with the evidence lists of [reset].) *)
Theorem update_raises_only_for_matched_purpose (cat : string) (pts : Z)
    (text : string) (s : VisaScorer.t) :
  evidence_shape s ->
  let w := default 1%Q (weights s !! cat) in
  update cat pts text s =
    if String.eqb cat "purpose" && Py.truthy text && matched cat (Py.lower text)
    then (add_points (inject_Z (Z.max 0 (Z.min 3 pts)) * w)%Q
                     (add_max_possible (3 * w)%Q s),
          Raised (KeyError "purpose"))
    else (fst (update cat pts text s), Returned tt).
Proof.
  intros Hs. cbv zeta. unfold update.
  destruct (Py.truthy text) eqn:Ht; cbn [negb];
    [|rewrite andb_false_r; reflexivity].
  rewrite andb_true_r.
  destruct (matched cat (Py.lower text)) eqn:Hm;
    [|rewrite andb_false_r; reflexivity].
  rewrite andb_true_r. cbn [evidence add_points add_max_possible].
  destruct (matched_lookup cat _ s Hs Hm) as [[-> Hl]|[Hne [old Hl]]]; rewrite Hl.
  - reflexivity.
  - apply String.eqb_neq in Hne. rewrite Hne. reflexivity.
Qed.

Lemma update_covered cat pts text s :
  covered_has_evidence s -> covered_has_evidence (fst (update cat pts text s)).
Proof.
  intros H. unfold update.
  destruct (negb (Py.truthy text)); [exact H|].
  destruct (matched cat (Py.lower text)); cbn [evidence add_points add_max_possible].
  - destruct (evidence s !! cat) as [old|] eqn:Hold; cbn [fst]; [|exact H].
    match goal with |- covered_has_evidence (update_tail ?x ?y) =>
      destruct (update_tail_frame x y) as (_ & E & C & _) end.
    unfold covered_has_evidence in *. rewrite E, C.
    cbn [evidence categories_scored add_quality add_evidence].
    intros c. destruct (decide (c = cat)) as [->|Hne].
    + rewrite lookup_insert_eq. split; [|set_solver].
      intros _. destruct old; cbn; eauto.
    + rewrite lookup_insert_ne by congruence. rewrite <- H. set_solver.
  - cbn [fst].
    match goal with |- covered_has_evidence (update_tail ?x ?y) =>
      destruct (update_tail_frame x y) as (_ & E & C & _) end.
    unfold covered_has_evidence in *. rewrite E, C. exact H.
Qed.

Lemma update_all_covered calls s :
  covered_has_evidence s -> covered_has_evidence (update_all calls s).
Proof.
  revert s. induction calls as [|c calls IH]; intros s H; [exact H|].
  unfold update_all in *. cbn [fold_left]. apply IH, update_covered, H.
Qed.

Lemma reset_covered : covered_has_evidence reset.
Proof.
  intros c. cbn [categories_scored evidence reset]. split; [set_solver|].
  intros (x & l & H). apply elem_of_list_to_map_2 in H.
  repeat (apply elem_of_cons in H; destruct H as [H|H]; [discriminate H|]).
  apply elem_of_nil in H. destruct H.
Qed.

(** X3.  In the summary of a scorer, after any calls of [update] on a fresh
    one, the covered categories are exactly those with a positive
    evidence count, the four evidence categories are the ones counted,
    and no contradiction is reported. *)
Theorem summary_counts_agree (calls : list update_call) :
  let r := Summary.summary (update_all calls reset) in
  (forall c, c ∈ Summary.categories_covered r <->
             exists n, Summary.evidence_count r !! c = Some (S n)) /\
  dom (Summary.evidence_count r) = list_to_set Spec.evidence_categories /\
  Summary.categories_covered r ⊆ list_to_set Spec.evidence_categories /\
  Summary.contradictions r = [].
Proof.
  cbv zeta. unfold Summary.summary.
  cbn [Summary.categories_covered Summary.evidence_count Summary.contradictions].
  pose proof (update_all_covered calls reset reset_covered) as Hc.
  pose proof (update_all_shape calls reset reset_shape) as Hs.
  unfold evidence_shape in Hs.
  assert (Hiff : forall c, c ∈ categories_scored (update_all calls reset) <->
            exists n, (List.length <$> evidence (update_all calls reset)) !! c = Some (S n)).
  { intros c. rewrite (Hc c), lookup_fmap. split.
    - intros (x & l & ->). cbn. eauto.
    - intros (n & Hn). destruct (evidence _ !! c) as [[|x l]|]; cbn in Hn;
        try discriminate. eauto. }
  split; [exact Hiff|]. split; [|split].
  - rewrite dom_fmap_L. exact Hs.
  - intros c Hin. apply Hiff in Hin. destruct Hin as (n & Hn).
    rewrite <- Hs, <- (dom_fmap_L List.length). apply elem_of_dom. eauto.
  - apply update_all_markers. split; [reflexivity|].
    intros k v. cbn [claims reset]. rewrite lookup_empty. discriminate.
Qed.

End ScorerGrowth.

Section ScorerAppendOnly.
Import VisaScorer.

Lemma grows_refl s : grows s s.
Proof.
  unfold grows. repeat split; try reflexivity; try apply Qle_refl.
  intros c l H. exists []. rewrite app_nil_r. exact H.
Qed.

Lemma grows_trans s1 s2 s3 : grows s1 s2 -> grows s2 s3 -> grows s1 s3.
Proof.
  intros (P1 & M1 & V1 & C1 & R1 & F1 & E1) (P2 & M2 & V2 & C2 & R2 & F2 & E2).
  unfold grows. repeat split.
  - eapply Qle_trans; eassumption.
  - eapply Qle_trans; eassumption.
  - lia.
  - set_solver.
  - etransitivity; eassumption.
  - etransitivity; eassumption.
  - intros c l H. destruct (E1 c l H) as [k Hk]. destruct (E2 c _ Hk) as [k' Hk'].
    exists (k ++ k')%list. rewrite app_assoc. exact Hk'.
Qed.

Lemma update_tail_grows text s : grows s (update_tail text s).
Proof.
  destruct (update_tail_frame text s) as (P & E & C & R & V & M).
  destruct (update_tail_weights text s) as [_ F].
  unfold grows. rewrite P, E, C, R, M. repeat split; try reflexivity;
    try apply Qle_refl; try lia.
  - destruct F as [-> | ->]; [reflexivity | apply prefix_app_r; reflexivity].
  - intros c l H. exists []. rewrite app_nil_r. exact H.
Qed.

Lemma update_grows cat pts text s :
  weights s = weights reset -> grows s (fst (update cat pts text s)).
Proof.
  intros Hw. unfold update.
  destruct (negb (Py.truthy text)); [apply grows_refl|].
  rewrite Hw.
  pose proof (reset_weight_positive cat) as Hpos.
  pose proof (clamped_points_bounds pts _ Hpos) as [Hp0 Hp3].
  set (w := default 1%Q (weights reset !! cat)) in *.
  set (p := (inject_Z (Z.max 0 (Z.min 3 pts)) * w)%Q) in *.
  assert (Hbase : forall s0,
            points s0 = (points s + p)%Q \/ points s0 = points s ->
            max_possible s0 = (max_possible s + 3 * w)%Q ->
            evasiveness s0 = evasiveness s ->
            categories_scored s ⊆ categories_scored s0 ->
            response_quality s `prefix_of` response_quality s0 ->
            fraud_flags s0 = fraud_flags s ->
            (forall c l, evidence s !! c = Some l ->
                         exists k, evidence s0 !! c = Some (l ++ k)%list) ->
            grows s s0).
  { intros s0 HP HM HV HC HR HF HE. unfold grows. rewrite HM, HV, HF.
    repeat split; try reflexivity; try assumption; [|lra].
    destruct HP as [-> | ->]; lra. }
  assert (Hid : forall c l, evidence s !! c = Some l ->
                  exists k, evidence s !! c = Some (l ++ k)%list).
  { intros c l H. exists []. rewrite app_nil_r. exact H. }
  destruct (matched cat (Py.lower text)).
  - cbn [evidence add_points add_max_possible].
    destruct (evidence s !! cat) as [old|] eqn:Hold; cbn [fst].
    + eapply grows_trans; [|apply update_tail_grows].
      apply Hbase; cbn; try reflexivity; auto.
      * set_solver.
      * apply prefix_app_r. reflexivity.
      * intros c l H. destruct (decide (c = cat)) as [->|Hne].
        -- rewrite lookup_insert_eq. rewrite Hold in H. injection H as <-. eauto.
        -- rewrite lookup_insert_ne by congruence. apply Hid, H.
    + apply Hbase; cbn; try reflexivity; auto.
  - cbn [fst]. eapply grows_trans; [|apply update_tail_grows].
    apply Hbase; cbn; try reflexivity; auto.
    apply prefix_app_r. reflexivity.
Qed.

Lemma update_all_grows calls s :
  weights s = weights reset -> grows s (update_all calls s).
Proof.
  revert s. induction calls as [|c calls IH]; intros s Hw; [apply grows_refl|].
  unfold update_all in *. cbn [fold_left].
  eapply grows_trans; [apply update_grows, Hw|].
  apply IH. rewrite update_weights. exact Hw.
Qed.

(** X4.  The scorer only accumulates: further calls of [update], whether they
    return or raise, never lower the points, what was possible or the
    evasiveness, never uncover a category, and only append to the quality
    list, the fraud flags and the evidence lists. *)
Theorem scorer_is_append_only (calls more : list update_call) :
  grows (update_all calls reset) (update_all (calls ++ more) reset).
Proof.
  unfold update_all. rewrite fold_left_app.
  apply update_all_grows. apply update_all_weights.
Qed.

Lemma update_tail_quality text s :
  quality_on_scale s -> quality_on_scale (update_tail text s).
Proof.
  unfold quality_on_scale.
  destruct (update_tail_frame text s) as (_ & _ & _ & -> & _). auto.
Qed.

Lemma word_quality_on_scale (n : nat) :
  (0 <= Qmin 10 (inject_Z (Z.of_nat n) / 4) <= 10)%Q.
Proof.
  assert (H : (0 <= inject_Z (Z.of_nat n) / 4)%Q).
  { assert (Hn : (inject_Z 0 <= inject_Z (Z.of_nat n))%Q)
      by (rewrite <- Zle_Qle; lia).
    apply Qle_shift_div_l; [reflexivity|].
    change (inject_Z 0) with 0%Q in Hn. lra. }
  split; [apply Q.min_glb; [discriminate | exact H] | apply Q.le_min_l].
Qed.

Lemma update_quality cat pts text s :
  quality_on_scale s -> quality_on_scale (fst (update cat pts text s)).
Proof.
  intros H. unfold update.
  destruct (negb (Py.truthy text)); [exact H|].
  destruct (matched cat (Py.lower text)); cbn [evidence add_points add_max_possible].
  - destruct (evidence s !! cat); cbn [fst]; [|exact H].
    apply update_tail_quality. unfold quality_on_scale in *.
    cbn [response_quality add_quality add_evidence].
    apply Forall_app. split; [exact H|].
    constructor; [apply word_quality_on_scale | constructor].
  - cbn [fst]. apply update_tail_quality. unfold quality_on_scale in *.
    cbn [response_quality add_quality].
    apply Forall_app. split; [exact H|].
    constructor; [split; discriminate | constructor].
Qed.

(** X5.  Every value that [update] puts into the quality list lies between 0
    and 10, so the mean does, and the quality adjustment of the score
    lies between -10 and 10. *)
Theorem quality_stays_on_scale (calls : list update_call) :
  let s := update_all calls reset in
  quality_on_scale s /\
  (-10 <= 2 * (Spec.mean (response_quality s) - 5) <= 10)%Q.
Proof.
  cbv zeta.
  assert (H : quality_on_scale (update_all calls reset)).
  { assert (Hall : forall calls s, quality_on_scale s -> quality_on_scale (update_all calls s)).
    { clear calls. induction calls as [|c calls IH]; intros s Hs; [exact Hs|].
      unfold update_all in *. cbn [fold_left]. apply IH, update_quality, Hs. }
    apply Hall. constructor. }
  split; [exact H|].
  unfold quality_on_scale in H.
  set (l := response_quality (update_all calls reset)) in *.
  assert (Hsum : forall l a, Forall (fun x => (0 <= x <= 10)%Q) l ->
            (a <= fold_left Qplus l a <= a + 10 * inject_Z (Z.of_nat (List.length l)))%Q).
  { clear. induction l as [|x l IH]; intros a H.
    - cbn [fold_left List.length]. change (inject_Z (Z.of_nat 0)) with 0%Q. lra.
    - cbn [fold_left List.length]. pose proof (Forall_inv H) as Hx. cbv beta in Hx.
      specialize (IH (a + x)%Q (Forall_inv_tail H)).
      rewrite Nat2Z.inj_succ. unfold Z.succ. rewrite inject_Z_plus.
      change (inject_Z 1) with 1%Q. lra. }
  specialize (Hsum l 0%Q H). unfold Spec.mean, Py.sum.
  destruct l as [|x l'] eqn:Hl.
  - vm_compute. split; discriminate.
  - set (n := inject_Z (Z.of_nat (List.length (x :: l')))) in *.
    assert (Hn : (0 < n)%Q).
    { subst n. change 0%Q with (inject_Z 0).
      rewrite <- Zlt_Qlt. cbn [List.length]. lia. }
    set (t := fold_left Qplus (x :: l') 0%Q) in *.
    assert (H0 : (0 <= t / n)%Q).
    { apply Qle_shift_div_l; [exact Hn | lra]. }
    assert (H10 : (t / n <= 10)%Q).
    { apply Qle_shift_div_r; [exact Hn | lra]. }
    lra.
Qed.

End ScorerAppendOnly.

(** * More on the topic tracker *)

Section RecentQuestions.
Import InterviewState.

Lemma deque_append_keeps_last (l : list string) x :
  deque_append x (drop (List.length l - maxlen) l) =
  drop (List.length (l ++ [x])%list - maxlen) (l ++ [x])%list.
Proof.
  unfold deque_append. rewrite !length_app, length_drop. cbn [List.length].
  destruct (le_lt_dec maxlen (List.length l)) as [Hfull|Hroom].
  - replace (maxlen <? List.length l - (List.length l - maxlen) + 1)%nat with true
      by (symmetry; apply Nat.ltb_lt; lia).
    replace (List.length l + 1 - maxlen)%nat with (S (List.length l - maxlen)) by lia.
    rewrite <- drop_app_le by lia.
    generalize (l ++ [x])%list (List.length l - maxlen)%nat. clear.
    intros l n. revert l. induction n as [|n IH]; intros [|a l]; cbn; auto.
  - replace (List.length l - maxlen)%nat with 0%nat by lia.
    replace (List.length l + 1 - maxlen)%nat with 0%nat by (unfold maxlen in *; lia).
    rewrite !drop_0, Nat.sub_0_r.
    replace (maxlen <? List.length l + 1)%nat with false
      by (symmetry; apply Nat.ltb_ge; unfold maxlen in *; lia).
    reflexivity.
Qed.

Lemma record_history q hint st :
  questions_history (record q hint st) =
  if Py.truthy q then deque_append (_norm q) (questions_history st)
  else questions_history st.
Proof. unfold record. destruct hint as [[|c r]|]; reflexivity. Qed.

Lemma record_all_history calls l st :
  questions_history st = drop (List.length l - maxlen) l ->
  questions_history (record_all calls st) =
  drop (List.length (l ++ recorded_questions calls)%list - maxlen)
       (l ++ recorded_questions calls)%list.
Proof.
  revert l st. induction calls as [|[q hint] calls IH]; intros l st H.
  - unfold recorded_questions. cbn. rewrite app_nil_r. exact H.
  - unfold record_all in *. cbn [fold_left fst snd].
    unfold recorded_questions in *. cbn [List.map List.filter fst].
    destruct (Py.truthy q) eqn:Hq.
    + cbn [List.map].
      replace (l ++ _norm q :: List.map _norm (List.filter Py.truthy (List.map fst calls)))%list
        with ((l ++ [_norm q]) ++ List.map _norm (List.filter Py.truthy (List.map fst calls)))%list
        by (rewrite <- app_assoc; reflexivity).
      apply IH. rewrite record_history, Hq, H. apply deque_append_keeps_last.
    + apply IH. rewrite record_history, Hq. exact H.
Qed.

(** X6.  The history of questions is a window on what was recorded: after any
    calls of [record] on a fresh tracker it holds the normal forms of the
    last 25 questions that were not empty, oldest first, and so never
    more than 25. *)
Theorem history_is_last_25 (calls : list record_call) :
  let asked := recorded_questions calls in
  questions_history (record_all calls __init__) =
    drop (List.length asked - 25) asked /\
  List.length (questions_history (record_all calls __init__)) =
    Nat.min 25 (List.length asked).
Proof.
  cbv zeta.
  pose proof (record_all_history calls [] __init__ eq_refl) as H.
  cbn [app] in H. unfold maxlen in H. split; [exact H|].
  rewrite H, length_drop. lia.
Qed.

End RecentQuestions.

Section Jaccard.
Import InterviewState.

Lemma jaccard_cases a b :
  (word_set a = ∅ \/ word_set b = ∅) /\ _jaccard a b = 0%Q \/
  (word_set a <> ∅ /\ word_set b <> ∅ /\
   _jaccard a b =
     (inject_Z (Z.of_nat (size (word_set a ∩ word_set b))) /
      inject_Z (Z.of_nat (size (word_set a ∪ word_set b))))%Q).
Proof.
  unfold _jaccard. fold (word_set a) (word_set b).
  destruct (decide (word_set a = ∅)) as [Ha|Ha].
  - left. rewrite (bool_decide_eq_true_2 _ Ha). auto.
  - rewrite (bool_decide_eq_false_2 _ Ha).
    destruct (decide (word_set b = ∅)) as [Hb|Hb].
    + left. rewrite (bool_decide_eq_true_2 _ Hb). auto.
    + right. rewrite (bool_decide_eq_false_2 _ Hb). auto.
Qed.

Lemma union_size_positive (X Y : gset string) :
  X <> ∅ -> (0 < inject_Z (Z.of_nat (size (X ∪ Y))))%Q.
Proof.
  intros HX. change 0%Q with (inject_Z 0). rewrite <- Zlt_Qlt.
  assert (size (X ∪ Y) <> 0%nat); [|lia].
  intros H. apply size_empty_iff in H. apply HX. set_solver.
Qed.

Lemma jaccard_facts (a b : string) :
  (0 <= _jaccard a b <= 1)%Q /\
  _jaccard a b = _jaccard b a /\
  ((_jaccard a b == 1)%Q <-> word_set a <> ∅ /\ word_set a = word_set b).
Proof.
  split; [|split].
  - destruct (jaccard_cases a b) as [[_ ->]|(Ha & Hb & ->)]; [split; discriminate|].
    pose proof (union_size_positive _ (word_set b) Ha) as Hpos.
    assert (Hle : (inject_Z (Z.of_nat (size (word_set a ∩ word_set b))) <=
                   inject_Z (Z.of_nat (size (word_set a ∪ word_set b))))%Q).
    { rewrite <- Zle_Qle. apply inj_le. apply subseteq_size. set_solver. }
    assert (H0 : (inject_Z 0 <= inject_Z (Z.of_nat (size (word_set a ∩ word_set b))))%Q)
      by (rewrite <- Zle_Qle; lia).
    change (inject_Z 0) with 0%Q in H0.
    split.
    + apply Qle_shift_div_l; [exact Hpos | lra].
    + apply Qle_shift_div_r; [exact Hpos | lra].
  - unfold _jaccard. rewrite orb_comm.
    rewrite (comm_L (∩) (list_to_set (Py.split a) : gset string)).
    rewrite (comm_L (∪) (list_to_set (Py.split a) : gset string)).
    reflexivity.
  - destruct (jaccard_cases a b) as [[Hab ->]|(Ha & Hb & ->)].
    + split; [discriminate|]. intros [Ha Heq]. exfalso.
      destruct Hab as [H|H]; [auto | rewrite Heq in Ha; auto].
    + pose proof (union_size_positive _ (word_set b) Ha) as Hpos.
      split.
      * intros H1. split; [exact Ha|].
        assert (Hsz : size (word_set a ∩ word_set b) = size (word_set a ∪ word_set b)).
        { apply Nat2Z.inj. apply (proj1 (inject_Z_injective _ _)).
          apply (Qmult_inj_r _ _ (/ inject_Z (Z.of_nat (size (word_set a ∪ word_set b))))).
          - intros Hz. apply (Qinv_lt_0_compat _) in Hpos. rewrite Hz in Hpos.
            apply Qlt_irrefl in Hpos. exact Hpos.
          - fold (Qdiv (inject_Z (Z.of_nat (size (word_set a ∩ word_set b))))
                       (inject_Z (Z.of_nat (size (word_set a ∪ word_set b))))).
            rewrite H1. rewrite Qmult_inv_r; [reflexivity|].
            intros Hz. rewrite Hz in Hpos. apply Qlt_irrefl in Hpos. exact Hpos. }
        assert (Hsub : word_set a ∩ word_set b ⊆ word_set a ∪ word_set b) by set_solver.
        assert (Heq : word_set a ∩ word_set b = word_set a ∪ word_set b).
        { apply leibniz_equiv. apply set_subseteq_size_equiv; [exact Hsub | lia]. }
        apply leibniz_equiv. apply set_equiv. intros x.
        assert (Hx : x ∈ word_set a ∩ word_set b <-> x ∈ word_set a ∪ word_set b)
          by (rewrite Heq; reflexivity).
        set_solver.
      * intros [_ Heq]. rewrite <- Heq.
        rewrite intersection_idemp_L, union_idemp_L.
        unfold Qdiv. apply Qmult_inv_r.
        intros Hz. rewrite <- Heq, union_idemp_L in Hpos.
        rewrite Hz in Hpos. apply Qlt_irrefl in Hpos. exact Hpos.
Qed.

(** X7.  The similarity of two texts lies between 0 and 1, does not depend on
    the order of the two, and is 1 exactly when both have the same set
    of words (and have a word at all). *)
Theorem jaccard_is_a_similarity (a b : string) :
  (0 <= _jaccard a b <= 1)%Q /\
  _jaccard a b = _jaccard b a /\
  ((_jaccard a b == 1)%Q <-> word_set a <> ∅ /\ word_set a = word_set b).
Proof. exact (jaccard_facts a b). Qed.

(** X8.  A question found too similar at a threshold is found so at every
    lower one, and no question is found too similar at a threshold above
    1. *)
Theorem too_similar_lower_threshold (new_q : string) (th th' : Q)
    (self : InterviewState.t) :
  (th' <= th)%Q ->
  too_similar new_q th self = true ->
  (th <= 1)%Q /\ too_similar new_q th' self = true.
Proof.
  intros Hle H. unfold too_similar in *.
  apply existsb_exists in H. destruct H as (prev & Hin & Hj).
  unfold Qleb in Hj. apply Qle_bool_iff in Hj.
  destruct (jaccard_facts prev (_norm new_q)) as [[_ H1] _].
  split; [lra|].
  apply existsb_exists. exists prev. split; [exact Hin|].
  unfold Qleb. apply Qle_bool_iff. lra.
Qed.

(** X9.  At the threshold 1 a question is too similar exactly when a question
    in the history has the same set of words, in whatever order and
    however often repeated. *)
Theorem too_similar_at_one_is_same_words (new_q : string)
    (self : InterviewState.t) :
  too_similar new_q 1 self = true <->
  exists prev, In prev (questions_history self) /\
               word_set prev <> ∅ /\ word_set prev = word_set (_norm new_q).
Proof.
  unfold too_similar. rewrite existsb_exists.
  split; intros (prev & Hin & H); exists prev; (split; [exact Hin|]).
  - unfold Qleb in H. apply Qle_bool_iff in H.
    destruct (jaccard_facts prev (_norm new_q)) as ([_ H1] & _ & Hone).
    apply Hone. apply Qle_antisym; assumption.
  - destruct (jaccard_facts prev (_norm new_q)) as (_ & _ & Hone).
    unfold Qleb. apply Qle_bool_iff. rewrite (proj2 Hone H). apply Qle_refl.
Qed.

End Jaccard.

Section Reflexivity.
Import InterviewState.





End Reflexivity.

Section Normalisation.
Import InterviewState.

(** The substitution of [_norm], one character at a time. *)
Lemma norm_char_fixed c :
  Py.is_lower_alnum c || Ascii.eqb c " " = true ->
  (let d := Py.lower_char c in
   if Py.is_lower_alnum d || Py.isspace d then d else " "%char) = c.
Proof.
  destruct c as [[] [] [] [] [] [] [] []]; vm_compute; intros H;
    first [reflexivity | discriminate H].
Qed.

Lemma norm_char_range c :
  (let d := Py.lower_char c in
   let e := if Py.is_lower_alnum d || Py.isspace d then d else " "%char in
   negb (Py.isspace e) && negb (Py.is_lower_alnum e)) = false.
Proof. destruct c as [[] [] [] [] [] [] [] []]; vm_compute; reflexivity. Qed.

Lemma map_chars_fixed f s :
  Py.any_char (fun d => negb (Ascii.eqb (f d) d)) s = false ->
  Py.map_chars f s = s.
Proof.
  intros H.
  induction s as [|c s IH]; [reflexivity|].
  cbn in *. apply orb_false_iff in H. destruct H as [Hc Hs].
  apply negb_false_iff, Ascii.eqb_eq in Hc. rewrite Hc, (IH Hs). reflexivity.
Qed.

Lemma map_chars_map f g s :
  Py.map_chars f (Py.map_chars g s) = Py.map_chars (fun c => f (g c)) s.
Proof. induction s as [|c s IH]; cbn; [|rewrite IH]; reflexivity. Qed.

(** The runs keep only characters that are no separators, so a property
    of all such characters of the text holds of all characters of every
    run. *)
Lemma runs_chars sep q s cur :
  Py.any_char q cur = false ->
  Py.any_char (fun c => negb (sep c) && q c) s = false ->
  Forall (fun w => Py.any_char q w = false) (Py.runs sep cur s).
Proof.
  revert cur. induction s as [|c s IH]; intros cur Hcur Hs.
  - cbn. destruct cur; constructor; [exact Hcur | constructor].
  - cbn [Py.runs Py.any_char] in *. apply orb_false_iff in Hs. destruct Hs as [Hc Hs].
    destruct (sep c) eqn:Hsep.
    + destruct cur; [apply IH; [reflexivity | exact Hs]|].
      constructor; [exact Hcur | apply IH; [reflexivity | exact Hs]].
    + apply IH; [|exact Hs]. rewrite any_char_app, Hcur. cbn.
      cbn in Hc. rewrite Hc. reflexivity.
Qed.

Lemma runs_words_nonempty sep s cur :
  Forall (fun w => w <> EmptyString) (Py.runs sep cur s).
Proof.
  revert cur. induction s as [|c s IH]; intros cur.
  - cbn. destruct cur; constructor; [discriminate | constructor].
  - cbn [Py.runs]. destruct (sep c).
    + destruct cur; [apply IH|]. constructor; [discriminate | apply IH].
  + apply IH.
Qed.

Lemma append_cons x (a b : string) : (String x a ++ b)%string = String x (a ++ b).
Proof. reflexivity. Qed.

Lemma string_app_assoc (a b c : string) : ((a ++ b) ++ c = a ++ (b ++ c))%string.
Proof.
  induction a as [|x a IH]; [reflexivity|]. rewrite !append_cons, IH. reflexivity.
Qed.

Lemma string_app_empty_r (a : string) : (a ++ "")%string = a.
Proof.
  induction a as [|x a IH]; [reflexivity|]. rewrite append_cons, IH. reflexivity.
Qed.

(** A word without separators is read into the current run. *)
Lemma runs_word sep w cur rest :
  Py.any_char sep w = false ->
  Py.runs sep cur (w ++ rest) = Py.runs sep (cur ++ w) rest.
Proof.
  revert cur. induction w as [|c w IH]; intros cur Hw.
  - change (EmptyString ++ rest)%string with rest.
    rewrite string_app_empty_r. reflexivity.
  - cbn in Hw. apply orb_false_iff in Hw. destruct Hw as [Hc Hw].
    rewrite append_cons. cbn [Py.runs]. rewrite Hc, (IH _ Hw), string_app_assoc.
    reflexivity.
Qed.

(** Splitting the words joined by single blanks gives the words back. *)
Lemma split_join ws :
  Forall (fun w => w <> EmptyString) ws ->
  Forall (fun w => Py.any_char Py.isspace w = false) ws ->
  Py.split (Py.join " " ws) = ws.
Proof.
  unfold Py.split. induction ws as [|w ws IH]; intros Hne Hcl; [reflexivity|].
  pose proof (Forall_inv Hne) as Hw. pose proof (Forall_inv Hcl) as Hc.
  specialize (IH (Forall_inv_tail Hne) (Forall_inv_tail Hcl)).
  destruct ws as [|w2 ws].
  - cbn [Py.join]. rewrite <- (string_app_empty_r w) at 1.
    rewrite (runs_word _ _ _ _ Hc). change (EmptyString ++ w)%string with w.
    cbn [Py.runs]. destruct w; [congruence | reflexivity].
  - change (Py.join " " (w :: w2 :: ws))
      with (w ++ String " " (Py.join " " (w2 :: ws)))%string.
    rewrite (runs_word _ _ _ _ Hc). cbn [Py.runs].
    change (Py.isspace " ") with true. cbn iota.
    change (EmptyString ++ w)%string with w.
    destruct w; [congruence|]. rewrite IH. reflexivity.
Qed.

Lemma any_char_join q ws :
  q " "%char = false ->
  Forall (fun w => Py.any_char q w = false) ws ->
  Py.any_char q (Py.join " " ws) = false.
Proof.
  intros Hq. induction ws as [|w ws IH]; intros H; [reflexivity|].
  pose proof (Forall_inv H) as Hw. specialize (IH (Forall_inv_tail H)).
  destruct ws as [|w2 ws]; [exact Hw|].
  change (Py.join " " (w :: w2 :: ws))
    with (w ++ String " " (Py.join " " (w2 :: ws)))%string.
  rewrite any_char_app, Hw. cbn [orb Py.any_char]. rewrite Hq, IH. reflexivity.
Qed.

Lemma norm_words q :
  let ws := Py.split (Py.map_chars
              (fun c => if Py.is_lower_alnum c || Py.isspace c then c else " "%char)
              (Py.lower q)) in
  Forall (fun w => w <> EmptyString) ws /\
  Forall (fun w => Py.any_char Py.isspace w = false) ws /\
  Forall (fun w => Py.any_char (fun c => negb (Py.is_lower_alnum c)) w = false) ws.
Proof.
  cbv zeta. unfold Py.split. split; [apply runs_words_nonempty|]. split.
  - apply runs_clean. reflexivity.
  - apply runs_chars; [reflexivity|].
    unfold Py.lower. rewrite map_chars_map, any_char_map.
    induction q as [|c q IH]; [reflexivity|].
    cbn [Py.any_char]. rewrite IH, orb_false_r. apply norm_char_range.
Qed.

(** X10.  Normalising is idempotent, and the normal form is made of lower-case
    letters, digits and single blanks between words. *)
Theorem norm_idempotent (q : string) :
  _norm (_norm q) = _norm q /\
  Py.any_char (fun c => negb (Py.is_lower_alnum c || Ascii.eqb c " ")) (_norm q) = false /\
  Py.split (_norm q) =
    Py.split (Py.map_chars
                (fun c => if Py.is_lower_alnum c || Py.isspace c then c else " "%char)
                (Py.lower q)).
Proof.
  destruct (norm_words q) as (Hne & Hsp & Hal).
  unfold _norm at 2 3 4 5.
  set (ws := Py.split _) in *.
  assert (Hrange :
    Py.any_char (fun c => negb (Py.is_lower_alnum c || Ascii.eqb c " ")) (Py.join " " ws)
    = false).
  { apply any_char_join; [reflexivity|].
    eapply Forall_impl; [exact Hal|]. intros w Hw. cbv beta in *.
    clear -Hw. induction w as [|c w IH]; [reflexivity|].
    cbn in *. apply orb_false_iff in Hw. destruct Hw as [Hc Hw].
    rewrite (IH Hw), orb_false_r. apply negb_false_iff in Hc. rewrite Hc. reflexivity. }
  assert (Hfix : Py.map_chars
              (fun c => if Py.is_lower_alnum c || Py.isspace c then c else " "%char)
              (Py.lower (Py.join " " ws)) = Py.join " " ws).
  { unfold Py.lower. rewrite map_chars_map. apply map_chars_fixed.
    revert Hrange. generalize (Py.join " " ws). clear.
    induction s as [|c s IH]; [reflexivity|]. cbn. intros H.
    apply orb_false_iff in H. destruct H as [Hc Hs]. rewrite (IH Hs), orb_false_r.
    apply negb_false_iff in Hc. apply negb_false_iff, Ascii.eqb_eq.
    apply (norm_char_fixed c Hc). }
  split; [|split].
  - unfold _norm. rewrite Hfix, (split_join ws Hne Hsp). reflexivity.
  - exact Hrange.
  - apply (split_join ws Hne Hsp).
Qed.

End Normalisation.

Section TargetCategory.
Import InterviewState.

Lemma least_asked_minimal self :
  In (least_asked self) order /\
  forall c, In c order -> (times_asked (least_asked self) self <= times_asked c self)%nat.
Proof.
  unfold least_asked, times_asked, order. cbn [List.map min_key].
  set (f := count_of "funds" _). set (i := count_of "intent" _).
  set (t := count_of "ties" _). set (a := count_of "academics" _).
  assert (Hcases :
    forall c, In c ["funds"; "intent"; "ties"; "academics"] ->
              c = "funds" \/ c = "intent" \/ c = "ties" \/ c = "academics").
  { intros c H. cbn in H. intuition auto. }
  destruct (a <? t)%nat eqn:H1; destruct (_ <? i)%nat eqn:H2;
    destruct (_ <? f)%nat eqn:H3;
    rewrite ?Nat.ltb_lt, ?Nat.ltb_ge in *;
    (split; [cbn; auto 6|]);
    intros c Hc; destruct (Hcases c Hc) as [->|[->|[->| ->]]];
    fold f i t a; lia.
Qed.

Lemma first_unasked self :
  (size (category_set self) < 3)%nat ->
  exists c, List.find (fun c => negb (bool_decide (c ∈ category_set self))) order = Some c.
Proof.
  intros Hsize.
  destruct (List.find _ order) as [c|] eqn:Hfind; [eauto|]. exfalso.
  assert (Hall : forall c, In c order -> c ∈ category_set self).
  { intros c Hc. pose proof (find_none _ _ Hfind c Hc) as H. cbv beta in H.
    apply negb_false_iff, bool_decide_eq_true in H. exact H. }
  assert (Hsub : (list_to_set order : gset string) ⊆ category_set self).
  { intros c Hc. apply elem_of_list_to_set in Hc. apply Hall.
    apply list_elem_of_In. exact Hc. }
  apply subseteq_size in Hsub.
  assert (Hfour : size (list_to_set order : gset string) = 4%nat) by reflexivity.
  lia.
Qed.

(** X11.  The next target is always one of the four categories of [order].
    In the first five turns, while fewer than three categories were
    asked, it is one that was not asked yet; otherwise it is one that was
    asked least often. *)
Theorem next_target_category_policy (self : InterviewState.t) :
  let c := next_target_category self in
  In c order /\
  if (turn self <? 5) && (size (category_set self) <? 3)%nat
  then c ∉ category_set self
  else forall c', In c' order -> (times_asked c self <= times_asked c' self)%nat.
Proof.
  cbv zeta. unfold next_target_category.
  destruct ((turn self <? 5) && (size (category_set self) <? 3)%nat) eqn:Hearly;
    [|apply least_asked_minimal].
  apply andb_true_iff in Hearly. destruct Hearly as [_ Hsize].
  apply Nat.ltb_lt in Hsize.
  destruct (first_unasked self Hsize) as [c Hc]. rewrite Hc.
  apply find_some in Hc. destruct Hc as [Hin Hnot]. split; [exact Hin|].
  apply negb_true_iff, bool_decide_eq_false in Hnot. exact Hnot.
Qed.

End TargetCategory.

(** * More on the session controller *)

Section SessionState.
Import InterviewSession.

Lemma istate_keeps_refl i : istate_keeps 0 i i.
Proof. unfold istate_keeps. repeat split; auto; lia. Qed.

Lemma istate_keeps_trans n m i1 i2 i3 :
  istate_keeps n i1 i2 -> istate_keeps m i2 i3 -> istate_keeps (n + m) i1 i3.
Proof.
  intros (A1 & C1 & T1 & D1) (A2 & C2 & T2 & D2). unfold istate_keeps.
  rewrite A2, C2. repeat split; auto; lia.
Qed.

Lemma istate_keeps_weaken n m i i' :
  n <= m -> istate_keeps n i i' -> istate_keeps m i i'.
Proof. intros H (A & C & T & D). unfold istate_keeps. repeat split; auto; lia. Qed.

Lemma take_answer_istate w turn user_text self :
  istate_keeps 0 (istate self) (istate (take_answer w turn user_text self)).
Proof.
  unfold take_answer.
  match goal with |- context [if ?b then _ else _] => destruct b end; cbn;
    unfold istate_keeps; cbn; repeat split; auto; lia.
Qed.

Lemma ask_next_istate q ai_text self :
  istate_keeps 1 (istate self) (istate (ask_next q ai_text self)).
Proof.
  unfold ask_next. destruct q as [[|c r]|]; cbn;
    unfold istate_keeps; cbn; repeat split; auto; lia.
Qed.

Lemma turn_body_istate w turn self :
  istate_keeps 1 (istate self) (istate (fst (turn_body w turn self))).
Proof.
  unfold turn_body, _parse_ai.
  destruct (heard (listen_async w turn)) as [user_text|].
  - pose proof (take_answer_istate w turn user_text (hear self)) as Ha.
    change (istate (hear self)) with (istate self) in Ha.
    destruct (heard (reply_async w turn)) as [ai_text|];
      [|apply (istate_keeps_weaken 0); [lia | exact Ha]].
    destruct (Parser.parse_ai_with_ap ai_text user_text _) as [sc [p|e]];
      cbn [fst snd]; [|apply (istate_keeps_weaken 0); [lia | exact Ha]].
    destruct (Parser.p_decision p); cbn [fst];
      [apply (istate_keeps_weaken 0); [lia | exact Ha]|].
    apply (istate_keeps_trans 0 1 _ _ _ Ha).
    match goal with |- context [ask_next ?q ?a ?s] =>
      exact (ask_next_istate q a s) end.
  - destruct (turn <? 2)%nat; apply (istate_keeps_weaken 0); try lia;
      apply istate_keeps_refl.
Qed.

Lemma turn_loop_istate w turns self :
  istate_keeps (Z.of_nat (List.length turns)) (istate self)
               (istate (fst (turn_loop w turns self))).
Proof.
  revert self. induction turns as [|turn rest IH]; intros self.
  - apply istate_keeps_refl.
  - cbn [turn_loop List.length]. pose proof (turn_body_istate w turn self) as Hb.
    destruct (turn_body w turn self) as [s [[|d]|e]]; cbn [fst] in *.
    + replace (Z.of_nat (S (List.length rest))) with (1 + Z.of_nat (List.length rest)) by lia.
      eapply istate_keeps_trans; [exact Hb | apply IH].
    + apply (istate_keeps_weaken 1); [lia | exact Hb].
    + apply (istate_keeps_weaken 1); [lia | exact Hb].
Qed.

Lemma run_istate w self :
  istate_keeps (Z.of_nat (max_turns w)) (istate self) (istate (fst (run w self))).
Proof.
  unfold run.
  destruct (negb (interface_ok w));
    [apply (istate_keeps_weaken 0); [lia | apply istate_keeps_refl]|].
  destruct (negb (stt_ok w));
    [apply (istate_keeps_weaken 0); [lia | apply istate_keeps_refl]|].
  match goal with |- context [turn_loop w ?l ?s] =>
    pose proof (turn_loop_istate w l s) as Hl;
    destruct (turn_loop w l s) as [s' [[d|]|e]] end;
    cbn [fst] in *; rewrite length_seq in Hl; exact Hl.
Qed.

(** X12.  The turn counter of the interview state never runs ahead of the
    loop: during and after [run] it has risen by at most the number of
    passes made, hence by at most [max_turns], and it never falls. *)
Theorem turn_counter_within_budget (w : world) (turns : list nat)
    (self : InterviewSession.t) :
  let t0 := InterviewState.turn (istate self) in
  t0 <= InterviewState.turn (istate (fst (turn_loop w turns self)))
     <= t0 + Z.of_nat (List.length turns) /\
  t0 <= InterviewState.turn (istate (fst (run w self)))
     <= t0 + Z.of_nat (max_turns w).
Proof.
  cbv zeta. split.
  - apply (turn_loop_istate w turns self).
  - apply (run_istate w self).
Qed.

Lemma funds_when_nothing_asked i :
  InterviewState.asked_categories i = [] ->
  InterviewState.category_set i = ∅ ->
  InterviewState.next_target_category i = "funds".
Proof.
  intros Ha Hc.
  unfold InterviewState.next_target_category, InterviewState.least_asked.
  rewrite Ha, Hc. destruct (InterviewState.turn i <? 5); reflexivity.
Qed.

(** X13.  The controller records every question without a category, so in a
    session the record of asked categories stays empty and the target
    category computed for every answer is "funds" (which only the
    knowledge check overrides). *)
Theorem session_target_is_always_funds (w : world) (turns : list nat)
    (self : InterviewSession.t) :
  istate self = InterviewState.__init__ ->
  let i := istate (fst (turn_loop w turns self)) in
  InterviewState.asked_categories i = [] /\
  InterviewState.category_set i = ∅ /\
  InterviewState.next_target_category i = "funds".
Proof.
  intros H0. cbv zeta.
  destruct (turn_loop_istate w turns self) as (A & C & _).
  rewrite H0 in A, C. cbn in A, C.
  split; [exact A|]. split; [exact C|].
  apply funds_when_nothing_asked; assumption.
Qed.

(** X14.  The knowledge check is one-shot: taking an answer sets the flag when
    the answer or the profile points to biology, and never clears it;
    once it is set, taking an answer leaves the interview state alone and
    no later pass clears the flag. *)
Theorem knowledge_check_is_one_shot (w : world) (turn : nat) (turns : list nat)
    (user_text : string) (self : InterviewSession.t) :
  InterviewState.darwin_check_used (istate (take_answer w turn user_text self)) =
    InterviewState.darwin_check_used (istate self)
    || (AnswerAnalysis.bio_hint (AnswerAnalysis.__init__ user_text)
        || Py.contains "biology" (Py.lower (major w))) /\
  if InterviewState.darwin_check_used (istate self)
  then istate (take_answer w turn user_text self) = istate self /\
       InterviewState.darwin_check_used (istate (fst (turn_loop w turns self))) = true
  else InterviewState.turn (istate (take_answer w turn user_text self)) =
       InterviewState.turn (istate self).
Proof.
  split.
  - unfold take_answer. cbn [istate remember log emit].
    destruct (InterviewState.darwin_check_used (istate self)) eqn:Hd; cbn [negb andb orb].
    + cbn. exact Hd.
    + destruct (_ || _); cbn; [reflexivity | exact Hd].
  - destruct (InterviewState.darwin_check_used (istate self)) eqn:Hd.
    + split.
      * unfold take_answer. cbn [istate remember log emit]. rewrite Hd. reflexivity.
      * destruct (turn_loop_istate w turns self) as (_ & _ & _ & D). auto.
    + destruct (take_answer_istate w turn user_text self) as (_ & _ & T & _). lia.
Qed.

End SessionState.

Section ParserErrors.

Lemma fed_scorer_shape ai_text user_text sc :
  evidence_shape sc -> evidence_shape (fed_scorer ai_text user_text sc).
Proof.
  intros H. unfold fed_scorer. destruct (existsb _ _); [|exact H].
  apply update_shape, H.
Qed.

(** With the evidence lists of [reset] the parser always returns, having
    fed the scorer. *)
Lemma parse_returns ai_text user_text sc :
  evidence_shape sc -> Py.truthy ai_text = true ->
  exists p, Parser.parse_ai_with_ap ai_text user_text sc =
            (fed_scorer ai_text user_text sc, Returned p).
Proof.
  intros Hs Ht. unfold Parser.parse_ai_with_ap, fed_scorer. rewrite Ht. cbn [negb].
  destruct (existsb (String.eqb (Parser.cat (Parser.scan ai_text)))
                    Parser.scored_categories) eqn:Hc; [|eauto].
  pose proof (update_returns _ (Parser.pts (Parser.scan ai_text)) user_text sc
                Hs Hc (scan_cat ai_text)) as Hr.
  destruct (VisaScorer.update _ _ user_text sc) as [sc' o]. cbn [snd fst] in *.
  subst o. eauto.
Qed.

Lemma parse_shape ai_text user_text sc :
  evidence_shape sc ->
  evidence_shape (fst (Parser.parse_ai_with_ap ai_text user_text sc)).
Proof.
  intros Hs. destruct (Py.truthy ai_text) eqn:Ht.
  - destruct (parse_returns ai_text user_text sc Hs Ht) as [p ->].
    apply fed_scorer_shape, Hs.
  - unfold Parser.parse_ai_with_ap. rewrite Ht. exact Hs.
Qed.

Lemma parse_all_shape calls sc :
  evidence_shape sc -> evidence_shape (parse_all calls sc).
Proof.
  revert sc. induction calls as [|c calls IH]; intros sc Hs; [exact Hs|].
  unfold parse_all in *. cbn [fold_left]. apply IH, parse_shape, Hs.
Qed.

(** X15.  The [KeyError] of the scorer cannot be reached through the
    parser: whatever replies and answers were parsed one after another
    from a fresh scorer, the next call of [parse_ai_with_ap] returns.
    The category it hands to [update] is never "purpose", and every other
    scored category has an evidence list. *)
Theorem parser_never_raises (calls : list (string * string)) (ai_text user_text : string) :
  exists p,
    snd (Parser.parse_ai_with_ap ai_text user_text (parse_all calls VisaScorer.reset))
    = Returned p.
Proof.
  pose proof (parse_all_shape calls VisaScorer.reset reset_shape) as Hs.
  destruct (Py.truthy ai_text) eqn:Ht.
  - destruct (parse_returns ai_text user_text _ Hs Ht) as [p ->]. eauto.
  - unfold Parser.parse_ai_with_ap. rewrite Ht. cbn. eauto.
Qed.

End ParserErrors.

Section SessionTranscript.
Import InterviewSession.

Lemma said_nothing : said_consistently [] [].
Proof. repeat split. Qed.

Lemma shown_app a b : shown (a ++ b) = (shown a ++ shown b)%list.
Proof. unfold shown. apply flat_map_app. Qed.

Lemma spoken_app a b : spoken (a ++ b) = (spoken a ++ spoken b)%list.
Proof. unfold spoken. apply flat_map_app. Qed.

Lemma officer_lines_app a b :
  officer_lines (a ++ b) = (officer_lines a ++ officer_lines b)%list.
Proof. unfold officer_lines. rewrite List.filter_app, List.map_app. reflexivity. Qed.

Lemma said_app l1 e1 l2 e2 :
  said_consistently l1 e1 -> said_consistently l2 e2 ->
  said_consistently (l1 ++ l2) (e1 ++ e2).
Proof.
  intros (F1 & O1 & S1) (F2 & O2 & S2). unfold said_consistently.
  rewrite forallb_app, F1, F2, officer_lines_app, !shown_app, spoken_app.
  rewrite O1, O2, S1, S2. repeat split.
Qed.

Lemma says_refl self : says_consistently self self.
Proof.
  exists [], []. rewrite !app_nil_r. repeat split.
Qed.

Lemma says_same self self' :
  transcript self' = transcript self -> emitted self' = emitted self ->
  says_consistently self self'.
Proof.
  intros T E. exists [], []. rewrite T, E, !app_nil_r. repeat split.
Qed.

Lemma says_trans s1 s2 s3 :
  says_consistently s1 s2 -> says_consistently s2 s3 -> says_consistently s1 s3.
Proof.
  intros (l1 & e1 & T1 & E1 & H1) (l2 & e2 & T2 & E2 & H2).
  exists (l1 ++ l2)%list, (e1 ++ e2)%list.
  rewrite T2, T1, E2, E1, <- !app_assoc. repeat split; try apply said_app; auto.
  all: apply (said_app l1 e1 l2 e2 H1 H2).
Qed.

Lemma speak_says text self : says_consistently self (_speak_and_log text self).
Proof.
  exists [("OFFICER: " ++ text)%string], [display_officer text; speak_async text].
  repeat split.
Qed.

Lemma hear_says self : says_consistently self (hear self).
Proof.
  exists [], [update_status "Listening..."; update_status "Processing..."].
  cbn. rewrite app_nil_r, <- app_assoc. repeat split.
Qed.

Lemma take_answer_says w turn user_text self :
  says_consistently self (take_answer w turn user_text self).
Proof.
  exists [("APPLICANT: " ++ user_text)%string], [display_applicant user_text].
  unfold take_answer.
  match goal with |- context [if ?b then _ else _] => destruct b end;
    repeat split.
Qed.

Lemma ask_next_says q ai_text self : says_consistently self (ask_next q ai_text self).
Proof.
  unfold ask_next. destruct q as [[|c r]|].
  - exists [], []. cbn. rewrite !app_nil_r. repeat split.
  - exists [("OFFICER: " ++ String c r)%string],
           [display_officer (String c r); speak_async (String c r)].
    repeat split.
  - exists [], []. cbn. rewrite !app_nil_r. repeat split.
Qed.

Lemma turn_body_says w turn self :
  says_consistently self (fst (turn_body w turn self)).
Proof.
  unfold turn_body, _parse_ai.
  eapply says_trans; [apply hear_says|].
  destruct (heard (listen_async w turn)) as [user_text|].
  - eapply says_trans; [apply take_answer_says|].
    destruct (heard (reply_async w turn)) as [ai_text|].
    + destruct (Parser.parse_ai_with_ap ai_text user_text _) as [sc [p|e]];
        cbn [fst snd].
      * destruct (Parser.p_decision p); cbn [fst].
        -- eapply says_trans; [|apply speak_says]. apply says_same; reflexivity.
        -- eapply says_trans; [|apply ask_next_says]. apply says_same; reflexivity.
      * apply says_same; reflexivity.
    + cbn [fst]. eapply says_trans; [apply speak_says|]. apply says_same; reflexivity.
  - destruct (turn <? 2)%nat; cbn [fst]; [apply speak_says | apply says_refl].
Qed.

Lemma turn_loop_says w turns self :
  says_consistently self (fst (turn_loop w turns self)).
Proof.
  revert self. induction turns as [|turn rest IH]; intros self; [apply says_refl|].
  cbn [turn_loop]. pose proof (turn_body_says w turn self) as Hb.
  destruct (turn_body w turn self) as [s [[|d]|e]]; cbn [fst] in *;
    [eapply says_trans; [exact Hb | apply IH] | exact Hb | exact Hb].
Qed.

Lemma run_says w self : says_consistently self (fst (run w self)).
Proof.
  unfold run.
  destruct (negb (interface_ok w)); [apply says_refl|].
  destruct (negb (stt_ok w)); [apply says_refl|].
  match goal with |- context [turn_loop w ?l ?s] =>
    pose proof (turn_loop_says w l s) as Hl;
    destruct (turn_loop w l s) as [s' [[d|]|e]] end; cbn [fst] in *;
    (eapply says_trans; [|exact Hl]);
    (eapply says_trans; [apply speak_says|]); apply says_same; reflexivity.
Qed.

(** X16.  What the officer says is shown, spoken and logged alike: after [run]
    on a fresh controller every line of the transcript names its speaker,
    the officer's lines of the transcript are the texts shown, in order,
    and the texts shown are the texts spoken. *)
Theorem officer_lines_shown_spoken_logged (w : world) :
  let s := fst (run w __init__) in
  forallb transcript_line (transcript s) = true /\
  officer_lines (transcript s) = shown (emitted s) /\
  shown (emitted s) = spoken (emitted s).
Proof.
  cbv zeta. destruct (run_says w __init__) as (lines & events & T & E & H).
  rewrite T, E. exact H.
Qed.

(** X17.  The analysis note does not outlive the call it was made for: when an
    answer has been taken, the history is the earlier history and the
    answer, without any message that begins like the note (an answer
    that begins so is lost with it). *)
Theorem analysis_note_is_stripped (w : world) (turn : nat) (user_text : string)
    (self : InterviewSession.t) :
  history (take_answer w turn user_text self) =
    List.filter (fun m => negb (is_analysis_note m))
                (history self ++ [("user", user_text)]) /\
  forallb (fun m => negb (is_analysis_note m))
          (history (take_answer w turn user_text self)) = true.
Proof.
  assert (H : history (take_answer w turn user_text self) =
              List.filter (fun m => negb (is_analysis_note m))
                          (history self ++ [("user", user_text)])).
  { unfold take_answer.
    match goal with |- context [if ?b then _ else _] => destruct b end;
      cbn [history set_history remember log emit set_istate];
      rewrite List.filter_app; cbn [List.filter snd]; rewrite app_nil_r; reflexivity. }
  split; [exact H|]. rewrite H.
  apply forallb_forall. intros m Hm. apply List.filter_In in Hm. apply Hm.
Qed.

End SessionTranscript.

(** * More on the parser *)

Section ParserLines.
Import Parser.

Lemma step_unrecognised v line : recognised line = false -> step v line = v.
Proof.
  unfold recognised, step. intros H.
  apply orb_false_iff in H. destruct H as [H Hd].
  apply orb_false_iff in H. destruct H as [Hq Hs].
  destruct (negb (Py.truthy (Py.strip line))); [reflexivity|].
  rewrite Hq, Hs, Hd. reflexivity.
Qed.

Lemma fold_step_recognised ls v :
  fold_left step ls v = fold_left step (List.filter recognised ls) v.
Proof.
  revert v. induction ls as [|l ls IH]; intros v; [reflexivity|].
  cbn [fold_left List.filter]. destruct (recognised l) eqn:Hl.
  - cbn [fold_left]. apply IH.
  - rewrite (step_unrecognised v l Hl). apply IH.
Qed.

(** X18.  A reply without any of the three directives is no error: it gives no
    question and no decision, and the scorer is still fed, with the
    default "intent" and one point.  (For a scorer with the evidence
    lists of [reset].) *)
Theorem reply_without_directives (ai_text user_text : string) (sc : VisaScorer.t) :
  evidence_shape sc ->
  Py.truthy ai_text = true ->
  forallb (fun line => negb (recognised line)) (Py.splitlines ai_text) = true ->
  parse_ai_with_ap ai_text user_text sc =
  (fst (VisaScorer.update "intent" 1 user_text sc),
   Returned (mk_parsed None None false None None)).
Proof.
  intros Hs Ht Hno.
  assert (Hscan : scan ai_text = start).
  { unfold scan. rewrite fold_step_recognised.
    replace (List.filter recognised (Py.splitlines ai_text)) with (@nil string);
      [reflexivity|].
    symmetry. induction (Py.splitlines ai_text) as [|l ls IH]; [reflexivity|].
    cbn [forallb List.filter] in *. apply andb_true_iff in Hno. destruct Hno as [Hl Hls].
    apply negb_true_iff in Hl. rewrite Hl. apply IH, Hls. }
  unfold parse_ai_with_ap. rewrite Ht, Hscan. cbn [negb start cat pts q decision
    score_line dec_line existsb scored_categories].
  change (String.eqb "intent" "academics" || (String.eqb "intent" "funds" ||
           (String.eqb "intent" "ties" || (String.eqb "intent" "intent" ||
           (String.eqb "intent" "purpose" || false))))) with true. cbn iota.
  pose proof (update_returns "intent" 1 user_text sc Hs eq_refl) as Hr.
  destruct (VisaScorer.update "intent" 1 user_text sc) as [sc' o].
  cbn [fst snd] in *. rewrite Hr by discriminate. reflexivity.
Qed.

(** X19.  The category that the parser hands to the scorer is never "purpose":
    a score line for "purpose" is booked under "intent", so that the
    weight and the keywords of "purpose" are out of reach of a
    session. *)
Theorem parsed_category_never_purpose (ai_text : string) :
  cat (scan ai_text) <> "purpose" /\
  (forall v line, cat v <> "purpose" -> cat (step v line) <> "purpose") /\
  m !! "purpose" = Some "intent".
Proof.
  split; [apply scan_cat|]. split; [intros v line; apply step_cat | reflexivity].
Qed.

(** X20.  The question that the parser returns never asks to be shown or
    provided a document, unless it mentions the DS-160: such a question
    is replaced by a fixed request to explain. *)
Theorem question_never_asks_for_documents (ai_text user_text : string)
    (sc : VisaScorer.t) (p : parsed) (question : string) :
  snd (parse_ai_with_ap ai_text user_text sc) = Returned p ->
  p_q p = Some question ->
  Py.contains "ds-160" (Py.lower question) = true \/
  any_in ["show me"; "provide document"] (Py.lower question) = false.
Proof.
  unfold parse_ai_with_ap. intros Hp Hq.
  destruct (negb (Py.truthy ai_text)).
  - cbn in Hp. injection Hp as <-. discriminate Hq.
  - destruct (if existsb _ _ then _ else _) as [sc' [[]|e]]; cbn in Hp; [|discriminate].
    injection Hp as <-. cbn [p_q] in Hq. revert Hq. unfold sanitize.
    destruct (q (scan ai_text)) as [[|c r]|]; [|idtac|discriminate].
    + intros [= <-]. right. reflexivity.
    + destruct (Py.contains "ds-160" (Py.lower (String c r))) eqn:Hds.
      * intros [= <-]. left. exact Hds.
      * destruct (any_in _ (Py.lower (String c r))) eqn:Hany.
        -- intros [= <-]. right. reflexivity.
        -- intros [= <-]. right. exact Hany.
Qed.

End ParserLines.

(** * More on the escalation tracker *)

Section TrackerCounts.
Import AdministrativeProcessingTracker.

Lemma fire_counts test bump reason st :
  (forall x, total (bump x) = total x + 1) ->
  total (fst (fire test bump reason st)) - Z.of_nat (List.length (snd (fire test bump reason st)))
  = total (fst st) - Z.of_nat (List.length (snd st)).
Proof.
  intros Hb. unfold fire. destruct test; cbn [fst snd]; [|reflexivity].
  rewrite Hb, length_app. cbn [List.length]. lia.
Qed.

(** X21.  A call of [analyze_response] raises the total of the counters by the
    number of triggers it reports, which is at most four; no counter
    falls, and there is a reason text exactly when a trigger fired. *)
Theorem analyze_response_counts_its_triggers (text : string) (a : analysis_dict)
    (turn : Z) (self : AdministrativeProcessingTracker.t) :
  let r := analyze_response text a turn self in
  total_triggers (snd r) = total self + Z.of_nat (List.length (triggers (snd r))) /\
  (List.length (triggers (snd r)) <= 4)%nat /\
  financial_triggers self <= financial_triggers (fst r) /\
  academic_triggers self <= academic_triggers (fst r) /\
  consistency_triggers self <= consistency_triggers (fst r) /\
  credibility_triggers self <= credibility_triggers (fst r) /\
  (ap_reason (snd r) = None <-> triggers (snd r) = []).
Proof.
  cbv zeta. unfold analyze_response.
  cbn [fst snd total_triggers triggers ap_reason].
  destruct (_financial_uncertainty text); destruct (_academic_issues text a);
    destruct (match consistency_flags a with Some (_ :: _) => true | _ => false end);
    destruct (_credibility_concerns text a);
    cbn; unfold total; cbn; repeat split; try lia; try discriminate; auto.
Qed.

(** X22.  A short answer without a word about money escalates at once: on a
    fresh tracker, an answer of fewer than eight words that names none of
    the financial terms fires the financial and the academic trigger
    together, and the first call already reports an escalation. *)
Theorem short_answer_escalates_at_once (text : string) (a : analysis_dict)
    (turn : Z) :
  (List.length (Py.split text) < 8)%nat ->
  any_in financial_terms (Py.lower text) = false ->
  let r := analyze_response text a turn __init__ in
  should_escalate_ap (snd r) = true /\
  financial_triggers (fst r) = 1 /\ academic_triggers (fst r) = 1.
Proof.
  intros Hshort Hmoney. cbv zeta. unfold analyze_response.
  assert (Hf : _financial_uncertainty text = true).
  { unfold _financial_uncertainty. rewrite Hmoney. apply orb_true_r. }
  assert (Ha : _academic_issues text a = true).
  { unfold _academic_issues. apply orb_true_iff. right. apply Nat.ltb_lt. exact Hshort. }
  rewrite Hf, Ha. cbn [fire fst snd].
  destruct (match consistency_flags a with Some (_ :: _) => true | _ => false end);
    destruct (_credibility_concerns text a); cbn; repeat split; reflexivity.
Qed.

End TrackerCounts.

(** * More on the answer analysis *)

Section AnalysisFacts.
Import AnswerAnalysis.

Lemma startswith_app a b : Py.startswith a (a ++ b) = true.
Proof.
  induction a as [|c a IH]; [reflexivity|].
  rewrite append_cons. cbn. rewrite Ascii.eqb_refl, IH. reflexivity.
Qed.

Lemma contains_startswith a s : Py.startswith a s = true -> Py.contains a s = true.
Proof. intros H. destruct s; cbn [Py.contains]; rewrite H; reflexivity. Qed.

Lemma contains_prefix a b : Py.contains a (a ++ b) = true.
Proof. apply contains_startswith, startswith_app. Qed.

Lemma contains_suffix w a b : Py.contains w b = true -> Py.contains w (a ++ b) = true.
Proof.
  intros H. induction a as [|c a IH]; [exact H|].
  rewrite append_cons. cbn [Py.contains]. rewrite IH. apply orb_true_r.
Qed.

(** Every run is a piece of the text it was read from. *)
Lemma runs_substrings sep s cur :
  Forall (fun w => Py.contains w (cur ++ s) = true) (Py.runs sep cur s).
Proof.
  revert cur. induction s as [|c s IH]; intros cur.
  - cbn [Py.runs]. destruct cur; constructor; [|constructor]. apply contains_prefix.
  - cbn [Py.runs]. destruct (sep c).
    + assert (Hrest : Forall (fun w => Py.contains w (cur ++ String c s) = true)
                             (Py.runs sep EmptyString s)).
      { eapply Forall_impl; [apply (IH EmptyString)|]. intros w Hw. cbv beta in *.
        apply contains_suffix. change (EmptyString ++ s)%string with s in Hw.
        cbn [Py.contains]. rewrite Hw. apply orb_true_r. }
      destruct cur; [exact Hrest|].
      constructor; [apply contains_prefix | exact Hrest].
    + eapply Forall_impl; [apply (IH (cur ++ String c EmptyString)%string)|].
      intros w Hw. cbv beta in *. rewrite string_app_assoc in Hw. exact Hw.
Qed.

Lemma token_in_text text w :
  w ∈ token_set (__init__ text) -> Py.contains w (lower (__init__ text)) = true.
Proof.
  cbn [token_set lower __init__]. rewrite elem_of_list_to_set. intros Hin.
  pose proof (runs_substrings (fun c => negb (Py.is_lower_alnum c)) (Py.lower text)
                EmptyString) as Hall.
  rewrite Forall_forall in Hall. apply (Hall w Hin).
Qed.

(** X23.  The vagueness flag never fires without cause: an answer flagged as
    vague has fewer than four tokens or contains one of the uncertainty
    phrases, that is, [uncertainty_detected] holds of it. *)
Theorem vague_has_a_cause (text : string) :
  vague (__init__ text) = true ->
  (length (__init__ text) < 4)%nat \/ uncertainty_detected (__init__ text) = true.
Proof.
  cbn [vague length uncertainty_detected __init__]. intros H.
  apply orb_true_iff in H. destruct H as [H|H]; [left; apply Nat.ltb_lt, H|].
  right. unfold any_token in H. apply existsb_exists in H.
  destruct H as (w & Hw & Htok). apply bool_decide_eq_true in Htok.
  unfold any_in. apply existsb_exists. exists w. split; [exact Hw|].
  apply (token_in_text text w Htok).
Qed.

Lemma runs_of_separators sep s :
  Py.any_char (fun c => negb (sep c)) s = false -> Py.runs sep EmptyString s = [].
Proof.
  induction s as [|c s IH]; [reflexivity|]. cbn. intros H.
  apply orb_false_iff in H. destruct H as [Hc Hs].
  apply negb_false_iff in Hc. rewrite Hc. apply IH, Hs.
Qed.

Lemma lower_char_alnum c :
  Py.isalnum c = false -> negb (negb (Py.is_lower_alnum (Py.lower_char c))) = false.
Proof.
  destruct c as [[] [] [] [] [] [] [] []]; vm_compute; intros H;
    first [reflexivity | discriminate H].
Qed.

(** X24.  An answer in ASCII without a letter or digit has no tokens: it
    is vague, has no primary category, no hints, no profanity, and none
    of the phrase tests can fire on a token. *)
Theorem answer_without_words (text : string) :
  Py.isascii text = true ->
  has_word text = false ->
  let a := __init__ text in
  tokens a = [] /\ length a = 0%nat /\ vague a = true /\ primary a = None /\
  profanity a = false /\ bio_hint a = false /\ cs_hint a = false /\ uni_hint a = false.
Proof.
  intros _ H. cbv zeta.
  assert (Htok : Py.findall_lower_alnum (Py.lower text) = []).
  { unfold Py.findall_lower_alnum. apply runs_of_separators.
    unfold Py.lower. rewrite any_char_map.
    unfold has_word in H. induction text as [|c text IH]; [reflexivity|].
    cbn in *. apply orb_false_iff in H. destruct H as [Hc Ht].
    rewrite (IH Ht), orb_false_r. apply lower_char_alnum, Hc. }
  cbn [tokens length vague primary profanity bio_hint cs_hint uni_hint __init__].
  rewrite Htok. repeat split; reflexivity.
Qed.

Lemma max_key_in counts k n :
  max_key counts = Some (k, n) ->
  In (k, n) counts /\ forall k' n', In (k', n') counts -> (n' <= n)%nat.
Proof.
  revert k n. induction counts as [|[k0 n0] counts IH]; intros k n H; [discriminate|].
  cbn [max_key] in H. destruct (max_key counts) as [[k1 n1]|] eqn:Hm.
  - destruct (IH _ _ eq_refl) as [Hin Hmax].
    destruct (n0 <? n1)%nat eqn:Hlt; inversion H; subst; clear H.
    + apply Nat.ltb_lt in Hlt. split; [right; exact Hin|].
      intros k' n' [Heq|Hin']; [inversion Heq; subst; lia | eapply Hmax, Hin'].
    + apply Nat.ltb_ge in Hlt. split; [left; reflexivity|].
      intros k' n' [Heq|Hin']; [inversion Heq; subst; lia|].
      specialize (Hmax _ _ Hin'). lia.
  - inversion H; subst; clear H. split; [left; reflexivity|].
    assert (Hnil : counts = []).
    { destruct counts as [|[k1 n1] counts']; [reflexivity|].
      cbn [max_key] in Hm. destruct (max_key counts') as [[k2 n2]|];
        [destruct (n1 <? n2)%nat|]; discriminate. }
    subst counts. intros k' n' [Heq|[]]. inversion Heq; subst; lia.
Qed.

(** X25.  The primary category is one of the four of [HINTS], has at least one
    hint among the tokens and no fewer than any other category; there is
    none exactly when no hint of any category is a token. *)
Theorem primary_category_has_most_hints (text : string) :
  let a := __init__ text in
  match primary a with
  | Some c =>
      exists hints, In (c, hints) HINTS /\
        (0 < hint_count hints (token_set a))%nat /\
        forall c' hints', In (c', hints') HINTS ->
          (hint_count hints' (token_set a) <= hint_count hints (token_set a))%nat
  | None =>
      forall c' hints', In (c', hints') HINTS -> hint_count hints' (token_set a) = 0%nat
  end.
Proof.
  cbv zeta. cbn [primary token_set __init__]. unfold _primary_cat.
  set (ts := list_to_set _ : gset string).
  set (counts := List.map (fun kh => (fst kh, hint_count (snd kh) ts)) HINTS).
  assert (Hcounts : forall c hints, In (c, hints) HINTS -> In (c, hint_count hints ts) counts).
  { intros c hints Hin. subst counts. apply in_map_iff. exists (c, hints). auto. }
  destruct (max_key counts) as [[c n]|] eqn:Hm.
  - destruct (max_key_in counts c n Hm) as [Hin Hmax].
    subst counts. apply in_map_iff in Hin. destruct Hin as ([c0 hints] & [= <- <-] & Hin).
    destruct (0 <? hint_count hints ts)%nat eqn:Hpos.
    + exists hints. split; [exact Hin|]. split; [apply Nat.ltb_lt, Hpos|].
      intros c' hints' Hin'. apply (Hmax c'), Hcounts, Hin'.
    + apply Nat.ltb_ge in Hpos. intros c' hints' Hin'.
      pose proof (Hmax c' _ (Hcounts _ _ Hin')). cbn [fst snd] in *. lia.
  - exfalso. subst counts. cbn in Hm.
    repeat match type of Hm with context [if ?b then _ else _] => destruct b end;
      discriminate.
Qed.

End AnalysisFacts.

(** * The status line, the case id and the officer's style *)

Section Periphery.

Lemma string_length_app (a b : string) :
  String.length (a ++ b)%string = (String.length a + String.length b)%nat.
Proof.
  induction a as [|c a IH]; [reflexivity|].
  rewrite append_cons. cbn. rewrite IH. reflexivity.
Qed.

Lemma string_length_drop n (s : string) :
  String.length (Py.drop n s) = (String.length s - n)%nat.
Proof.
  revert s. induction n as [|n IH]; intros [|c s]; cbn; auto.
Qed.

(** X26.  The status line never exceeds 90 characters: its length is the
    smaller of 90 and the length of the text, and it is the text itself
    exactly when the text has at most 90 characters. *)
Theorem status_line_fits (text : string) :
  String.length (status_line text) = Nat.min 90 (String.length text) /\
  (status_line text = text <-> (String.length text <= 90)%nat).
Proof.
  unfold status_line.
  destruct (90 <? String.length text)%nat eqn:H;
    rewrite ?Nat.ltb_lt, ?Nat.ltb_ge in H.
  - assert (Hlen : String.length ("..." ++ Py.drop (String.length text - (90 - 3)) text)
                   = 90%nat).
    { rewrite string_length_app, string_length_drop. cbn. lia. }
    split; [rewrite Hlen; lia|]. split; [|lia].
    intros Heq. rewrite Heq in Hlen. lia.
  - split; [lia|]. split; [lia | reflexivity].
Qed.

Import DS160Manager.

Lemma any_char_keep p q s :
  (forall c, q c = true -> p c = false) ->
  Py.any_char q (keep_chars p s) = false.
Proof.
  intros H. induction s as [|c s IH]; [reflexivity|].
  cbn. destruct (p c) eqn:Hp; [|exact IH].
  cbn. rewrite IH, orb_false_r.
  destruct (q c) eqn:Hq; [|reflexivity]. rewrite (H c Hq) in Hp. discriminate.
Qed.

Lemma any_char_map_false q f s :
  (forall c, q (f c) = false) -> Py.any_char q (Py.map_chars f s) = false.
Proof.
  intros H. induction s as [|c s IH]; [reflexivity|].
  cbn. rewrite H, IH. reflexivity.
Qed.

Lemma lower_word_char c :
  is_word_char c = true ->
  negb (Py.is_lower_alnum (Py.lower_char c) || Ascii.eqb (Py.lower_char c) "_") = false.
Proof.
  destruct c as [[] [] [] [] [] [] [] []]; vm_compute; intros H;
    first [reflexivity | discriminate H].
Qed.

(** X27.  The case id of an applicant with an ASCII name is safe as a
    file name: its name part is made of lower-case letters, digits and
    underscores only, and with a time stamp free of path separators the
    whole id has neither a slash nor a backslash, whatever the visa type
    is. *)
Theorem case_id_has_no_separator (name visa_type ts : string) :
  Py.isascii name = true ->
  Py.any_char is_separator ts = false ->
  Py.any_char is_separator (case_id name visa_type ts) = false /\
  Py.any_char (fun c => negb (Py.is_lower_alnum c || Ascii.eqb c "_"))
              (Py.lower (remove_non_word name)) = false.
Proof.
  intros _ Hts. split.
  - unfold case_id. rewrite !any_char_app, Hts.
    assert (Hname : Py.any_char is_separator (Py.lower (remove_non_word name)) = false).
    { unfold Py.lower, remove_non_word. rewrite any_char_map.
      apply any_char_keep. intros c.
      destruct c as [[] [] [] [] [] [] [] []]; vm_compute; intros H;
        first [reflexivity | discriminate H]. }
    assert (Hvisa : Py.any_char is_separator
                      (replace_char "\" "_" (replace_char "/" "_" visa_type)) = false).
    { unfold replace_char. rewrite map_chars_map. apply any_char_map_false. intros c.
      destruct c as [[] [] [] [] [] [] [] []]; vm_compute; reflexivity. }
    rewrite Hname, Hvisa. reflexivity.
  - unfold Py.lower, remove_non_word. rewrite any_char_map.
    induction name as [|c name IH]; [reflexivity|].
    cbn [keep_chars]. destruct (is_word_char c) eqn:Hc; [|exact IH].
    cbn [Py.any_char]. rewrite IH, orb_false_r. apply lower_word_char, Hc.
Qed.

Import Style.

Lemma lookup_choice (entries : list (string * string)) (choice : string) :
  (list_to_map entries : gmap string string) !! choice =
  match List.find (fun kv => String.eqb (fst kv) choice) entries with
  | Some kv => Some (snd kv)
  | None => None
  end.
Proof.
  induction entries as [|[k v] entries IH]; [apply lookup_empty|].
  cbn [list_to_map foldr List.find fst snd]. destruct (String.eqb_spec k choice) as [->|Hne].
  - apply lookup_insert_eq.
  - rewrite lookup_insert_ne by exact Hne. exact IH.
Qed.

(** X28.  Of the four styles offered, only "skeptical" changes the prompt:
    with the default style "strict", every choice other than "2" -
    "thorough" and "friendly_strict" included, which the prompt does not
    know - gives the strict style text.  Likewise only the choices "1"
    and "2" give an embassy context other than the generic one. *)
Theorem only_skeptical_style_differs (choice : string) :
  style_text "strict" choice =
    (if String.eqb choice "2" then skeptical else strict) /\
  embassy_context "generic" choice =
    (if String.eqb choice "1"
     then "Emphasize verifiable funding sources and home-family ties."
     else if String.eqb choice "2"
          then "Emphasize academic fit and English proficiency."
          else generic).
Proof.
  unfold style_text, embassy_context, style_map, emb_map.
  rewrite !lookup_choice. cbn [List.find fst snd].
  rewrite !(String.eqb_sym _ choice).
  destruct (String.eqb choice "1") eqn:H1.
  { apply String.eqb_eq in H1. subst. split; reflexivity. }
  destruct (String.eqb choice "2") eqn:H2.
  { split; reflexivity. }
  destruct (String.eqb choice "3") eqn:H3.
  { split; reflexivity. }
  destruct (String.eqb choice "4") eqn:H4; split; reflexivity.
Qed.

End Periphery.

(** * Instances of the further properties *)

Lemma update_raises_witness :
  evidence_shape VisaScorer.reset /\
  snd (VisaScorer.update "purpose" 2 "a business visit" VisaScorer.reset)
    = Raised (KeyError "purpose").
Proof.
  assert (H : evidence_shape VisaScorer.reset) by (vm_compute; reflexivity).
  split; [exact H|].
  rewrite (update_raises_only_for_matched_purpose "purpose" 2 "a business visit"
             VisaScorer.reset H).
  reflexivity.
Defined.

Lemma too_similar_lower_threshold_witness :
  (1 # 2 <= 8 # 10)%Q /\
  InterviewState.too_similar "Why this university?" (8 # 10)
    (InterviewState.record "Why this university" None InterviewState.__init__) = true /\
  InterviewState.too_similar "Why this university?" (1 # 2)
    (InterviewState.record "Why this university" None InterviewState.__init__) = true.
Proof.
  assert (Hle : (1 # 2 <= 8 # 10)%Q) by (vm_compute; discriminate).
  assert (Hs : InterviewState.too_similar "Why this university?" (8 # 10)
                 (InterviewState.record "Why this university" None InterviewState.__init__)
               = true) by (vm_compute; reflexivity).
  split; [exact Hle|]. split; [exact Hs|].
  exact (proj2 (too_similar_lower_threshold _ _ _ _ Hle Hs)).
Defined.

Lemma session_target_witness :
  InterviewSession.istate InterviewSession.__init__ = InterviewState.__init__ /\
  InterviewState.next_target_category
    (InterviewSession.istate
       (fst (InterviewSession.turn_loop hedging_applicant [0; 1; 2]%nat
               InterviewSession.__init__))) = "funds".
Proof.
  assert (H : InterviewSession.istate InterviewSession.__init__ = InterviewState.__init__)
    by reflexivity.
  split; [exact H|].
  exact (proj2 (proj2 (session_target_is_always_funds hedging_applicant [0; 1; 2]%nat
                         InterviewSession.__init__ H))).
Defined.

Lemma reply_without_directives_witness :
  evidence_shape VisaScorer.reset /\
  Py.truthy "Thank you for coming." = true /\
  forallb (fun line => negb (recognised line)) (Py.splitlines "Thank you for coming.") = true /\
  Parser.parse_ai_with_ap "Thank you for coming." "I plan to return home" VisaScorer.reset =
  (fst (VisaScorer.update "intent" 1 "I plan to return home" VisaScorer.reset),
   Returned (Parser.mk_parsed None None false None None)).
Proof.
  assert (H : evidence_shape VisaScorer.reset) by (vm_compute; reflexivity).
  assert (Ht : Py.truthy "Thank you for coming." = true) by reflexivity.
  assert (Hn : forallb (fun line => negb (recognised line))
                       (Py.splitlines "Thank you for coming.") = true) by reflexivity.
  split; [exact H|]. split; [exact Ht|]. split; [exact Hn|].
  exact (reply_without_directives _ "I plan to return home" _ H Ht Hn).
Defined.

Lemma question_replaced_witness :
  snd (Parser.parse_ai_with_ap "QUESTION: Show me your bank statement" "hello"
         VisaScorer.reset)
    = Returned (Parser.mk_parsed (Some "Can you explain that in more detail?")
                                 None false None None) /\
  (Py.contains "ds-160" (Py.lower "Can you explain that in more detail?") = true \/
   any_in ["show me"; "provide document"]
          (Py.lower "Can you explain that in more detail?") = false).
Proof.
  assert (H : snd (Parser.parse_ai_with_ap "QUESTION: Show me your bank statement" "hello"
                     VisaScorer.reset)
              = Returned (Parser.mk_parsed (Some "Can you explain that in more detail?")
                                           None false None None))
    by (vm_compute; reflexivity).
  split; [exact H|].
  exact (question_never_asks_for_documents _ _ _ _ _ H eq_refl).
Defined.

Lemma short_answer_witness :
  (List.length (Py.split "I will study") < 8)%nat /\
  any_in AdministrativeProcessingTracker.financial_terms (Py.lower "I will study") = false /\
  AdministrativeProcessingTracker.should_escalate_ap
    (snd (AdministrativeProcessingTracker.analyze_response "I will study"
            (AdministrativeProcessingTracker.mk_analysis (Some 1%Q) None None) 1
            AdministrativeProcessingTracker.__init__)) = true.
Proof.
  assert (Hs : (List.length (Py.split "I will study") < 8)%nat) by (vm_compute; lia).
  assert (Hm : any_in AdministrativeProcessingTracker.financial_terms
                      (Py.lower "I will study") = false) by reflexivity.
  split; [exact Hs|]. split; [exact Hm|].
  exact (proj1 (short_answer_escalates_at_once "I will study"
                  (AdministrativeProcessingTracker.mk_analysis (Some 1%Q) None None) 1
                  Hs Hm)).
Defined.

Lemma vague_has_a_cause_witness :
  AnswerAnalysis.vague
    (AnswerAnalysis.__init__ "Perhaps my uncle will pay for the first year") = true /\
  ((AnswerAnalysis.length
      (AnswerAnalysis.__init__ "Perhaps my uncle will pay for the first year") < 4)%nat \/
   AnswerAnalysis.uncertainty_detected
     (AnswerAnalysis.__init__ "Perhaps my uncle will pay for the first year") = true).
Proof.
  assert (H : AnswerAnalysis.vague
                (AnswerAnalysis.__init__ "Perhaps my uncle will pay for the first year")
              = true) by (vm_compute; reflexivity).
  split; [exact H|].
  exact (vague_has_a_cause _ H).
Defined.

Lemma answer_without_words_witness :
  Py.isascii "?! ..." = true /\
  has_word "?! ..." = false /\
  AnswerAnalysis.tokens (AnswerAnalysis.__init__ "?! ...") = [] /\
  AnswerAnalysis.vague (AnswerAnalysis.__init__ "?! ...") = true.
Proof.
  assert (Ha : Py.isascii "?! ..." = true) by reflexivity.
  assert (H : has_word "?! ..." = false) by reflexivity.
  split; [exact Ha|]. split; [exact H|].
  pose proof (answer_without_words "?! ..." Ha H) as (Ht & _ & Hv & _).
  split; [exact Ht | exact Hv].
Defined.

Lemma case_id_witness :
  Py.isascii "Asha K./Rai" = true /\
  Py.any_char DS160Manager.is_separator "20260103093000" = false /\
  Py.any_char DS160Manager.is_separator
    (DS160Manager.case_id "Asha K./Rai" "B1/B2" "20260103093000") = false.
Proof.
  assert (Ha : Py.isascii "Asha K./Rai" = true) by reflexivity.
  assert (H : Py.any_char DS160Manager.is_separator "20260103093000" = false)
    by reflexivity.
  split; [exact Ha|]. split; [exact H|].
  exact (proj1 (case_id_has_no_separator "Asha K./Rai" "B1/B2" "20260103093000" Ha H)).
Defined.

Example case_id_sample :
  DS160Manager.case_id "Asha K./Rai" "B1/B2" "20260103093000"
  = "ashakrai_B1_B2_20260103093000".
Proof. reflexivity. Qed.

Example status_line_long :
  status_line
    "Listening... the applicant keeps talking about the plans for the first year at the university and after"
  = "... applicant keeps talking about the plans for the first year at the university and after".
Proof. reflexivity. Qed.
